(** * Postprocessing of TrafficCamNet / DetectNet-v2 inference outputs

    A shallow embedding of
    [tao_triton/python/postprocessing/trafficcamnet_processor.py]
    ([load_clustering_config], [TrafficCamNetPostprocessor.configure],
    [TrafficCamNetPostprocessor.apply]) and of the [predict] and [status]
    methods of the three model classes of [triton_client].

    Conventions of the embedding:
    - in the model of the pipeline numpy floats are exact rationals
      ([Q]); what is stated of that model does not turn on rounding:
      which exception is raised, which class and image a detection
      belongs to, how many entries come back and from which frames;
    - the loop over the clusters, whose results do turn on rounding, is
      given once more over an interface of the floating-point operations
      ([Float], [ClusterLoop]), of which exact arithmetic and IEEE 754
      single precision are instances;
    - a Python exception is the [Raise] branch of [result];
    - a numpy array of rank four is a shape together with an accessor;
    - Python dicts and the protobuf map are [gmap string _];
    - collaborators that are not part of these sources (the DBSCAN
      estimator of scikit-learn, the protobuf text parser, the helpers of
      [postprocessing/utils.py]) are section variables. *)

From Stdlib Require Import QArith Qminmax ZArith List Lia Lqa String Ascii Bool
  Sorted.
From Stdlib Require SpecFloat.
From stdpp Require Import gmap strings list fin_maps.
Import ListNotations.

Local Open Scope Q_scope.
Local Open Scope string_scope.

(** ** Exceptions *)

Module Py.

Inductive exn : Type :=
| AssertionError
| AttributeError
| IndexError
| IOError
| IsADirectoryError
| KeyError
| NotADirectoryError
| ParseError
| ValueError.

Inductive result (A : Type) : Type :=
| Ok (a : A)
| Raise (e : exn).
Arguments Ok {A} a.
Arguments Raise {A} e.

#[global] Instance result_ret : MRet result := fun A a => Ok a.
#[global] Instance result_bind : MBind result :=
  fun A B f m => match m with Ok a => f a | Raise e => Raise e end.
#[global] Instance result_fmap : FMap result :=
  fun A B f m => match m with Ok a => Ok (f a) | Raise e => Raise e end.

Definition is_ok {A} (r : result A) : bool :=
  match r with Ok _ => true | Raise _ => false end.

(** Every exception that [r] may end in satisfies [P]. *)
Definition raises_only {A} (P : exn -> Prop) (r : result A) : Prop :=
  forall e, r = Raise e -> P e.

(** [assert cond] *)
Definition py_assert (cond : bool) : result unit :=
  if cond then Ok tt else Raise AssertionError.

(** [l[i]] for a non-negative index known to be a natural number. *)
Definition getitem {A} (l : list A) (i : nat) : result A :=
  match l !! i with Some a => Ok a | None => Raise IndexError end.

(** [l[i]] for a Python [int]: negative indices count from the end. *)
Definition getitem_int {A} (l : list A) (i : Z) : result A :=
  let n := Z.of_nat (length l) in
  if (0 <=? i)%Z then getitem l (Z.to_nat i)
  else if (- n <=? i)%Z then getitem l (Z.to_nat (n + i))
  else Raise IndexError.

(** [d[k]] on a dict. *)
Definition dict_get {V} (d : gmap string V) (k : string) : result V :=
  match d !! k with Some v => Ok v | None => Raise KeyError end.

(** [enumerate(l)] *)
Definition enumerate {A} (l : list A) : list (nat * A) :=
  imap (fun i a => (i, a)) l.

(** [range(n)] for a Python [int]; empty when [n <= 0]. *)
Definition range (n : Z) : list Z :=
  map Z.of_nat (seq 0 (Z.to_nat n)).

(** [os.path.basename(p)]: the part after the last slash. *)
Fixpoint basename_aux (p acc : string) : string :=
  match p with
  | EmptyString => acc
  | String c rest =>
      if Ascii.eqb c "/"%char then basename_aux rest EmptyString
      else basename_aux rest (acc ++ String c EmptyString)
  end.
Definition basename (p : string) : string := basename_aux p EmptyString.

End Py.
Import Py.

(** ** numpy *)

Module Np.

(** An array of rank four: [shape] and the element at an index. The
    accessor is only ever consulted inside the shape. *)
Record ndarray4 : Type := mk_ndarray4 {
  shape0 : nat; shape1 : nat; shape2 : nat; shape3 : nat;
  at4 : nat -> nat -> nat -> nat -> Q
}.

(** An array of rank three, as obtained by [a[image_idx, :, :, :]]. *)
Record ndarray3 : Type := mk_ndarray3 {
  sh0 : nat; sh1 : nat; sh2 : nat;
  at3 : nat -> nat -> nat -> Q
}.

(** [a.transpose(0, 1, 3, 2)] *)
Definition transpose_0132 (a : ndarray4) : ndarray4 :=
  {| shape0 := shape0 a; shape1 := shape1 a;
     shape2 := shape3 a; shape3 := shape2 a;
     at4 := fun b c i j => at4 a b c j i |}.

(** [a[i, :, :, :]] *)
Definition subarray (a : ndarray4) (i : nat) : result ndarray3 :=
  if (i <? shape0 a)%nat
  then Ok {| sh0 := shape1 a; sh1 := shape2 a; sh2 := shape3 a;
             at3 := at4 a i |}
  else Raise IndexError.

(** Row-major listing of the plane [a[c, :, :]]. *)
Definition plane (a : ndarray3) (c : nat) : list Q :=
  map (fun p => at3 a c (p / sh2 a)%nat (p mod sh2 a)%nat)
      (seq 0 (sh1 a * sh2 a)).

(** [a[c, :, :].flatten()] *)
Definition flatten_plane (a : ndarray3) (c : nat) : result (list Q) :=
  if (c <? sh0 a)%nat then Ok (plane a c) else Raise IndexError.

(** [a[lo:hi, :, :].reshape(a[lo:hi].shape[:1] + (-1,))]: the planes of
    the slice, each flattened. A slice is clipped to the array; an empty
    first axis makes the [-1] of [reshape] undetermined. *)
Definition slice_reshape (a : ndarray3) (lo hi : nat) : result (list (list Q)) :=
  let chans := seq lo (Nat.min hi (sh0 a) - lo) in
  match chans with
  | [] => Raise ValueError
  | _ => Ok (map (plane a) chans)
  end.

(** [m.T] for a matrix given as its rows, each of length [ncols]. *)
Definition transposeM (ncols : nat) (m : list (list Q)) : list (list Q) :=
  map (fun j => map (fun row => nth j row 0) m) (seq 0 ncols).

(** [xs[idx]] with an integer index array. *)
Definition take {A} (xs : list A) (idx : list nat) : result (list A) :=
  mapM (getitem xs) idx.

(** The elements of [xs] where the mask holds. *)
Fixpoint select {A} (mask : list bool) (xs : list A) : list A :=
  match mask, xs with
  | b :: mask', x :: xs' =>
      if b then x :: select mask' xs' else select mask' xs'
  | _, _ => []
  end.

(** [xs[mask]] with a boolean mask; a mask of another length than [xs]
    is refused. *)
Definition compress {A} (mask : list bool) (xs : list A) : result (list A) :=
  if (length mask =? length xs)%nat then Ok (select mask xs)
  else Raise IndexError.

(** [np.sum(xs)], in exact arithmetic *)
Definition sum (xs : list Q) : Q := fold_left Qplus xs 0.

(** [np.sum(m, axis=0)] for a matrix with [ncols] columns. *)
Definition sum_axis0 (ncols : nat) (m : list (list Q)) : list Q :=
  map sum (transposeM ncols m).

(** [np.max(xs)] and [np.min(xs)]; an empty array has neither. *)
Definition amax (xs : list Q) : result Q :=
  match xs with
  | [] => Raise ValueError
  | x :: xs' => Ok (fold_left Qmax xs' x)
  end.

Definition amin (xs : list Q) : result Q :=
  match xs with
  | [] => Raise ValueError
  | x :: xs' => Ok (fold_left Qmin xs' x)
  end.

(** [a > b] *)
Definition gt (a b : Q) : bool := negb (Qle_bool a b).

(** [np.unique(xs)]: the sorted distinct elements. *)
Fixpoint insert_unique (x : Z) (l : list Z) : list Z :=
  match l with
  | [] => [x]
  | y :: l' =>
      if (x <? y)%Z then x :: l
      else if (x =? y)%Z then l
      else y :: insert_unique x l'
  end.
Definition unique (xs : list Z) : list Z :=
  fold_right insert_unique [] xs.

End Np.

(** ** The file system, as far as the code consults it *)

Module Os.

Inductive node : Type :=
| File (contents : string)
| Dir (names : list string).

(** Paths that exist, with what is found there. *)
Abbreviation filesystem := (gmap string node).

(** [os.path.exists(p)] *)
Definition path_exists (fs : filesystem) (p : string) : bool :=
  match fs !! p with Some _ => true | None => false end.

(** [os.path.isfile(p)] *)
Definition path_isfile (fs : filesystem) (p : string) : bool :=
  match fs !! p with Some (File _) => true | _ => false end.

(** [open(p, "r").read()] on a path known to exist. *)
Definition read (fs : filesystem) (p : string) : result string :=
  match fs !! p with
  | Some (File s) => Ok s
  | Some (Dir _) => Raise IsADirectoryError
  | None => Raise IOError
  end.

(** [os.listdir(p)] *)
Definition listdir (fs : filesystem) (p : string) : result (list string) :=
  match fs !! p with
  | Some (Dir names) => Ok names
  | Some (File _) => Raise NotADirectoryError
  | None => Raise IOError
  end.

End Os.

(** ** The clustering configuration

    The generated module [postprocessor_config_pb2] is not part of these
    sources. The messages are records with the fields the postprocessor
    reads. *)

Module Config.

Record DBSCANConfig : Type := {
  dbscan_eps : Q;
  dbscan_min_samples : Q;
  dbscan_confidence_threshold : Q
}.

Record ClusteringConfig : Type := {
  coverage_threshold : Q;
  minimum_bounding_box_height : Q;
  dbscan_config : DBSCANConfig;
  bbox_color : Z * Z * Z
}.

Record PostprocessingConfig : Type := {
  classwise_clustering_config : gmap string ClusteringConfig;
  stride : Z
}.

(** [msg.keys()] on a [PostprocessingConfig] message. A protobuf message
    exposes its declared fields and the methods of
    [google.protobuf.message.Message]; [keys] is neither, so the attribute
    access raises. (The map field [classwise_clustering_config] does have
    [keys]; the message that holds it does not.) *)
Definition PostprocessingConfig_keys (msg : PostprocessingConfig)
  : result (list string) :=
  Raise AttributeError.

Section Load.

(** [google.protobuf.text_format.Merge] into a fresh message. *)
Variable merge_text_proto : string -> result PostprocessingConfig.

Definition _load_from_file (fs : Os.filesystem) (filename : string)
  : result PostprocessingConfig :=
  if negb (Os.path_exists fs filename) then Raise IOError
  else
    text ← Os.read fs filename;
    merge_text_proto text.

Definition load_clustering_config (fs : Os.filesystem) (config : string)
  : result PostprocessingConfig :=
  _load_from_file fs config.

End Load.

End Config.
Import Config.

(** ** The postprocessor *)

Module TrafficCamNetPostprocessor.

(** A frame of the run; the postprocessor reads its path. *)
Record Frame : Type := { _image_path : string }.

(** [KittiBbox(category, 0, 0, 0, box, 0, ..., confidence_score)]; the
    fields that [apply] fills with the constant 0 are left out. *)
Record KittiBbox : Type := {
  category : string;
  box : list Q;
  confidence_score : Q
}.

(** The estimator built by [dbscan(eps=..., min_samples=...)]. *)
Record DBSCAN : Type := { eps : Q; min_samples : Q }.

(** The inference result; [as_numpy] is called with the two output names. *)
Record InferResult : Type := {
  output_cov_Sigmoid : Np.ndarray4;
  output_bbox_BiasAdd : Np.ndarray4
}.

(** The attributes of [self]. [batch_size], [frames], [output_path] and
    [data_format] are stored by the initialiser of the base class. *)
Record Postprocessor : Type := {
  pproc_config : PostprocessingConfig;
  classes : list string;
  bbox_norm : list Q;
  offset : Q;
  scale_h : Q;
  scale_w : Q;
  target_shape : list Z;
  stride : Z;
  batch_size : Z;
  frames : list Frame;
  output_path : string;
  data_format : string;
  dbscan_elements : gmap string DBSCAN;
  coverage_thresholds : gmap string Q;
  box_color : gmap string (Z * Z * Z)
}.

(** The three dicts that [configure] fills. *)
Definition dicts : Type :=
  gmap string DBSCAN * gmap string Q * gmap string (Z * Z * Z).

Definition with_dicts (self : Postprocessor) (d : dicts) : Postprocessor :=
  {| pproc_config := pproc_config self; classes := classes self;
     bbox_norm := bbox_norm self; offset := offset self;
     scale_h := scale_h self; scale_w := scale_w self;
     target_shape := target_shape self; stride := stride self;
     batch_size := batch_size self; frames := frames self;
     output_path := output_path self; data_format := data_format self;
     dbscan_elements := d.1.1; coverage_thresholds := d.1.2;
     box_color := d.2 |}.

(** A [for] loop whose body updates an accumulator and may raise. *)
Fixpoint for_each {S A} (body : S -> A -> result S) (s : S) (l : list A)
  : result S :=
  match l with
  | [] => Ok s
  | a :: l' => s' ← body s a; for_each body s' l'
  end.

(** *** [configure] *)

(** One iteration of the loop over [self.classes]. The message of the
    [KeyError] is formatted before the exception is built, and formatting
    it calls [self.pproc_config.keys()]. *)
Definition configure_class (cfg : PostprocessingConfig) (d : dicts)
  (class_name : string) : result dicts :=
  let classwise_clustering_config := classwise_clustering_config cfg in
  match classwise_clustering_config !! class_name with
  | None =>
      _ ← PostprocessingConfig_keys cfg;
      Raise KeyError
  | Some c =>
      Ok (<[class_name := {| eps := dbscan_eps (dbscan_config c);
                             min_samples := dbscan_min_samples (dbscan_config c) |}]> d.1.1,
          <[class_name := coverage_threshold c]> d.1.2,
          <[class_name := bbox_color c]> d.2)
  end.

Definition configure (self : Postprocessor) : result Postprocessor :=
  d ← for_each (configure_class (pproc_config self)) (∅, ∅, ∅) (classes self);
  Ok (with_dicts self d).

Section Collaborators.

(** [google.protobuf.text_format.Merge] *)
Variable merge_text_proto : string -> result PostprocessingConfig.

(** [denormalize_bounding_bboxes(bbox, stride, offset, bbox_norm,
    num_classes, scale_w, scale_h, data_format, target_shape, frames,
    this_id)] of [postprocessing/utils.py]. *)
Variable denormalize_bounding_bboxes :
  Np.ndarray4 -> Z -> Q -> list Q -> nat -> Q -> Q -> string -> list Z ->
  list Frame -> Z -> Np.ndarray4.

(** [iou_vectorized(boxes)] of [postprocessing/utils.py]. *)
Variable iou_vectorized : list (list Q) -> list (list Q).

(** [estimator.fit_predict(X=..., sample_weight=...)] of scikit-learn: one
    label per sample, [-1] for noise. *)
Variable fit_predict : DBSCAN -> list (list Q) -> list Q -> list Z.

(** [return_bbox_info(frame, boxes)] of [postprocessing/utils.py]. *)
Variable BboxInfo : Type.
Variable return_bbox_info : Frame -> list KittiBbox -> BboxInfo.

(** *** [__init__] *)

Definition __init__ (fs : Os.filesystem) (batch_size : Z) (frames : list Frame)
  (output_path data_format : string) (classes : list string)
  (postprocessing_config : string) (target_shape : list Z)
  : result Postprocessor :=
  pproc_config ← load_clustering_config merge_text_proto fs postprocessing_config;
  configure
    {| pproc_config := pproc_config; classes := classes;
       bbox_norm := [35; 35]; offset := 1 # 2;
       scale_h := 1; scale_w := 1;
       target_shape := target_shape; stride := Config.stride pproc_config;
       batch_size := batch_size; frames := frames;
       output_path := output_path; data_format := data_format;
       dbscan_elements := ∅; coverage_thresholds := ∅; box_color := ∅ |}.

(** *** [apply] *)

(** Modelled from the spec: the cell indices of a flattened coverage
    grid whose score strictly exceeds the threshold (the selection that
    the missing [thresholded_indices] makes for one image and class). *)
Definition threshold_plane (covs : list Q) (thr : Q) : list nat :=
  map fst (List.filter (fun p => Np.gt (snd p) thr) (enumerate covs)).

(** Modelled from the spec: [thresholded_indices] of
    [postprocessing/utils.py] is not among the sources. For each image and
    class it flattens the coverage grid and returns the cell indices whose
    score strictly exceeds the threshold of the class. *)
Definition thresholded_indices (cov : Np.ndarray4) (num_classes : nat)
  (classes : list string) (cov_threshold : gmap string Q)
  : result (list (list (list nat))) :=
  mapM (fun image_idx =>
          covs ← Np.subarray cov image_idx;
          mapM (fun class_idx =>
                  class_name ← getitem classes class_idx;
                  thr ← dict_get cov_threshold class_name;
                  flat ← Np.flatten_plane covs class_idx;
                  Ok (threshold_plane flat thr))
               (seq 0 num_classes))
       (seq 0 (Np.shape0 cov)).

(** [m[key]] on the protobuf map of messages: a missing key yields the
    default message. *)
Definition default_ClusteringConfig : ClusteringConfig :=
  {| coverage_threshold := 0; minimum_bounding_box_height := 0;
     dbscan_config := {| dbscan_eps := 0; dbscan_min_samples := 0;
                         dbscan_confidence_threshold := 0 |};
     bbox_color := (0, 0, 0)%Z |}.

Definition proto_map_get (m : gmap string ClusteringConfig) (key : string)
  : ClusteringConfig :=
  default default_ClusteringConfig (m !! key).

(** [labeling == label] *)
Definition label_mask (labeling : list Z) (label : Z) : list bool :=
  map (fun l => (l =? label)%Z) labeling.

(** [(b.T * w_norm).T] followed by [np.sum(_, axis=0)]: [b] has one row
    per member and [ncols] columns. *)
Definition weighted_mean (ncols : nat) (b : list (list Q)) (w_norm : list Q)
  : list Q :=
  let bT_w := map (fun row => zip_with Qmult row w_norm)
                  (Np.transposeM ncols b) in
  Np.sum_axis0 ncols (Np.transposeM (length w_norm) bT_w).

(** The body of [for label in labels]. ([n], [w_max], [w_min],
    [mean_box_w] and [bbox_area] are computed and never read.) Here in
    exact arithmetic; [ClusterLoop.cluster_label] below is the same body
    over any arithmetic. *)
Definition cluster_label (class_name : string) (cw_config : ClusteringConfig)
  (ncols : nat) (classwise_covs : list Q) (classwise_bboxes : list (list Q))
  (labeling : list Z) (clustered_boxes : list KittiBbox) (label : Z)
  : result (list KittiBbox) :=
  w ← Np.compress (label_mask labeling label) classwise_covs;
  let aggregated_w := Np.sum w in
  let w_norm := map (fun x => x / aggregated_w) w in
  let n := length w in
  w_max ← Np.amax w;
  w_min ← Np.amin w;
  b ← Np.compress (label_mask labeling label) classwise_bboxes;
  let mean_bbox := weighted_mean ncols b w_norm in
  m2 ← getitem mean_bbox 2;
  m0 ← getitem mean_bbox 0;
  let mean_box_w := m2 - m0 in
  m3 ← getitem mean_bbox 3;
  m1 ← getitem mean_bbox 1;
  let mean_box_h := m3 - m1 in
  let bbox_area := mean_box_w * mean_box_h in
  let valid_box :=
    Np.gt aggregated_w (dbscan_confidence_threshold (dbscan_config cw_config))
    && Np.gt mean_box_h (minimum_bounding_box_height cw_config) in
  if valid_box
  then Ok (clustered_boxes ++
           [{| category := class_name; box := mean_bbox;
               confidence_score := aggregated_w |}])%list
  else Ok clustered_boxes.

(** The detection that the body appends for a cluster with member
    weights [w] and member boxes [b], when it appends one. *)
Definition detection_of (class_name : string) (ncols : nat) (w : list Q)
  (b : list (list Q)) : KittiBbox :=
  {| category := class_name;
     box := weighted_mean ncols b (map (fun x => x / Np.sum w) w);
     confidence_score := Np.sum w |}.

(** The test [valid_box] on that detection. *)
Definition valid_box_of (cw_config : ClusteringConfig) (d : KittiBbox) : bool :=
  Np.gt (confidence_score d)
        (dbscan_confidence_threshold (dbscan_config cw_config))
  && Np.gt (nth 3 (box d) 0 - nth 1 (box d) 0)
           (minimum_bounding_box_height cw_config).

(** The body of the loop over [class_idx]; [continue] leaves
    [clustered_boxes] empty. *)
Definition cluster_class (self : Postprocessor) (covs bboxes : Np.ndarray3)
  (indices : list (list nat)) (class_idx : nat) : result (list KittiBbox) :=
  class_name ← getitem (classes self) class_idx;
  let cw_config :=
    proto_map_get (classwise_clustering_config (pproc_config self)) class_name in
  classwise_covs ← Np.flatten_plane covs class_idx;
  idx ← getitem indices class_idx;
  classwise_covs ← Np.take classwise_covs idx;
  if (length classwise_covs =? 0)%nat then Ok []
  else
    planes ← Np.slice_reshape bboxes (4 * class_idx) (4 * class_idx + 4);
    classwise_bboxes ←
      Np.take (Np.transposeM (Np.sh1 bboxes * Np.sh2 bboxes) planes) idx;
    let pairwise_dist :=
      map (map (fun iou => 1 * (1 - iou))) (iou_vectorized classwise_bboxes) in
    estimator ← dict_get (dbscan_elements self) class_name;
    let labeling := fit_predict estimator pairwise_dist classwise_covs in
    let labels := Np.unique (List.filter (fun l => (0 <=? l)%Z) labeling) in
    for_each (cluster_label class_name cw_config (length planes)
                classwise_covs classwise_bboxes labeling)
             [] labels.

(** The class indices the source iterates over: [for class_idx in [0]]. *)
Definition class_indices (self : Postprocessor) : list nat := [0%nat].

(** The body of the loop over [enumerate(valid_indices)]. *)
Definition imagewise_boxes (self : Postprocessor) (output_cov abs_bbox : Np.ndarray4)
  (image_idx : nat) (indices : list (list nat)) : result (list KittiBbox) :=
  covs ← Np.subarray output_cov image_idx;
  bboxes ← Np.subarray abs_bbox image_idx;
  for_each (fun imagewise_boxes class_idx =>
              clustered_boxes ← cluster_class self covs bboxes indices class_idx;
              Ok (imagewise_boxes ++ clustered_boxes)%list)
           [] (class_indices self).

Definition batchwise_boxes (self : Postprocessor) (output_cov abs_bbox : Np.ndarray4)
  (valid_indices : list (list (list nat))) : result (list (list KittiBbox)) :=
  mapM (fun '(image_idx, indices) =>
          imagewise_boxes self output_cov abs_bbox image_idx indices)
       (enumerate valid_indices).

(** The loop [for image_idx in range(self.batch_size)] of the rendering
    branch; [break] returns what has been collected. *)
Fixpoint render_loop (self : Postprocessor) (this_id : Z)
  (batchwise : list (list KittiBbox)) (image_idxs : list Z)
  (batch_boxes_output : list (BboxInfo * string))
  : result (list (BboxInfo * string)) :=
  match image_idxs with
  | [] => Ok batch_boxes_output
  | image_idx :: rest =>
      let current_idx := ((this_id - 1) * batch_size self + image_idx)%Z in
      if (current_idx >=? Z.of_nat (length (frames self)))%Z
      then Ok batch_boxes_output
      else
        current_frame ← getitem_int (frames self) current_idx;
        let filename := basename (_image_path current_frame) in
        boxes ← getitem_int batchwise image_idx;
        let final_bboxes := return_bbox_info current_frame boxes in
        render_loop self this_id batchwise rest
                    (batch_boxes_output ++ [(final_bboxes, filename)])%list
  end.

(** What an iteration of that loop appends for position [j] of the
    batch: the pair [[final_bboxes, filename]]. *)
Definition entry (self : Postprocessor) (this_id : Z)
  (bw : list (list KittiBbox)) (j : nat) : BboxInfo * string :=
  let frame :=
    nth (Z.to_nat ((this_id - 1) * batch_size self) + j) (frames self)
        {| _image_path := EmptyString |} in
  (return_bbox_info frame (nth j bw []), basename (_image_path frame)).

(** [apply(self, results, this_id, render)]; without [render] the method
    falls off its end and returns [None]. *)
Definition apply (self : Postprocessor) (results : InferResult) (this_id : Z)
  (render : bool) : result (option (list (BboxInfo * string))) :=
  let output_cov := Np.transpose_0132 (output_cov_Sigmoid results) in
  let output_bbox := Np.transpose_0132 (output_bbox_BiasAdd results) in
  _ ← py_assert (length (classes self) =? Np.shape1 output_cov)%nat;
  let abs_bbox :=
    denormalize_bounding_bboxes output_bbox (stride self) (offset self)
      (bbox_norm self) (length (classes self)) (scale_w self) (scale_h self)
      (data_format self) (target_shape self) (frames self) (this_id - 1) in
  valid_indices ←
    thresholded_indices output_cov (length (classes self)) (classes self)
      (coverage_thresholds self);
  batchwise ← batchwise_boxes self output_cov abs_bbox valid_indices;
  if render
  then out ← render_loop self this_id batchwise (range (batch_size self)) [];
       Ok (Some out)
  else Ok None.

End Collaborators.

Arguments render_loop {BboxInfo} return_bbox_info self this_id batchwise
  image_idxs batch_boxes_output.
Arguments entry {BboxInfo} return_bbox_info self this_id bw j.
Arguments apply denormalize_bounding_bboxes iou_vectorized fit_predict
  {BboxInfo} return_bbox_info self results this_id render.

End TrafficCamNetPostprocessor.

(** ** The model classes of the Triton client

    [model_client/trafficcamnet_model_class.py],
    [trafficcamnet_model_class.py] and [model_client/lpd_model_class.py]
    define three classes with the same [predict]; they differ in the
    constants of [__init__], in the client function [_predict] calls and
    in its [async_set] argument. *)

Module ModelClient.

Inductive model_class : Type :=
| TrafficCamNetModelClass_model_client
| TrafficCamNetModelClass_triton_client
| LpdModelClass.

(** The values the methods return. *)
#[local] Unset Elimination Schemes.
Inductive value : Type :=
| VInt (n : Z)
| VStr (s : string)
| VList (items : list value)
| VDict (entries : gmap string value).
#[local] Set Elimination Schemes.

(** The keyword arguments of [trafficcamnet_predict] / [lpd_predict]. *)
Record predict_args : Type := {
  arg_model_name : string;
  arg_mode : string;
  arg_class_list : string;
  arg_output_path : string;
  arg_postprocessing_config : string;
  arg_url : option string;
  arg_image_filename : string;
  arg_verbose : bool;
  arg_streaming : bool;
  arg_async_set : bool;
  arg_protocol : string;
  arg_model_version : string;
  arg_batch_size : Z
}.

(** The client functions, by name. *)
Inductive client_function : Type :=
| trafficcamnet_predict
| lpd_predict.

(** The attributes of an instance. [_batch_size] is unset until
    [_predict] runs. *)
Record instance : Type := {
  _post_processing_config : string;
  _url : option string;
  _model_name : string;
  _mode : string;
  _class_list : string;
  _batch_size : option Z
}.

(** What a call can change: the instance, and the inference requests
    issued so far (latest last). *)
Record state : Type := {
  self : instance;
  inference_calls : list (client_function * predict_args)
}.

(** [__init__], as far as it sets the attributes that [predict] and
    [_predict] read; [api_url] is [os.environ.get('API_URL')]. *)
Definition __init__ (cls : model_class) (api_url : option string) : instance :=
  match cls with
  | TrafficCamNetModelClass_model_client
  | TrafficCamNetModelClass_triton_client =>
      {| _post_processing_config :=
           "/app/triton_client/model_client/tao_triton/python/clustering_specs/clustering_config_trafficcamnet.prototxt";
         _url := api_url;
         _model_name := "trafficcamnet";
         _mode := "trafficcamnet";
         _class_list := "car,bicycle,person,road_sign";
         _batch_size := None |}
  | LpdModelClass =>
      {| _post_processing_config :=
           "/app/triton_client/model_client/tao_triton/python/clustering_specs/clustering_config_lpdnet.prototxt";
         _url := api_url;
         _model_name := "lpdnet_usa";
         _mode := "DetectNet_v2";
         _class_list := "license_plate";
         _batch_size := None |}
  end.

Definition client_of (cls : model_class) : client_function :=
  match cls with
  | LpdModelClass => lpd_predict
  | _ => trafficcamnet_predict
  end.

Definition async_set_of (cls : model_class) : bool :=
  match cls with
  | TrafficCamNetModelClass_model_client => false
  | _ => true
  end.

Definition set_batch_size (i : instance) (n : Z) : instance :=
  {| _post_processing_config := _post_processing_config i;
     _url := _url i; _model_name := _model_name i; _mode := _mode i;
     _class_list := _class_list i; _batch_size := Some n |}.

(** The reply for a path that does not exist. *)
Definition file_path_error : value :=
  VList [VDict (<["HTTPStatus" := VInt 400]>
                (<["error" := VStr "File Path does not exist!"]> ∅))].

Section Client.

(** What the inference client returns for a request. *)
Variable run_client : client_function -> predict_args -> result value.

Definition _predict (cls : model_class) (fs : Os.filesystem)
  (file_path : string) (st : state) : result value * state :=
  match Os.listdir fs file_path with
  | Raise e => (Raise e, st)
  | Ok names =>
      let number_files :=
        length (List.filter (fun name => Os.path_isfile fs (file_path ++ name))
                            names) in
      let batch_size := if (number_files <? 256)%nat then 8%Z else 16%Z in
      let self' := set_batch_size (self st) batch_size in
      let args :=
        {| arg_model_name := _model_name self';
           arg_mode := _mode self';
           arg_class_list := _class_list self';
           arg_output_path := "./";
           arg_postprocessing_config := _post_processing_config self';
           arg_url := _url self';
           arg_image_filename := file_path;
           arg_verbose := false;
           arg_streaming := false;
           arg_async_set := async_set_of cls;
           arg_protocol := "HTTP";
           arg_model_version := EmptyString;
           arg_batch_size := batch_size |} in
      (run_client (client_of cls) args,
       {| self := self';
          inference_calls :=
            (inference_calls st ++ [(client_of cls, args)])%list |})
  end.

Definition predict (cls : model_class) (fs : Os.filesystem)
  (file_path : string) (st : state) : result value * state :=
  if Os.path_exists fs file_path
  then _predict cls fs file_path st
  else (Ok file_path_error, st).

End Client.

(** A client that answers every request with an empty list. *)
Definition idle_client (f : client_function) (args : predict_args)
  : result value := Ok (VList []).

End ModelClient.

(** ** Instances of the collaborators, to run the pipeline on data *)

Module Reference.

Import TrafficCamNetPostprocessor.

(** Squared Euclidean distance of two rows. *)
Definition sqdist (a b : list Q) : Q :=
  Np.sum (zip_with (fun x y => (x - y) * (x - y)) a b).

(** The samples within [eps] of sample [i] (itself included), in index
    order. *)
Definition neighborhood (eps : Q) (X : list (list Q)) (i : nat) : list nat :=
  List.filter
    (fun j => Qle_bool (sqdist (nth i X []) (nth j X [])) (eps * eps))
    (seq 0 (length X)).

(** The inner loop of DBSCAN: label everything density-reachable from a
    core sample, depth first. The head of [stack] is its top. *)
Fixpoint expand (fuel : nat) (core : list bool) (nbrs : list (list nat))
  (label_num : Z) (labels : list Z) (i : nat) (stack : list nat) : list Z :=
  match fuel with
  | O => labels
  | S fuel' =>
      let '(labels1, stack1) :=
        if (nth i labels 0 =? -1)%Z
        then
          let labels1 := <[i := label_num]> labels in
          if nth i core false
          then (labels1,
                (rev (List.filter (fun v => (nth v labels1 0 =? -1)%Z)
                                  (nth i nbrs [])) ++ stack)%list)
          else (labels1, stack)
        else (labels, stack) in
      match stack1 with
      | [] => labels1
      | top :: stack2 => expand fuel' core nbrs label_num labels1 top stack2
      end
  end.

(** The outer loop over the samples. *)
Fixpoint outer (core : list bool) (nbrs : list (list nat)) (todo : list nat)
  (label_num : Z) (labels : list Z) : list Z :=
  match todo with
  | [] => labels
  | i :: todo' =>
      if negb (nth i labels 0 =? -1)%Z || negb (nth i core false)
      then outer core nbrs todo' label_num labels
      else
        let n := length labels in
        outer core nbrs todo' (label_num + 1)%Z
              (expand (n * n + n + 1) core nbrs label_num labels i [])
  end.

(** DBSCAN on the rows of [X] with sample weights, in the manner of
    scikit-learn: a sample is a core sample when the weights within [eps]
    of it sum to at least [min_samples]. *)
Definition fit_predict (est : DBSCAN) (X : list (list Q)) (sample_weight : list Q)
  : list Z :=
  let n := length X in
  let nbrs := map (neighborhood (eps est) X) (seq 0 n) in
  let n_neighbors :=
    map (fun nb => Np.sum (map (fun j => nth j sample_weight 0) nb)) nbrs in
  let core := map (fun m => Qle_bool (min_samples est) m) n_neighbors in
  outer core nbrs (seq 0 n) 0%Z (repeat (-1)%Z n).

(** Intersection over union of two boxes [x1, y1, x2, y2]. *)
Definition iou (a b : list Q) : Q :=
  let x1 := Qmax (nth 0 a 0) (nth 0 b 0) in
  let y1 := Qmax (nth 1 a 0) (nth 1 b 0) in
  let x2 := Qmin (nth 2 a 0) (nth 2 b 0) in
  let y2 := Qmin (nth 3 a 0) (nth 3 b 0) in
  let inter := Qmax 0 (x2 - x1) * Qmax 0 (y2 - y1) in
  let area r := (nth 2 r 0 - nth 0 r 0) * (nth 3 r 0 - nth 1 r 0) in
  inter / (area a + area b - inter).

Definition iou_vectorized (boxes : list (list Q)) : list (list Q) :=
  map (fun a => map (iou a) boxes) boxes.

(** The denormaliser is a parameter of [apply]; this instance serves
    regression tensors that already hold absolute coordinates. *)
Definition denormalize_bounding_bboxes (bbox : Np.ndarray4) (stride : Z)
  (offset : Q) (bbox_norm : list Q) (num_classes : nat) (scale_w scale_h : Q)
  (data_format : string) (target_shape : list Z) (frames : list Frame)
  (this_id : Z) : Np.ndarray4 := bbox.

(** Reports the boxes as they are. *)
Definition return_bbox_info (frame : Frame) (boxes : list KittiBbox)
  : list KittiBbox := boxes.

(** An array from nested lists [batch][channel][row][column]. *)
Definition of_lists (b c h w : nat) (data : list (list (list (list Q))))
  : Np.ndarray4 :=
  {| Np.shape0 := b; Np.shape1 := c; Np.shape2 := h; Np.shape3 := w;
     Np.at4 := fun i j k l => nth l (nth k (nth j (nth i data []) []) []) 0 |}.

End Reference.

(** ** Example data *)

Module Examples.

Import TrafficCamNetPostprocessor.

Definition car_config : ClusteringConfig :=
  {| coverage_threshold := 1 # 2;
     minimum_bounding_box_height := 4;
     dbscan_config := {| dbscan_eps := 3 # 10;
                         dbscan_min_samples := 1 # 20;
                         dbscan_confidence_threshold := 1 # 5 |};
     bbox_color := (0, 255, 0)%Z |}.

Definition person_config : ClusteringConfig :=
  {| coverage_threshold := 1 # 2;
     minimum_bounding_box_height := 4;
     dbscan_config := {| dbscan_eps := 3 # 10;
                         dbscan_min_samples := 1 # 20;
                         dbscan_confidence_threshold := 1 # 5 |};
     bbox_color := (255, 0, 0)%Z |}.

Definition two_class_config : PostprocessingConfig :=
  {| classwise_clustering_config :=
       <["car" := car_config]> (<["person" := person_config]> ∅);
     Config.stride := 16 |}.

(** A parser that knows one specification text. *)
Definition parse (text : string) : result PostprocessingConfig :=
  if String.eqb text "two classes" then Ok two_class_config
  else Raise ParseError.

Definition disk : Os.filesystem :=
  <["/specs/clustering.prototxt" := Os.File "two classes"]>
  (<["/images/" := Os.Dir ["a.jpg"; "b.jpg"]]>
  (<["/images/a.jpg" := Os.File EmptyString]>
  (<["/images/b.jpg" := Os.File EmptyString]> ∅))).

Definition five_frames : list Frame :=
  [ {| _image_path := "/images/f0.jpg" |};
    {| _image_path := "/images/f1.jpg" |};
    {| _image_path := "/images/f2.jpg" |};
    {| _image_path := "/images/f3.jpg" |};
    {| _image_path := "/images/f4.jpg" |} ].

(** A configured postprocessor, written out. *)
Definition postprocessor (batch_size : Z) (frames : list Frame)
  (classes : list string) : Postprocessor :=
  {| pproc_config := two_class_config; classes := classes;
     bbox_norm := [35; 35]; offset := 1 # 2; scale_h := 1; scale_w := 1;
     target_shape := [3; 544; 960]%Z; stride := 16;
     batch_size := batch_size; frames := frames;
     output_path := "./"; data_format := "channels_first";
     dbscan_elements :=
       <["car" := {| eps := 3 # 10; min_samples := 1 # 20 |}]>
       (<["person" := {| eps := 3 # 10; min_samples := 1 # 20 |}]> ∅);
     coverage_thresholds := <["car" := 1 # 2]> (<["person" := 1 # 2]> ∅);
     box_color := <["car" := (0, 255, 0)%Z]> (<["person" := (255, 0, 0)%Z]> ∅) |}.

(** A batch of eight images, two classes, a grid of one cell. Image [k]
    has coverage [(k + 3) / 10] for the first class and [9 / 10] for the
    second; every cell regresses to the box [(10, 10, 50, 50)]. *)
Definition batch_cov : Np.ndarray4 :=
  {| Np.shape0 := 8; Np.shape1 := 2; Np.shape2 := 1; Np.shape3 := 1;
     Np.at4 := fun b c _ _ =>
       match c with
       | O => (Z.of_nat b + 3) # 10
       | _ => 9 # 10
       end |}.

Definition batch_bbox : Np.ndarray4 :=
  {| Np.shape0 := 8; Np.shape1 := 8; Np.shape2 := 1; Np.shape3 := 1;
     Np.at4 := fun _ c _ _ =>
       match (c mod 4)%nat with
       | 0%nat | 1%nat => 10
       | _ => 50
       end |}.

Definition batch_results : InferResult :=
  {| output_cov_Sigmoid := batch_cov; output_bbox_BiasAdd := batch_bbox |}.

(** One image, one class, one cell: coverage [9 / 10] and the box
    [(10, 10, 10, 50)], which has no width. *)
Definition thin_results : InferResult :=
  {| output_cov_Sigmoid :=
       {| Np.shape0 := 1; Np.shape1 := 1; Np.shape2 := 1; Np.shape3 := 1;
          Np.at4 := fun _ _ _ _ => 9 # 10 |};
     output_bbox_BiasAdd :=
       {| Np.shape0 := 1; Np.shape1 := 4; Np.shape2 := 1; Np.shape3 := 1;
          Np.at4 := fun _ c _ _ =>
            match c with
            | 3%nat => 50
            | _ => 10
            end |} |}.

End Examples.

(** ** Aggregation of a cluster, as the specification words it

    For a cluster with member confidence weights [w_i] and member boxes
    [b_i]: the aggregated weight is the sum of the [w_i], and each
    coordinate of the aggregated box is the average of that coordinate of
    the [b_i], weighted by [w_i] over the aggregated weight. *)

Module ClusterSpec.

(** The members of cluster [label]: weight and box of every candidate
    that carries the label. *)
Definition cluster (labeling : list Z) (covs : list Q)
  (bboxes : list (list Q)) (label : Z) : list (Q * list Q) :=
  map snd
      (List.filter (fun m => (fst m =? label)%Z)
                   (combine labeling (combine covs bboxes))).

(** The sum of [f] over the members. *)
Definition total (f : Q * list Q -> Q) (ms : list (Q * list Q)) : Q :=
  fold_right (fun m acc => f m + acc) 0 ms.

Definition aggregated_weight (ms : list (Q * list Q)) : Q :=
  total fst ms.

Definition aggregated_coordinate (ms : list (Q * list Q)) (j : nat) : Q :=
  total (fun m => fst m / aggregated_weight ms * nth j (snd m) 0) ms.

Definition aggregated_box (ms : list (Q * list Q)) : list Q :=
  map (aggregated_coordinate ms) [0; 1; 2; 3]%nat.

(** The validity filter. *)
Definition valid (cfg : ClusteringConfig) (ms : list (Q * list Q)) : Prop :=
  dbscan_confidence_threshold (dbscan_config cfg) < aggregated_weight ms /\
  minimum_bounding_box_height cfg
  < aggregated_coordinate ms 3 - aggregated_coordinate ms 1.

(** The detections of the clusters [labels], in that order: one for
    each cluster that passes the validity filter, carrying the class
    name, the aggregated weight and the aggregated box, and none for a
    cluster that fails it. *)
Inductive aggregates (name : string) (cfg : ClusteringConfig)
  (labeling : list Z) (covs : list Q) (bboxes : list (list Q))
  : list Z -> list TrafficCamNetPostprocessor.KittiBbox -> Prop :=
| aggregates_nil :
    aggregates name cfg labeling covs bboxes [] []
| aggregates_valid label labels d dets :
    valid cfg (cluster labeling covs bboxes label) ->
    TrafficCamNetPostprocessor.category d = name ->
    TrafficCamNetPostprocessor.confidence_score d
    == aggregated_weight (cluster labeling covs bboxes label) ->
    Forall2 Qeq (TrafficCamNetPostprocessor.box d)
            (aggregated_box (cluster labeling covs bboxes label)) ->
    aggregates name cfg labeling covs bboxes labels dets ->
    aggregates name cfg labeling covs bboxes (label :: labels) (d :: dets)
| aggregates_invalid label labels dets :
    ~ valid cfg (cluster labeling covs bboxes label) ->
    aggregates name cfg labeling covs bboxes labels dets ->
    aggregates name cfg labeling covs bboxes (label :: labels) dets.

End ClusterSpec.

(** ** [status] of the model classes

    The three classes define the same [status]: a GET on the readiness
    endpoint of the Triton server, inside a [try] that catches
    [requests.exceptions.ConnectionError] and nothing else. *)

Module ModelStatus.

Import ModelClient.

(** What [requests.get] can raise: the imported [ConnectionError] (or a
    subclass of it), or another exception. *)
Inductive request_error : Type :=
| ConnectionError
| OtherRequestError.

(** How [requests.get(url)] ends; a response carries its status code. *)
Inductive get_outcome : Type :=
| Response (status_code : Z)
| Failed (e : request_error).

(** The exceptions that leave [status]. *)
Inductive status_exn : Type :=
| TypeError
| Uncaught (e : request_error).

(** How [status] ends. *)
Inductive outcome : Type :=
| Returns (v : value)
| Raises (e : status_exn).

Definition inactive : value :=
  VDict (<["HTTPStatus" := VInt 503]> (<["status" := VStr "Inactive"]> ∅)).

Definition active : value :=
  VDict (<["HTTPStatus" := VInt 200]> (<["status" := VStr "Active"]> ∅)).

Section Net.

Variable requests_get : string -> get_outcome.

(** [status(self)], with the URLs requested. The URL is built inside
    the [try]: with [self._url] unset the concatenation of [str] and
    [None] raises [TypeError], which the handler does not catch. *)
Definition status (i : instance) : outcome * list string :=
  match _url i with
  | None => (Raises TypeError, [])
  | Some url =>
      let triton_server_url := "http://" ++ url ++ "/v2/health/ready" in
      match requests_get triton_server_url with
      | Response _ => (Returns active, [triton_server_url])
      | Failed ConnectionError => (Returns inactive, [triton_server_url])
      | Failed e => (Raises (Uncaught e), [triton_server_url])
      end
  end.

End Net.

(** A server that answers every readiness probe with the given code. *)
Definition answering (code : Z) (url : string) : get_outcome := Response code.

(** No server: every connection is refused. *)
Definition refusing (url : string) : get_outcome := Failed ConnectionError.

End ModelStatus.

(** ** The arithmetic of the aggregation

    The loop over the clusters computes on numpy floats. The sources fix
    neither the dtype of the tensors (they come from the inference
    server and from [denormalize_bounding_bboxes]) nor the order in which
    [np.sum] adds, so the loop is given once more over the operations it
    uses, with nothing assumed of them. [Float.exact] is the arithmetic
    of the model above; [Float.binary32] rounds as IEEE 754 single
    precision does. *)

Module Float.

Record arith (F : Type) : Type := {
  (** [0.0]: only what a read outside a row yields, which the loop
      never makes. *)
  zero : F;
  (** [np.sum(w)] of a one-dimensional array *)
  sum : list F -> F;
  (** one column of [np.sum(m, axis=0)] *)
  column_sum : list F -> F;
  (** [/], [*], [np.max] and [np.min] on the elements of the arrays *)
  truediv : F -> F -> F;
  multiply : F -> F -> F;
  maximum : F -> F -> F;
  minimum : F -> F -> F;
  (** [np.array(_, dtype='float64')] and [np.float64(_)] *)
  float64 : F -> F;
  (** [-] on two elements of the float64 array *)
  subtract : F -> F -> F;
  (** [>] *)
  greater : F -> F -> bool
}.

Arguments zero {F} _.
Arguments sum {F} _ _.
Arguments column_sum {F} _ _.
Arguments truediv {F} _ _ _.
Arguments multiply {F} _ _ _.
Arguments maximum {F} _ _ _.
Arguments minimum {F} _ _ _.
Arguments float64 {F} _ _.
Arguments subtract {F} _ _ _.
Arguments greater {F} _ _ _.

(** Exact arithmetic on rationals. *)
Definition exact : arith Q :=
  {| zero := 0;
     sum := Np.sum;
     column_sum := Np.sum;
     truediv := Qdiv;
     multiply := Qmult;
     maximum := Qmax;
     minimum := Qmin;
     float64 := fun x => x;
     subtract := Qminus;
     greater := Np.gt |}.

(** A single or a double, as the double of the same value. *)
Definition double (x : SpecFloat.spec_float) : SpecFloat.spec_float :=
  match x with
  | SpecFloat.S754_finite s m e =>
      SpecFloat.binary_normalize 53 1024 (SpecFloat.cond_Zopp s (Zpos m)) e s
  | _ => x
  end.

(** IEEE 754 single precision for the arrays and double precision for
    the float64 scalars, rounding to nearest even; a comparison is made
    on the doubles of its operands. The sums add from left to right: on
    one or two elements every order of addition gives that result. *)
Definition binary32 : arith SpecFloat.spec_float :=
  {| zero := SpecFloat.S754_zero false;
     sum := fun xs =>
       fold_left (SpecFloat.SFadd 24 128) xs (SpecFloat.S754_zero false);
     column_sum := fun xs =>
       fold_left (SpecFloat.SFadd 24 128) xs (SpecFloat.S754_zero false);
     truediv := SpecFloat.SFdiv 24 128;
     multiply := SpecFloat.SFmul 24 128;
     maximum := fun a b => if SpecFloat.SFltb a b then b else a;
     minimum := fun a b => if SpecFloat.SFltb b a then b else a;
     float64 := double;
     subtract := SpecFloat.SFsub 53 1024;
     greater := fun a b => SpecFloat.SFltb (double b) (double a) |}.

(** The single nearest to [n / d], for integers below [2 ^ 24]. *)
Definition float32 (n d : Z) : SpecFloat.spec_float :=
  SpecFloat.SFdiv 24 128
    (SpecFloat.binary_normalize 24 128 n 0 false)
    (SpecFloat.binary_normalize 24 128 d 0 false).

End Float.

(** ** The loop over the clusters, over an arithmetic

    Lines 171 to 198 of [apply]: [labels] and [for label in labels]. *)

Module ClusterLoop.

Import TrafficCamNetPostprocessor.

(** [KittiBbox] with its numbers in [F]. *)
Record KittiBbox (F : Type) : Type := {
  category : string;
  box : list F;
  confidence_score : F
}.

Arguments category {F} _.
Arguments box {F} _.
Arguments confidence_score {F} _.

Section Loop.

Context {F : Type} (ops : Float.arith F).

(** [m.T] for a matrix given as its rows, each of length [ncols]. *)
Definition transposeM (ncols : nat) (m : list (list F)) : list (list F) :=
  map (fun j => map (fun row => nth j row (Float.zero ops)) m) (seq 0 ncols).

(** [np.sum(m, axis=0)] for a matrix with [ncols] columns. *)
Definition sum_axis0 (ncols : nat) (m : list (list F)) : list F :=
  map (Float.column_sum ops) (transposeM ncols m).

(** [np.max(xs)] and [np.min(xs)]; an empty array has neither. *)
Definition amax (xs : list F) : result F :=
  match xs with
  | [] => Raise ValueError
  | x :: xs' => Ok (fold_left (Float.maximum ops) xs' x)
  end.

Definition amin (xs : list F) : result F :=
  match xs with
  | [] => Raise ValueError
  | x :: xs' => Ok (fold_left (Float.minimum ops) xs' x)
  end.

(** [(b.T * w_norm).T] followed by [np.sum(_, axis=0)]. *)
Definition weighted_mean (ncols : nat) (b : list (list F)) (w_norm : list F)
  : list F :=
  let bT_w := map (fun row => zip_with (Float.multiply ops) row w_norm)
                  (transposeM ncols b) in
  sum_axis0 ncols (transposeM (length w_norm) bT_w).

(** The body of [for label in labels]; the two thresholds are the
    fields of [cw_config] that the body reads. ([n], [w_max], [w_min]
    and [mean_box_w] are computed and never read; so is [bbox_area], a
    product of two float64 scalars, which is left out.) *)
Definition cluster_label (class_name : string)
  (dbscan_confidence_threshold minimum_bounding_box_height : F)
  (ncols : nat) (classwise_covs : list F) (classwise_bboxes : list (list F))
  (labeling : list Z) (clustered_boxes : list (KittiBbox F)) (label : Z)
  : result (list (KittiBbox F)) :=
  w ← Np.compress (label_mask labeling label) classwise_covs;
  let aggregated_w := Float.sum ops w in
  let w_norm := map (fun x => Float.truediv ops x aggregated_w) w in
  let n := length w in
  w_max ← amax w;
  w_min ← amin w;
  b ← Np.compress (label_mask labeling label) classwise_bboxes;
  let mean_bbox := weighted_mean ncols b w_norm in
  let mean_bbox := map (Float.float64 ops) mean_bbox in
  m2 ← getitem mean_bbox 2;
  m0 ← getitem mean_bbox 0;
  let mean_box_w := Float.subtract ops m2 m0 in
  m3 ← getitem mean_bbox 3;
  m1 ← getitem mean_bbox 1;
  let mean_box_h := Float.subtract ops m3 m1 in
  let valid_box :=
    Float.greater ops aggregated_w dbscan_confidence_threshold
    && Float.greater ops mean_box_h minimum_bounding_box_height in
  if valid_box
  then Ok (clustered_boxes ++
           [{| category := class_name; box := mean_bbox;
               confidence_score := Float.float64 ops aggregated_w |}])%list
  else Ok clustered_boxes.

(** [np.unique(labeling[labeling >= 0])] *)
Definition labels_of (labeling : list Z) : list Z :=
  Np.unique (List.filter (fun l => (0 <=? l)%Z) labeling).

(** [labels = ...] and the loop over them, from an empty
    [clustered_boxes]. *)
Definition cluster_labels (class_name : string)
  (dbscan_confidence_threshold minimum_bounding_box_height : F)
  (ncols : nat) (classwise_covs : list F) (classwise_bboxes : list (list F))
  (labeling : list Z) : result (list (KittiBbox F)) :=
  for_each (cluster_label class_name dbscan_confidence_threshold
              minimum_bounding_box_height ncols classwise_covs
              classwise_bboxes labeling)
           [] (labels_of labeling).

End Loop.

(** A detection of the exact instance, as the record of the model
    above. *)
Definition exact_box (d : KittiBbox Q) : TrafficCamNetPostprocessor.KittiBbox :=
  {| TrafficCamNetPostprocessor.category := category d;
     TrafficCamNetPostprocessor.box := box d;
     TrafficCamNetPostprocessor.confidence_score := confidence_score d |}.

End ClusterLoop.

(** ** The aggregator, as the specification words it, over an arithmetic

    For each cluster: with [w_i] the member confidence weights, the
    aggregated weight is the sum of the [w_i]; the normalised weights are
    [w_i / aggregated_weight]; the aggregated box is the per-coordinate
    weighted average of the member boxes using the normalised weights.
    The cluster becomes a detection only if the aggregated weight
    exceeds the confidence threshold and the height of the aggregated
    box exceeds the minimum height. The detection holds the weight and
    the box as float64, and the height is that of the box it holds. *)

Module AggregatorSpec.

Section Spec.

Context {F : Type} (ops : Float.arith F).

(** A member of a cluster: its confidence weight and its box. *)
Definition member : Type := F * list F.

(** The members of cluster [label]: every candidate that carries the
    label. *)
Definition cluster (labeling : list Z) (covs : list F)
  (bboxes : list (list F)) (label : Z) : list member :=
  map snd
      (List.filter (fun m => (fst m =? label)%Z)
                   (combine labeling (combine covs bboxes))).

(** The clusters that the labelling holds: label [-1] is noise. *)
Definition is_cluster (labeling : list Z) (label : Z) : Prop :=
  In label labeling /\ (0 <= label)%Z.

Definition aggregated_weight (ms : list member) : F :=
  Float.sum ops (map fst ms).

Definition normalized_weights (ms : list member) : list F :=
  map (fun m => Float.truediv ops (fst m) (aggregated_weight ms)) ms.

(** Coordinate [j] of the weighted average. *)
Definition aggregated_coordinate (ms : list member) (j : nat) : F :=
  Float.column_sum ops
    (zip_with (fun m wn => Float.multiply ops (nth j (snd m) (Float.zero ops)) wn)
              ms (normalized_weights ms)).

Definition aggregated_box (ms : list member) : list F :=
  map (fun j => Float.float64 ops (aggregated_coordinate ms j))
      [0; 1; 2; 3]%nat.

(** [y2 - y1] of the aggregated box. *)
Definition height (ms : list member) : F :=
  Float.subtract ops (nth 3 (aggregated_box ms) (Float.zero ops))
                     (nth 1 (aggregated_box ms) (Float.zero ops)).

(** The validity filter. *)
Definition valid (confidence_threshold min_box_height : F)
  (ms : list member) : Prop :=
  Float.greater ops (aggregated_weight ms) confidence_threshold = true /\
  Float.greater ops (height ms) min_box_height = true.

(** The detection of a cluster. *)
Definition detection (name : string) (ms : list member)
  : ClusterLoop.KittiBbox F :=
  {| ClusterLoop.category := name;
     ClusterLoop.box := aggregated_box ms;
     ClusterLoop.confidence_score :=
       Float.float64 ops (aggregated_weight ms) |}.

(** The detections of the clusters [labels], in that order: the
    detection of each cluster that passes the validity filter, and none
    for a cluster that fails it. *)
Inductive aggregates (name : string) (confidence_threshold min_box_height : F)
  (labeling : list Z) (covs : list F) (bboxes : list (list F))
  : list Z -> list (ClusterLoop.KittiBbox F) -> Prop :=
| aggregates_nil :
    aggregates name confidence_threshold min_box_height labeling covs bboxes
               [] []
| aggregates_valid label labels dets :
    valid confidence_threshold min_box_height
          (cluster labeling covs bboxes label) ->
    aggregates name confidence_threshold min_box_height labeling covs bboxes
               labels dets ->
    aggregates name confidence_threshold min_box_height labeling covs bboxes
               (label :: labels)
               (detection name (cluster labeling covs bboxes label) :: dets)
| aggregates_invalid label labels dets :
    ~ valid confidence_threshold min_box_height
            (cluster labeling covs bboxes label) ->
    aggregates name confidence_threshold min_box_height labeling covs bboxes
               labels dets ->
    aggregates name confidence_threshold min_box_height labeling covs bboxes
               (label :: labels) dets.

End Spec.

End AggregatorSpec.

(** ** Three candidates in single precision *)

Module FloatExamples.

(** Confidences [0.6], [0.4] and [0.1]; the first two candidates form
    cluster [0], the third is noise. *)
Definition covs : list SpecFloat.spec_float :=
  [Float.float32 6 10; Float.float32 4 10; Float.float32 1 10].

Definition bboxes : list (list SpecFloat.spec_float) :=
  map (map (fun n => Float.float32 n 1))
      [[10; 10; 50; 50]; [12; 11; 52; 51]; [80; 80; 90; 90]]%Z.

Definition labeling : list Z := [0; 0; -1]%Z.

End FloatExamples.

(** * Properties *)

(** ** The exception monad and the loops *)

Module PyFacts.

Lemma bind_Ok {A B} (m : result A) (f : A -> result B) (b : B) :
  m ≫= f = Ok b <-> exists a, m = Ok a /\ f a = Ok b.
Proof.
  destruct m as [a|e]; simpl.
  - split; [intros H; exists a; auto | intros (a' & Ha & Hf); congruence].
  - split; [discriminate | intros (a' & Ha & _); discriminate].
Qed.

Lemma bind_Raise {A B} (m : result A) (f : A -> result B) (e : exn) :
  m ≫= f = Raise e <->
  m = Raise e \/ exists a, m = Ok a /\ f a = Raise e.
Proof.
  destruct m as [a|e']; simpl.
  - split; [intros H; right; exists a; auto|].
    intros [H | (a' & Ha & Hf)]; congruence.
  - split; [intros [= ->]; left; reflexivity|].
    intros [[= ->] | (a' & Ha & _)]; [reflexivity | discriminate].
Qed.

Lemma mapM_Ok_length {A B} (f : A -> result B) (l : list A) (k : list B) :
  mapM f l = Ok k -> length k = length l.
Proof.
  revert k; induction l as [|a l IH]; intros k; simpl.
  - intros [= <-]; reflexivity.
  - destruct (f a) as [b|e]; simpl; [|discriminate].
    destruct (mapM f l) as [k'|e]; simpl; [|discriminate].
    intros [= <-]; simpl; f_equal; apply IH; reflexivity.
Qed.

Lemma mapM_Ok_lookup {A B} (f : A -> result B) (l : list A) (k : list B) :
  mapM f l = Ok k ->
  forall i a, l !! i = Some a -> exists b, k !! i = Some b /\ f a = Ok b.
Proof.
  revert k; induction l as [|a l IH]; intros k; simpl.
  - intros _ i a' Hi; destruct i; discriminate.
  - destruct (f a) as [b|e] eqn:Hfa; simpl; [|discriminate].
    destruct (mapM f l) as [k'|e]; simpl; [|discriminate].
    intros [= <-] [|i] a' Hi; simpl in *.
    + injection Hi as <-; exists b; auto.
    + apply (IH k' eq_refl i a' Hi).
Qed.

Lemma mapM_Ok_lookup_r {A B} (f : A -> result B) (l : list A) (k : list B) :
  mapM f l = Ok k ->
  forall i b, k !! i = Some b -> exists a, l !! i = Some a /\ f a = Ok b.
Proof.
  intros H i b Hb.
  assert (Hi : (i < length l)%nat).
  { rewrite <- (mapM_Ok_length _ _ _ H). eapply lookup_lt_Some; exact Hb. }
  destruct (lookup_lt_is_Some_2 l i Hi) as [a Ha].
  destruct (mapM_Ok_lookup _ _ _ H i a Ha) as (b' & Hb' & Hf).
  exists a; split; [exact Ha | congruence].
Qed.

Lemma mapM_all_Ok {A B} (f : A -> result B) (l : list A) :
  (forall a, In a l -> exists b, f a = Ok b) -> exists k, mapM f l = Ok k.
Proof.
  induction l as [|a l IH]; intros H; simpl.
  - exists []; reflexivity.
  - destruct (H a (or_introl eq_refl)) as [b ->]; simpl.
    destruct IH as [k ->]; [intros a' Ha'; apply H; right; exact Ha'|].
    exists (b :: k); reflexivity.
Qed.

(** An exception raised by a loop was raised by one of its bodies. *)
Lemma mapM_Raise {A B} (f : A -> result B) (l : list A) (e : exn) :
  mapM f l = Raise e -> exists a, In a l /\ f a = Raise e.
Proof.
  induction l as [|a l IH]; simpl; [discriminate|].
  destruct (f a) as [b|e'] eqn:Hfa; simpl.
  - destruct (mapM f l) as [k'|e'']; simpl; [discriminate|].
    intros [= ->]; destruct (IH eq_refl) as (a' & Hin & Ha'); eauto.
  - intros [= ->]; eauto.
Qed.

Lemma for_each_Raise {S A} (body : S -> A -> result S) (l : list A) (s : S)
  (e : exn) :
  TrafficCamNetPostprocessor.for_each body s l = Raise e ->
  exists s' a, In a l /\ body s' a = Raise e.
Proof.
  revert s; induction l as [|a l IH]; intros s; simpl; [discriminate|].
  destruct (body s a) as [s'|e'] eqn:Hb; simpl.
  - intros H; destruct (IH _ H) as (s'' & a' & Hin & Ha'); eauto 6.
  - intros [= ->]; eauto 6.
Qed.

Lemma lookup_nth_lt {A} (l : list A) (i : nat) (d : A) :
  (i < length l)%nat -> l !! i = Some (nth i l d).
Proof.
  intros H; destruct (nth_lookup_or_length l i d) as [E|E]; [exact E|lia].
Qed.

Lemma getitem_Ok {A} (l : list A) (i : nat) (a : A) :
  getitem l i = Ok a <-> l !! i = Some a.
Proof. unfold getitem; destruct (l !! i); split; congruence. Qed.

Lemma getitem_Raise {A} (l : list A) (i : nat) (e : exn) :
  getitem l i = Raise e -> e = IndexError.
Proof. unfold getitem; destruct (l !! i); congruence. Qed.

Lemma getitem_int_Raise {A} (l : list A) (i : Z) (e : exn) :
  getitem_int l i = Raise e -> e = IndexError.
Proof.
  unfold getitem_int.
  repeat match goal with |- context [if ?c then _ else _] => destruct c end;
    eauto using getitem_Raise; congruence.
Qed.

Lemma dict_get_Raise {V} (d : gmap string V) (k : string) (e : exn) :
  dict_get d k = Raise e -> e = KeyError.
Proof. unfold dict_get; destruct (d !! k); congruence. Qed.

Lemma getitem_int_nat {A} (l : list A) (i : nat) :
  getitem_int l (Z.of_nat i) = getitem l i.
Proof.
  unfold getitem_int.
  destruct (0 <=? Z.of_nat i)%Z eqn:H; [|apply Z.leb_gt in H; lia].
  rewrite Nat2Z.id; reflexivity.
Qed.

End PyFacts.

(** ** Loading the configuration and configuring the postprocessor *)

Module ConfigFacts.

Import TrafficCamNetPostprocessor PyFacts.

Lemma configure_class_present cfg d class_name c :
  classwise_clustering_config cfg !! class_name = Some c ->
  exists d', configure_class cfg d class_name = Ok d'.
Proof. intros H; unfold configure_class; rewrite H; eauto. Qed.

Lemma configure_class_absent cfg d class_name :
  classwise_clustering_config cfg !! class_name = None ->
  configure_class cfg d class_name = Raise AttributeError.
Proof. intros H; unfold configure_class; rewrite H; reflexivity. Qed.

(** A class list whose names are all configured is accepted. *)
Lemma configure_succeeds (self : Postprocessor) :
  Forall (fun c => is_Some (classwise_clustering_config (pproc_config self) !! c))
         (classes self) ->
  exists self', configure self = Ok self' /\ classes self' = classes self.
Proof.
  intros Hall; unfold configure.
  assert (Hloop : forall d, exists d',
             for_each (configure_class (pproc_config self)) d (classes self)
             = Ok d').
  { induction Hall as [|c l [cc Hc] _ IH]; intros d; simpl; [eauto|].
    destruct (configure_class_present _ d _ _ Hc) as [d1 ->]; simpl.
    apply IH. }
  destruct (Hloop (∅, ∅, ∅)) as [d' ->]; simpl.
  eexists; split; reflexivity.
Qed.

(** A class name without an entry stops [configure]; the exception that
    leaves it is the one raised while the message is formatted. *)
Lemma configure_unknown_class (self : Postprocessor) :
  Exists (fun c => classwise_clustering_config (pproc_config self) !! c = None)
         (classes self) ->
  configure self = Raise AttributeError.
Proof.
  intros Hex; unfold configure.
  assert (Hloop : forall d,
             for_each (configure_class (pproc_config self)) d (classes self)
             = Raise AttributeError).
  { induction (classes self) as [|c l IH]; intros d; simpl.
    - inversion Hex.
    - destruct (classwise_clustering_config (pproc_config self) !! c)
        as [cc|] eqn:Hc.
      + destruct (configure_class_present _ d _ _ Hc) as [d1 ->]; simpl.
        apply IH. inversion Hex; subst; [congruence | assumption].
      + rewrite (configure_class_absent _ d _ Hc); reflexivity. }
  rewrite Hloop; reflexivity.
Qed.

(** C3, on the class list [car, bus] with a configuration for [car] and
    [person]: constructing the postprocessor fails, and the exception is
    [AttributeError], raised by [self.pproc_config.keys()] while the
    message of the intended [KeyError] is built. *)
Theorem init_unknown_class_raises_AttributeError :
  __init__ Examples.parse Examples.disk 8 Examples.five_frames
           "./" "channels_first" ["car"; "bus"]
           "/specs/clustering.prototxt" [3; 544; 960]%Z
  = Raise AttributeError.
Proof. vm_compute. reflexivity. Qed.

(** On the same files, a class list within the configuration is accepted. *)
Example init_known_classes :
  is_ok (__init__ Examples.parse Examples.disk 8 Examples.five_frames
                  "./" "channels_first" ["car"; "person"]
                  "/specs/clustering.prototxt" [3; 544; 960]%Z) = true.
Proof. vm_compute. reflexivity. Qed.

Section Load.

Variable merge_text_proto : string -> result PostprocessingConfig.
Variable denormalize_bounding_bboxes :
  Np.ndarray4 -> Z -> Q -> list Q -> nat -> Q -> Q -> string -> list Z ->
  list Frame -> Z -> Np.ndarray4.
Variable iou_vectorized : list (list Q) -> list (list Q).
Variable fit_predict : DBSCAN -> list (list Q) -> list Q -> list Z.
Variable BboxInfo : Type.
Variable return_bbox_info : Frame -> list KittiBbox -> BboxInfo.

(** C4: when the configuration file does not exist,
    [load_clustering_config] raises [IOError]; the constructor, whose
    first statement is that call, raises it too, so that no postprocessor
    exists and no batch of tensors is ever handed to [apply]. *)
Theorem load_clustering_config_missing_file
  (fs : Os.filesystem) (config : string) :
  fs !! config = None ->
  load_clustering_config merge_text_proto fs config = Raise IOError /\
  forall batch_size frames output_path data_format classes target_shape,
    __init__ merge_text_proto fs batch_size frames output_path data_format
             classes config target_shape = Raise IOError /\
    forall batches : list (InferResult * Z),
      (self ← __init__ merge_text_proto fs batch_size frames output_path
                       data_format classes config target_shape;
       mapM (fun '(results, this_id) =>
               apply denormalize_bounding_bboxes iou_vectorized fit_predict
                     return_bbox_info self results this_id true)
            batches)
      = Raise IOError.
Proof.
  intros Hmissing.
  assert (Hload : load_clustering_config merge_text_proto fs config
                  = Raise IOError).
  { unfold load_clustering_config, _load_from_file, Os.path_exists.
    rewrite Hmissing; reflexivity. }
  split; [exact Hload|].
  intros batch_size frames output_path data_format classes target_shape.
  assert (Hinit : __init__ merge_text_proto fs batch_size frames output_path
                           data_format classes config target_shape
                  = Raise IOError).
  { unfold __init__; rewrite Hload; reflexivity. }
  split; [exact Hinit|].
  intros batches; rewrite Hinit; reflexivity.
Qed.

End Load.

Lemma load_clustering_config_missing_file_witness :
  load_clustering_config Examples.parse Examples.disk "/specs/none.prototxt"
  = Raise IOError.
Proof.
  apply (load_clustering_config_missing_file Examples.parse
           Reference.denormalize_bounding_bboxes Reference.iou_vectorized
           Reference.fit_predict _ Reference.return_bbox_info
           Examples.disk "/specs/none.prototxt").
  vm_compute; reflexivity.
Defined.

End ConfigFacts.

(** ** Which exceptions a stage can raise *)

Module Raises.

Import TrafficCamNetPostprocessor PyFacts.

Section Only.

Variable P : exn -> Prop.

Lemma raises_only_Ok {A} (a : A) : raises_only P (Ok a).
Proof. intros e; discriminate. Qed.

Lemma raises_only_Raise {A} (e : exn) : P e -> raises_only P (@Raise A e).
Proof. intros H e' [= <-]; exact H. Qed.

Lemma raises_only_bind {A B} (m : result A) (f : A -> result B) :
  raises_only P m -> (forall a, raises_only P (f a)) ->
  raises_only P (m ≫= f).
Proof.
  intros Hm Hf e He. apply bind_Raise in He as [He | (a & _ & He)].
  - exact (Hm e He).
  - exact (Hf a e He).
Qed.

Lemma raises_only_mapM {A B} (f : A -> result B) (l : list A) :
  (forall a, raises_only P (f a)) -> raises_only P (mapM f l).
Proof.
  intros Hf e He. apply mapM_Raise in He as (a & _ & He). exact (Hf a e He).
Qed.

Lemma raises_only_for_each {S A} (body : S -> A -> result S) (s : S)
  (l : list A) :
  (forall s' a, raises_only P (body s' a)) -> raises_only P (for_each body s l).
Proof.
  intros Hb e He. apply for_each_Raise in He as (s' & a & _ & He).
  exact (Hb s' a e He).
Qed.

Hypothesis P_IndexError : P IndexError.
Hypothesis P_KeyError : P KeyError.
Hypothesis P_ValueError : P ValueError.

Lemma raises_only_getitem {A} (l : list A) i : raises_only P (getitem l i).
Proof. intros e He; apply getitem_Raise in He as ->; assumption. Qed.

Lemma raises_only_getitem_int {A} (l : list A) i :
  raises_only P (getitem_int l i).
Proof. intros e He; apply getitem_int_Raise in He as ->; assumption. Qed.

Lemma raises_only_dict_get {V} (d : gmap string V) k :
  raises_only P (dict_get d k).
Proof. intros e He; apply dict_get_Raise in He as ->; assumption. Qed.

Lemma raises_only_subarray a i : raises_only P (Np.subarray a i).
Proof.
  unfold Np.subarray; destruct (i <? Np.shape0 a)%nat;
    auto using @raises_only_Ok, @raises_only_Raise.
Qed.

Lemma raises_only_flatten_plane a c : raises_only P (Np.flatten_plane a c).
Proof.
  unfold Np.flatten_plane; destruct (c <? Np.sh0 a)%nat;
    auto using @raises_only_Ok, @raises_only_Raise.
Qed.

Lemma raises_only_slice_reshape a lo hi :
  raises_only P (Np.slice_reshape a lo hi).
Proof.
  unfold Np.slice_reshape; destruct (seq lo _);
    auto using @raises_only_Ok, @raises_only_Raise.
Qed.

Lemma raises_only_take {A} (xs : list A) idx : raises_only P (Np.take xs idx).
Proof. apply raises_only_mapM; intros; apply raises_only_getitem. Qed.

Lemma raises_only_amax xs : raises_only P (Np.amax xs).
Proof.
  destruct xs; simpl; auto using @raises_only_Ok, @raises_only_Raise.
Qed.

Lemma raises_only_amin xs : raises_only P (Np.amin xs).
Proof.
  destruct xs; simpl; auto using @raises_only_Ok, @raises_only_Raise.
Qed.

Lemma raises_only_compress {A} mask (xs : list A) :
  raises_only P (Np.compress mask xs).
Proof.
  unfold Np.compress; destruct (length mask =? length xs)%nat;
    auto using @raises_only_Ok, @raises_only_Raise.
Qed.

End Only.

Create HintDb raises.

#[export] Hint Resolve raises_only_Ok raises_only_getitem
  raises_only_getitem_int raises_only_dict_get raises_only_subarray
  raises_only_flatten_plane raises_only_slice_reshape raises_only_take
  raises_only_compress raises_only_amax raises_only_amin : raises.

(** Walks through a stage: binds, loops and branches. *)
Ltac raises :=
  repeat first
    [ solve [auto with raises]
    | progress cbv zeta
    | match goal with
      | |- raises_only _ (_ ≫= _) => apply raises_only_bind; [|intros ?]
      | |- raises_only _ (mapM _ _) => apply raises_only_mapM; intros ?
      | |- raises_only _ (for_each _ _ _) =>
          apply raises_only_for_each; intros ? ?
      | |- raises_only _ (if ?c then _ else _) => destruct c
      | |- raises_only _ (let '(_, _) := ?p in _) => destruct p
      end ].

Section Stages.

Variable denormalize_bounding_bboxes :
  Np.ndarray4 -> Z -> Q -> list Q -> nat -> Q -> Q -> string -> list Z ->
  list Frame -> Z -> Np.ndarray4.
Variable iou_vectorized : list (list Q) -> list (list Q).
Variable fit_predict : DBSCAN -> list (list Q) -> list Q -> list Z.
Variable BboxInfo : Type.
Variable return_bbox_info : Frame -> list KittiBbox -> BboxInfo.

Variable P : exn -> Prop.
Hypothesis P_IndexError : P IndexError.
Hypothesis P_KeyError : P KeyError.
Hypothesis P_ValueError : P ValueError.

Lemma raises_only_thresholded_indices cov n classes thr :
  raises_only P (thresholded_indices cov n classes thr).
Proof. unfold thresholded_indices; raises. Qed.

Lemma raises_only_cluster_label name cfg ncols covs bboxes labeling acc label :
  raises_only P (cluster_label name cfg ncols covs bboxes labeling acc label).
Proof. unfold cluster_label; raises. Qed.

#[local] Hint Resolve raises_only_cluster_label : raises.

Lemma raises_only_cluster_class self covs bboxes indices c :
  raises_only P
    (cluster_class iou_vectorized fit_predict self covs bboxes indices c).
Proof. unfold cluster_class; raises. Qed.

#[local] Hint Resolve raises_only_cluster_class : raises.

Lemma raises_only_batchwise_boxes self cov abs vi :
  raises_only P
    (batchwise_boxes iou_vectorized fit_predict self cov abs vi).
Proof. unfold batchwise_boxes, imagewise_boxes; raises. Qed.

Lemma raises_only_render_loop self this_id bw idxs acc :
  raises_only P (render_loop return_bbox_info self this_id bw idxs acc).
Proof.
  revert acc; induction idxs as [|i idxs IH]; intros acc; simpl; raises.
Qed.

End Stages.

End Raises.

(** ** numpy operations *)

Module NpFacts.

Import PyFacts.

Lemma fold_left_Qplus_acc (xs : list Q) (a : Q) :
  fold_left Qplus xs a == a + fold_left Qplus xs 0.
Proof.
  revert a; induction xs as [|x xs IH]; intros a; simpl.
  - ring.
  - rewrite (IH (a + x)), (IH (0 + x)). ring.
Qed.

Lemma sum_nil : Np.sum [] = 0.
Proof. reflexivity. Qed.

Lemma sum_cons (x : Q) (xs : list Q) : Np.sum (x :: xs) == x + Np.sum xs.
Proof.
  unfold Np.sum; simpl. rewrite fold_left_Qplus_acc. ring.
Qed.

Lemma gt_true (a b : Q) : Np.gt a b = true <-> b < a.
Proof.
  unfold Np.gt. rewrite negb_true_iff.
  destruct (Qle_bool a b) eqn:H.
  - apply Qle_bool_iff in H. split; [discriminate | intros; lra].
  - split; [intros _|reflexivity].
    apply Qnot_le_lt. intros Hle. apply Qle_bool_iff in Hle. congruence.
Qed.

Lemma gt_false (a b : Q) : Np.gt a b = false <-> ~ b < a.
Proof.
  rewrite <- gt_true. destruct (Np.gt a b); split; congruence.
Qed.

(** Selection by a mask keeps a sub-list. *)
Lemma select_In {A} (mask : list bool) (xs : list A) (x : A) :
  In x (Np.select mask xs) -> In x xs.
Proof.
  revert xs; induction mask as [|b mask IH]; intros [|y xs]; simpl; try tauto.
  destruct b; simpl; intros H; [destruct H; auto|auto].
Qed.

Lemma select_Forall {A} (P : A -> Prop) (mask : list bool) (xs : list A) :
  Forall P xs -> Forall P (Np.select mask xs).
Proof.
  rewrite !List.Forall_forall. intros H x Hx. eauto using select_In.
Qed.

Lemma select_length {A B} (mask : list bool) (xs : list A) (ys : list B) :
  length xs = length ys ->
  length (Np.select mask xs) = length (Np.select mask ys).
Proof.
  revert xs ys; induction mask as [|b mask IH]; intros [|x xs] [|y ys];
    simpl; try discriminate; auto.
  intros [= H]. destruct b; simpl; auto.
Qed.

Lemma compress_Ok {A} (mask : list bool) (xs ys : list A) :
  Np.compress mask xs = Ok ys <->
  length mask = length xs /\ ys = Np.select mask xs.
Proof.
  unfold Np.compress.
  destruct (length mask =? length xs)%nat eqn:H.
  - apply Nat.eqb_eq in H. split; [intros [= <-]; auto|].
    intros [_ ->]; reflexivity.
  - apply Nat.eqb_neq in H. split; [discriminate|]. intros [H' _]; lia.
Qed.

(** What [take] returns was stored at the requested positions. *)
Lemma take_Ok {A} (xs : list A) (idx : list nat) (ys : list A) (d : A) :
  Np.take xs idx = Ok ys ->
  ys = map (fun p => nth p xs d) idx /\ Forall (fun p => (p < length xs)%nat) idx.
Proof.
  unfold Np.take. revert ys; induction idx as [|p idx IH]; intros ys; simpl.
  - intros [= <-]; auto.
  - destruct (getitem xs p) as [a|e] eqn:Hp; simpl; [|discriminate].
    destruct (mapM (getitem xs) idx) as [k|e]; simpl; [|discriminate].
    intros [= <-]. destruct (IH k eq_refl) as [-> Hall].
    apply getitem_Ok in Hp.
    split.
    + f_equal. symmetry. apply nth_lookup_Some. exact Hp.
    + constructor; [eapply lookup_lt_Some; exact Hp | exact Hall].
Qed.

Lemma nth_map_seq {A} (f : nat -> A) (n j : nat) (d : A) :
  (j < n)%nat -> nth j (map f (seq 0 n)) d = f j.
Proof.
  intros Hj. rewrite nth_lookup, list_lookup_fmap, lookup_seq_lt by exact Hj.
  reflexivity.
Qed.

Lemma nth_plane (a : Np.ndarray3) (c p : nat) :
  (p < Np.sh1 a * Np.sh2 a)%nat ->
  nth p (Np.plane a c) 0
  = Np.at3 a c (p / Np.sh2 a)%nat (p mod Np.sh2 a)%nat.
Proof.
  intros Hp. unfold Np.plane.
  exact (nth_map_seq
           (fun q => Np.at3 a c (q / Np.sh2 a)%nat (q mod Np.sh2 a)%nat)
           _ p 0 Hp).
Qed.

Lemma length_plane (a : Np.ndarray3) (c : nat) :
  length (Np.plane a c) = (Np.sh1 a * Np.sh2 a)%nat.
Proof. unfold Np.plane. rewrite length_map, length_seq. reflexivity. Qed.

Lemma map_nth_seq {A} (l : list A) (d : A) :
  map (fun i => nth i l d) (seq 0 (length l)) = l.
Proof.
  apply nth_ext with (d := d) (d' := d).
  - rewrite length_map, length_seq. reflexivity.
  - intros i Hi. rewrite length_map, length_seq in Hi.
    exact (nth_map_seq (fun k => nth k l d) _ i d Hi).
Qed.

Lemma insert_unique_In (x y : Z) (l : list Z) :
  In y (Np.insert_unique x l) -> y = x \/ In y l.
Proof.
  induction l as [|z l IH]; simpl.
  - intros [<- | []]; auto.
  - destruct (x <? z)%Z; [intros [<- | H]; auto|].
    destruct (x =? z)%Z; [auto|].
    intros [<- | H]; [auto|]. destruct (IH H); auto.
Qed.

Lemma unique_In (y : Z) (xs : list Z) : In y (Np.unique xs) -> In y xs.
Proof.
  unfold Np.unique. induction xs as [|x xs IH]; simpl; [tauto|].
  intros H. apply insert_unique_In in H as [-> | H]; auto.
Qed.

Lemma slice_reshape_Ok a lo hi planes :
  Np.slice_reshape a lo hi = Ok planes ->
  planes = map (Np.plane a) (seq lo (Nat.min hi (Np.sh0 a) - lo)).
Proof.
  unfold Np.slice_reshape.
  destruct (seq lo (Nat.min hi (Np.sh0 a) - lo)); [discriminate|].
  intros [= <-]; reflexivity.
Qed.

Lemma length_transposeM ncols m : length (Np.transposeM ncols m) = ncols.
Proof. unfold Np.transposeM. rewrite length_map, length_seq. reflexivity. Qed.

Lemma nth_transposeM ncols m j :
  (j < ncols)%nat ->
  nth j (Np.transposeM ncols m) [] = map (fun row => nth j row 0) m.
Proof.
  intros Hj. unfold Np.transposeM.
  exact (nth_map_seq (fun k => map (fun row => nth k row 0) m) _ j [] Hj).
Qed.

End NpFacts.

(** ** Clustering and aggregation of one class in one image *)

Module ClusterFacts.

Import TrafficCamNetPostprocessor PyFacts NpFacts.

Lemma nth_map_default {A B} (f : A -> B) (l : list A) (j : nat) (d : A) (d' : B) :
  (j < length l)%nat -> nth j (map f l) d' = f (nth j l d).
Proof.
  intros Hj. rewrite (nth_indep _ d' (f d)) by (rewrite length_map; exact Hj).
  apply map_nth.
Qed.

(** Coordinate [c] of the weighted mean is the sum over the members of
    their coordinate [c] times their normalised weight. *)
Lemma weighted_mean_coordinate (ncols : nat) (b : list (list Q)) (wn : list Q)
  (c : nat) :
  (c < ncols)%nat -> length wn = length b ->
  nth c (weighted_mean ncols b wn) 0
  = Np.sum (zip_with Qmult (map (fun row => nth c row 0) b) wn).
Proof.
  intros Hc Hlen. unfold weighted_mean, Np.sum_axis0.
  rewrite (nth_map_default Np.sum _ c [] 0)
    by (rewrite length_transposeM; exact Hc).
  rewrite nth_transposeM by exact Hc. f_equal.
  unfold Np.transposeM at 1. rewrite map_map.
  set (Zc := zip_with Qmult (map (fun row => nth c row 0) b) wn).
  assert (HZ : length Zc = length wn).
  { subst Zc. rewrite length_zip_with, length_map. lia. }
  transitivity (map (fun i => nth i Zc 0) (seq 0 (length Zc)));
    [|apply map_nth_seq].
  rewrite HZ.
  apply map_ext. intros i.
  rewrite (nth_map_default (fun row => nth i row 0) _ c [] 0)
    by (rewrite length_map, length_transposeM; exact Hc).
  f_equal.
  rewrite (nth_map_default (fun row => zip_with Qmult row wn) _ c [] [])
    by (rewrite length_transposeM; exact Hc).
  rewrite nth_transposeM by exact Hc. reflexivity.
Qed.

Lemma length_weighted_mean ncols b wn :
  length (weighted_mean ncols b wn) = ncols.
Proof.
  unfold weighted_mean, Np.sum_axis0.
  rewrite length_map, length_transposeM. reflexivity.
Qed.

(** The loop body on a cluster that has members, in a matrix of at least
    four columns. *)
Lemma cluster_label_eq name cfg ncols covs bboxes labeling acc label w b :
  Np.compress (label_mask labeling label) covs = Ok w ->
  Np.compress (label_mask labeling label) bboxes = Ok b ->
  w <> [] -> (4 <= ncols)%nat ->
  cluster_label name cfg ncols covs bboxes labeling acc label
  = Ok (if valid_box_of cfg (detection_of name ncols w b)
        then (acc ++ [detection_of name ncols w b])%list else acc).
Proof.
  intros Hw Hb Hne Hcols. unfold cluster_label.
  rewrite Hw. cbn [mbind result_bind].
  destruct w as [|w0 w']; [congruence|]. cbn [Np.amax Np.amin mbind result_bind].
  rewrite Hb. cbn [mbind result_bind].
  set (mean := weighted_mean ncols b _).
  assert (Hlen : length mean = ncols) by apply length_weighted_mean.
  assert (Hget : forall j, (j < 4)%nat -> getitem mean j = Ok (nth j mean 0)).
  { intros j Hj. apply getitem_Ok, lookup_nth_lt. lia. }
  rewrite !Hget by lia. cbn [mbind result_bind].
  unfold valid_box_of, detection_of. cbn [confidence_score box].
  fold mean.
  destruct (_ && _); reflexivity.
Qed.

(** Conversely, when the body returns, the cluster had members and the
    matrix had four columns. *)
Lemma cluster_label_Ok name cfg ncols covs bboxes labeling acc label out :
  cluster_label name cfg ncols covs bboxes labeling acc label = Ok out ->
  exists w b,
    Np.compress (label_mask labeling label) covs = Ok w /\
    Np.compress (label_mask labeling label) bboxes = Ok b /\
    w <> [] /\ (4 <= ncols)%nat /\
    out = if valid_box_of cfg (detection_of name ncols w b)
          then (acc ++ [detection_of name ncols w b])%list else acc.
Proof.
  intros H.
  destruct (Np.compress (label_mask labeling label) covs) as [w|e] eqn:Hw;
    [|unfold cluster_label in H; rewrite Hw in H; discriminate].
  destruct (Np.compress (label_mask labeling label) bboxes) as [b|e] eqn:Hb.
  2:{ unfold cluster_label in H; rewrite Hw, Hb in H.
      destruct w; discriminate. }
  assert (Hne : w <> []).
  { intros ->. unfold cluster_label in H; rewrite Hw in H. discriminate. }
  assert (Hcols : (4 <= ncols)%nat).
  { destruct (le_lt_dec 4 ncols) as [|Hlt]; [assumption|exfalso].
    unfold cluster_label in H; rewrite Hw, Hb in H.
    destruct w as [|w0 w']; [congruence|].
    cbn [Np.amax Np.amin mbind result_bind] in H.
    set (mean := weighted_mean ncols b _) in H.
    assert (Hlen : length mean = ncols) by apply length_weighted_mean.
    destruct (getitem mean 2) as [m2|] eqn:H2; [|discriminate].
    destruct (getitem mean 0) as [m0|] eqn:H0; [|discriminate].
    destruct (getitem mean 3) as [m3|] eqn:H3; [|discriminate].
    apply getitem_Ok, lookup_lt_Some in H3. lia. }
  rewrite (cluster_label_eq _ cfg _ _ _ _ acc _ _ _ Hw Hb Hne Hcols) in H.
  injection H as H.
  exists w, b. split; [reflexivity|]. split; [reflexivity|].
  split; [exact Hne|]. split; [exact Hcols|]. symmetry; exact H.
Qed.

(** Every detection the loop over the labels leaves behind was appended
    for one of the labels and passed the validity test. *)
Lemma for_each_cluster_label name cfg ncols covs bboxes labeling labels :
  forall acc out,
    for_each (cluster_label name cfg ncols covs bboxes labeling) acc labels
    = Ok out ->
    forall d, In d out ->
      In d acc \/
      exists label w b,
        In label labels /\
        Np.compress (label_mask labeling label) covs = Ok w /\
        Np.compress (label_mask labeling label) bboxes = Ok b /\
        w <> [] /\ (4 <= ncols)%nat /\
        d = detection_of name ncols w b /\
        valid_box_of cfg d = true.
Proof.
  induction labels as [|label labels IH]; intros acc out; simpl.
  - intros [= <-] d Hd; left; exact Hd.
  - intros H. apply bind_Ok in H as (acc1 & Hbody & Hrest).
    apply cluster_label_Ok in Hbody as (w & b & Hw & Hb & Hne & Hcols & ->).
    intros d Hd. destruct (IH _ _ Hrest d Hd) as [Hin | Hex].
    + destruct (valid_box_of cfg (detection_of name ncols w b)) eqn:Hvalid;
        [|left; exact Hin].
      apply in_app_iff in Hin as [Hin | [<- | []]]; [left; exact Hin|].
      right. exists label, w, b. repeat (split; [tauto|]). exact Hvalid.
    + right. destruct Hex as (l & w' & b' & Hl & Hrest').
      exists l, w', b'. split; [right; exact Hl | exact Hrest'].
Qed.

(** *** The loop body against the specification of the aggregation *)

Lemma select_cluster (labeling : list Z) (label : Z) :
  forall (covs : list Q) (bboxes : list (list Q)),
    length labeling = length covs -> length bboxes = length covs ->
    Np.select (label_mask labeling label) covs
    = map fst (ClusterSpec.cluster labeling covs bboxes label) /\
    Np.select (label_mask labeling label) bboxes
    = map snd (ClusterSpec.cluster labeling covs bboxes label).
Proof.
  unfold ClusterSpec.cluster.
  induction labeling as [|l labeling IH]; intros [|w covs] [|b bboxes];
    simpl; try discriminate; auto.
  intros [= Hl] [= Hb]. destruct (IH covs bboxes Hl Hb) as [IHw IHb].
  destruct (l =? label)%Z; simpl; [split; f_equal|split]; assumption.
Qed.

Lemma select_label_nonempty (labeling : list Z) (label : Z) :
  forall covs : list Q,
    length labeling = length covs -> In label labeling ->
    Np.select (label_mask labeling label) covs <> [].
Proof.
  induction labeling as [|l labeling IH]; intros [|w covs]; simpl;
    try discriminate; try tauto.
  intros [= Hl] [-> | Hin].
  - rewrite Z.eqb_refl. discriminate.
  - destruct (l =? label)%Z; [discriminate | auto].
Qed.

Lemma sum_aggregated_weight (ms : list (Q * list Q)) :
  Np.sum (map fst ms) == ClusterSpec.aggregated_weight ms.
Proof.
  unfold ClusterSpec.aggregated_weight, ClusterSpec.total.
  induction ms as [|m ms IH]; simpl; [reflexivity|].
  rewrite sum_cons, IH. reflexivity.
Qed.

Lemma sum_aggregated_coordinate (ms : list (Q * list Q)) (j : nat) (W W' : Q) :
  W == W' ->
  Np.sum (zip_with Qmult (map (fun row => nth j row 0) (map snd ms))
                   (map (fun x => x / W) (map fst ms)))
  == ClusterSpec.total (fun m => fst m / W' * nth j (snd m) 0) ms.
Proof.
  intros HW. unfold ClusterSpec.total.
  induction ms as [|m ms IH]; simpl; [reflexivity|].
  rewrite sum_cons, IH, HW. ring.
Qed.

(** The loop body on one cluster whose label occurs in the labelling:
    what it appends, and that its test is the validity filter. *)
Lemma cluster_label_spec (name : string) (cfg : ClusteringConfig)
  (covs : list Q) (bboxes : list (list Q)) (labeling : list Z)
  (acc : list KittiBbox) (label : Z) :
  length labeling = length covs -> length bboxes = length covs ->
  In label labeling ->
  let ms := ClusterSpec.cluster labeling covs bboxes label in
  let d := detection_of name 4 (map fst ms) (map snd ms) in
  cluster_label name cfg 4 covs bboxes labeling acc label
  = Ok (if valid_box_of cfg d then (acc ++ [d])%list else acc) /\
  (valid_box_of cfg d = true <-> ClusterSpec.valid cfg ms) /\
  confidence_score d == ClusterSpec.aggregated_weight ms /\
  Forall2 Qeq (box d) (ClusterSpec.aggregated_box ms).
Proof.
  intros Hl Hb Hin ms d.
  destruct (select_cluster labeling label covs bboxes Hl Hb) as [Hsw Hsb].
  fold ms in Hsw, Hsb.
  assert (Hw : Np.compress (label_mask labeling label) covs
               = Ok (map fst ms)).
  { apply compress_Ok. split; [|symmetry; exact Hsw].
    unfold label_mask. rewrite length_map. exact Hl. }
  assert (Hbx : Np.compress (label_mask labeling label) bboxes
                = Ok (map snd ms)).
  { apply compress_Ok. split; [|symmetry; exact Hsb].
    unfold label_mask. rewrite length_map. congruence. }
  assert (Hne : map fst ms <> []).
  { rewrite <- Hsw. apply select_label_nonempty; assumption. }
  assert (Hconf : confidence_score d == ClusterSpec.aggregated_weight ms)
    by apply sum_aggregated_weight.
  assert (Hcoord : forall j, (j < 4)%nat ->
            nth j (box d) 0 == ClusterSpec.aggregated_coordinate ms j).
  { intros j Hj. subst d. cbn [box detection_of].
    rewrite weighted_mean_coordinate
      by first [exact Hj | rewrite !length_map; reflexivity].
    apply sum_aggregated_coordinate, sum_aggregated_weight. }
  split; [|split; [|split; [exact Hconf|]]].
  - exact (cluster_label_eq name cfg 4 covs bboxes labeling acc label
             _ _ Hw Hbx Hne (le_n 4)).
  - unfold valid_box_of, ClusterSpec.valid.
    rewrite andb_true_iff, !gt_true, Hconf, (Hcoord 3%nat), (Hcoord 1%nat)
      by lia.
    reflexivity.
  - assert (Hlen : length (box d) = 4%nat) by apply length_weighted_mean.
    pose proof (Hcoord 0%nat) as H0. pose proof (Hcoord 1%nat) as H1.
    pose proof (Hcoord 2%nat) as H2. pose proof (Hcoord 3%nat) as H3.
    destruct (box d) as [|x0 [|x1 [|x2 [|x3 [|]]]]]; try discriminate.
    cbn [nth] in H0, H1, H2, H3. unfold ClusterSpec.aggregated_box.
    cbn [map]. repeat constructor; auto with arith.
Qed.

Lemma for_each_cluster_label_spec (name : string) (cfg : ClusteringConfig)
  (covs : list Q) (bboxes : list (list Q)) (labeling : list Z) :
  length labeling = length covs -> length bboxes = length covs ->
  forall labels, Forall (fun l => In l labeling) labels ->
  forall acc, exists dets,
    for_each (cluster_label name cfg 4 covs bboxes labeling) acc labels
    = Ok (acc ++ dets)%list /\
    ClusterSpec.aggregates name cfg labeling covs bboxes labels dets.
Proof.
  intros Hl Hb labels Hall.
  induction Hall as [|label labels Hin _ IH]; intros acc.
  - exists []. rewrite app_nil_r. split; [reflexivity | constructor].
  - destruct (cluster_label_spec name cfg covs bboxes labeling acc label
                Hl Hb Hin) as (Hbody & Hvalid & Hconf & Hbox).
    cbn [for_each]. rewrite Hbody. cbn [mbind result_bind].
    set (d := detection_of name 4 _ _) in *.
    destruct (valid_box_of cfg d) eqn:E.
    + destruct (IH (acc ++ [d])%list) as (dets & Hloop & Hagg).
      exists (d :: dets). rewrite Hloop, <- app_assoc. split; [reflexivity|].
      apply ClusterSpec.aggregates_valid; auto.
      apply Hvalid. reflexivity.
    + destruct (IH acc) as (dets & Hloop & Hagg).
      exists dets. split; [exact Hloop|].
      apply ClusterSpec.aggregates_invalid; [|exact Hagg].
      intros Hv. apply Hvalid in Hv. congruence.
Qed.

Section Class.

Variable iou_vectorized : list (list Q) -> list (list Q).
Variable fit_predict : DBSCAN -> list (list Q) -> list Q -> list Z.

Local Abbreviation cluster_class' := (cluster_class iou_vectorized fit_predict).
Local Abbreviation imagewise_boxes' :=
  (imagewise_boxes iou_vectorized fit_predict).
Local Abbreviation batchwise_boxes' :=
  (batchwise_boxes iou_vectorized fit_predict).

(** The stages a successful run of the class body has gone through. *)
Lemma cluster_class_Ok self covs bboxes indices c out :
  cluster_class' self covs bboxes indices c = Ok out ->
  exists name idx classwise_covs,
    classes self !! c = Some name /\
    (c < Np.sh0 covs)%nat /\
    indices !! c = Some idx /\
    Np.take (Np.plane covs c) idx = Ok classwise_covs /\
    (classwise_covs = [] /\ out = [] \/
     exists planes classwise_bboxes labeling,
       Np.slice_reshape bboxes (4 * c) (4 * c + 4) = Ok planes /\
       Np.take (Np.transposeM (Np.sh1 bboxes * Np.sh2 bboxes) planes) idx
       = Ok classwise_bboxes /\
       for_each (cluster_label name
                   (proto_map_get
                      (classwise_clustering_config (pproc_config self)) name)
                   (length planes) classwise_covs classwise_bboxes labeling)
                [] (Np.unique (List.filter (fun l => (0 <=? l)%Z) labeling))
       = Ok out).
Proof.
  unfold cluster_class. intros H.
  apply bind_Ok in H as (name & Hname & H). apply getitem_Ok in Hname.
  apply bind_Ok in H as (flat & Hflat & H).
  unfold Np.flatten_plane in Hflat.
  destruct (c <? Np.sh0 covs)%nat eqn:Hc; [|discriminate].
  apply Nat.ltb_lt in Hc. injection Hflat as <-.
  apply bind_Ok in H as (idx & Hidx & H). apply getitem_Ok in Hidx.
  apply bind_Ok in H as (classwise_covs & Htake & H).
  exists name, idx, classwise_covs. repeat (split; [assumption|]).
  destruct classwise_covs as [|w0 ws];
    [left; split; [reflexivity | cbn in H; congruence]|].
  right. cbn [length Nat.eqb] in H.
  apply bind_Ok in H as (planes & Hplanes & H).
  apply bind_Ok in H as (classwise_bboxes & Hbb & H).
  apply bind_Ok in H as (est & Hest & H).
  set (labeling := fit_predict est _ _) in H.
  exists planes, classwise_bboxes, labeling.
  repeat (split; [assumption|]). exact H.
Qed.


(** The image body runs the class body for class index 0 and nothing
    else. *)
Lemma imagewise_boxes_eq self cov abs_bbox i indices :
  imagewise_boxes' self cov abs_bbox i indices
  = (covs ← Np.subarray cov i;
     bboxes ← Np.subarray abs_bbox i;
     cluster_class' self covs bboxes indices 0).
Proof.
  unfold imagewise_boxes, class_indices.
  destruct (Np.subarray cov i) as [covs|e]; [|reflexivity].
  destruct (Np.subarray abs_bbox i) as [bboxes|e]; [|reflexivity].
  cbn [mbind result_bind for_each].
  destruct (cluster_class' self covs bboxes indices 0); reflexivity.
Qed.

(** The detections of a class carry the name of that class. *)
Lemma cluster_class_category self covs bboxes indices c out :
  cluster_class' self covs bboxes indices c = Ok out ->
  exists name, classes self !! c = Some name /\
               forall d, In d out -> category d = name.
Proof.
  intros H. apply cluster_class_Ok in H
    as (name & idx & cc & Hname & _ & _ & _ & Hout).
  exists name. split; [exact Hname|]. intros d Hd.
  destruct Hout as [[_ ->] | (planes & bb & labeling & _ & _ & Hloop)];
    [destruct Hd|].
  destruct (for_each_cluster_label _ _ _ _ _ _ _ _ _ Hloop d Hd)
    as [[] | (l & w & b & _ & _ & _ & _ & _ & -> & _)].
  reflexivity.
Qed.

(** For every image, the detections handed on are those of class index
    0, and of no other class; each of them carries the name of the first
    class. *)
Lemma imagewise_boxes_first_class_only (self : Postprocessor)
  (cov abs_bbox : Np.ndarray4) (i : nat) (indices : list (list nat)) :
  imagewise_boxes' self cov abs_bbox i indices
  = (covs ← Np.subarray cov i;
     bboxes ← Np.subarray abs_bbox i;
     cluster_class' self covs bboxes indices 0) /\
  forall out,
    imagewise_boxes' self cov abs_bbox i indices = Ok out ->
    exists name, classes self !! 0%nat = Some name /\
                 forall d, In d out -> category d = name.
Proof.
  split; [apply imagewise_boxes_eq|].
  intros out H. rewrite imagewise_boxes_eq in H.
  apply bind_Ok in H as (covs & _ & H).
  apply bind_Ok in H as (bboxes & _ & H).
  exact (cluster_class_category _ _ _ _ _ _ H).
Qed.

Lemma thresholded_indices_lookup cov n classes thr vi i ind c idx :
  thresholded_indices cov n classes thr = Ok vi ->
  vi !! i = Some ind -> ind !! c = Some idx ->
  exists covs name t,
    Np.subarray cov i = Ok covs /\
    classes !! c = Some name /\
    thr !! name = Some t /\
    (c < Np.sh0 covs)%nat /\
    idx = threshold_plane (Np.plane covs c) t.
Proof.
  intros Hvi Hi Hc. unfold thresholded_indices in Hvi.
  destruct (mapM_Ok_lookup_r _ _ _ Hvi i ind Hi) as (i' & Hi' & Himg).
  apply lookup_seq in Hi' as [-> _]. simpl in Himg.
  apply bind_Ok in Himg as (covs & Hcovs & Hcls).
  destruct (mapM_Ok_lookup_r _ _ _ Hcls c idx Hc) as (c' & Hc' & Hbody).
  apply lookup_seq in Hc' as [-> _]. simpl in Hbody.
  apply bind_Ok in Hbody as (name & Hname & Hbody).
  apply bind_Ok in Hbody as (t & Ht & Hbody).
  apply bind_Ok in Hbody as (flat & Hflat & Hbody).
  apply getitem_Ok in Hname.
  unfold dict_get in Ht. destruct (thr !! name) as [t'|] eqn:Hthr;
    [|discriminate]. injection Ht as ->.
  unfold Np.flatten_plane in Hflat.
  destruct (c <? Np.sh0 covs)%nat eqn:Hlt; [|discriminate].
  injection Hflat as <-. injection Hbody as <-.
  apply Nat.ltb_lt in Hlt.
  exists covs, name, t. auto.
Qed.


End Class.

(** C1, on a batch with two classes: in image 3 the second class has a
    candidate that thresholding, clustering and aggregation turn into a
    detection of confidence 9/10, and the entry that [apply] returns for
    that image holds the detection of the first class only. *)
Theorem apply_omits_second_class :
  let self := Examples.postprocessor 8 Examples.five_frames ["car"; "person"] in
  let cov := Np.transpose_0132 Examples.batch_cov in
  let abs_bbox := Np.transpose_0132 Examples.batch_bbox in
  exists (d : KittiBbox) (outputs : list (list KittiBbox * string))
         (boxes : list KittiBbox),
    (covs ← Np.subarray cov 3;
     bboxes ← Np.subarray abs_bbox 3;
     vi ← thresholded_indices cov 2 (classes self) (coverage_thresholds self);
     ind ← getitem vi 3;
     cluster_class Reference.iou_vectorized Reference.fit_predict
                   self covs bboxes ind 1) = Ok [d] /\
    category d = "person" /\
    apply Reference.denormalize_bounding_bboxes Reference.iou_vectorized
          Reference.fit_predict Reference.return_bbox_info
          self Examples.batch_results 1 true = Ok (Some outputs) /\
    outputs !! 3%nat = Some (boxes, "f3.jpg") /\
    ~ In d boxes.
Proof.
  intros self cov abs_bbox. eexists _, _, _.
  split; [vm_compute; reflexivity|].
  split; [reflexivity|].
  split; [vm_compute; reflexivity|].
  split; [reflexivity|].
  intros [H | []]. discriminate H.
Qed.


End ClusterFacts.

(** ** The loop over the clusters, in any arithmetic *)

Module ClusterLoopFacts.

Import TrafficCamNetPostprocessor PyFacts NpFacts.

(** *** The labels the loop visits *)

Lemma insert_unique_elem (x y : Z) (l : list Z) :
  In y (Np.insert_unique x l) <-> y = x \/ In y l.
Proof.
  induction l as [|z l IH]; simpl.
  - split; [intros [<- | []]; auto | intros [-> | []]; auto].
  - destruct (x <? z)%Z; [simpl; split; intros [H | H]; subst; auto|].
    destruct (x =? z)%Z eqn:Heq.
    + apply Z.eqb_eq in Heq. subst z. simpl.
      split; intros H; intuition (subst; auto).
    + simpl. rewrite IH. split; intros H; intuition (subst; auto).
Qed.

Lemma unique_elem (y : Z) (xs : list Z) : In y (Np.unique xs) <-> In y xs.
Proof.
  unfold Np.unique. induction xs as [|x xs IH]; simpl; [tauto|].
  rewrite insert_unique_elem, IH. split; intros [H | H]; auto.
Qed.

(** [np.unique] returns its elements in ascending order, each once. *)
Lemma insert_unique_ascending (x : Z) (l : list Z) :
  StronglySorted Z.lt l -> StronglySorted Z.lt (Np.insert_unique x l).
Proof.
  induction 1 as [|z l Hl IH Hz]; simpl.
  - repeat constructor.
  - destruct (x <? z)%Z eqn:Hlt.
    + apply Z.ltb_lt in Hlt. constructor; [constructor; assumption|].
      constructor; [exact Hlt|].
      eapply List.Forall_impl; [|exact Hz]. simpl. intros; lia.
    + destruct (x =? z)%Z eqn:Heq; [constructor; assumption|].
      apply Z.ltb_ge in Hlt. apply Z.eqb_neq in Heq.
      constructor; [exact IH|].
      apply List.Forall_forall. intros y Hy.
      apply insert_unique_elem in Hy as [-> | Hy]; [lia|].
      rewrite List.Forall_forall in Hz. auto.
Qed.

Lemma unique_ascending (xs : list Z) : StronglySorted Z.lt (Np.unique xs).
Proof.
  unfold Np.unique. induction xs as [|x xs IH]; simpl; [constructor|].
  apply insert_unique_ascending, IH.
Qed.

Lemma ascending_NoDup (l : list Z) : StronglySorted Z.lt l -> List.NoDup l.
Proof.
  induction 1 as [|z l _ IH Hz]; constructor; [|exact IH].
  intros Hin. rewrite List.Forall_forall in Hz. specialize (Hz z Hin). lia.
Qed.

(** The loop visits every cluster of the labelling, once. *)
Lemma labels_of_clusters (labeling : list Z) :
  List.NoDup (ClusterLoop.labels_of labeling) /\
  forall l, In l (ClusterLoop.labels_of labeling)
            <-> AggregatorSpec.is_cluster labeling l.
Proof.
  unfold ClusterLoop.labels_of, AggregatorSpec.is_cluster. split.
  - apply ascending_NoDup, unique_ascending.
  - intros l. rewrite unique_elem, filter_In, Z.leb_le. reflexivity.
Qed.

Section Loop.

Context {F : Type} (ops : Float.arith F).

(** *** The members of a cluster *)

Lemma members_select (labeling : list Z) (label : Z) :
  forall (covs : list F) (bboxes : list (list F)),
    length labeling = length covs -> length bboxes = length covs ->
    Np.select (label_mask labeling label) covs
    = map fst (AggregatorSpec.cluster labeling covs bboxes label) /\
    Np.select (label_mask labeling label) bboxes
    = map snd (AggregatorSpec.cluster labeling covs bboxes label).
Proof.
  unfold AggregatorSpec.cluster.
  induction labeling as [|l labeling IH]; intros [|w covs] [|b bboxes];
    simpl; try discriminate; auto.
  intros [= Hl] [= Hb]. destruct (IH covs bboxes Hl Hb) as [IHw IHb].
  destruct (l =? label)%Z; simpl; [split; f_equal|split]; assumption.
Qed.

Lemma members_nonempty (labeling : list Z) (label : Z) :
  forall covs : list F,
    length labeling = length covs -> In label labeling ->
    Np.select (label_mask labeling label) covs <> [].
Proof.
  induction labeling as [|l labeling IH]; intros [|w covs]; simpl;
    try discriminate; try tauto.
  intros [= Hl] [-> | Hin].
  - rewrite Z.eqb_refl. discriminate.
  - destruct (l =? label)%Z; [discriminate | auto].
Qed.

(** *** The weighted mean *)

Lemma columns_length ncols (m : list (list F)) :
  length (ClusterLoop.transposeM ops ncols m) = ncols.
Proof.
  unfold ClusterLoop.transposeM. rewrite length_map, length_seq. reflexivity.
Qed.

Lemma columns_nth ncols (m : list (list F)) j :
  (j < ncols)%nat ->
  nth j (ClusterLoop.transposeM ops ncols m) []
  = map (fun row => nth j row (Float.zero ops)) m.
Proof.
  intros Hj. unfold ClusterLoop.transposeM.
  exact (nth_map_seq
           (fun k => map (fun row => nth k row (Float.zero ops)) m) _ j [] Hj).
Qed.

(** Coordinate [c] of the weighted mean is the column sum of the
    members' coordinate [c], each times its normalised weight. *)
Lemma mean_coordinate (ncols : nat) (b : list (list F)) (wn : list F)
  (c : nat) :
  (c < ncols)%nat -> length wn = length b ->
  nth c (ClusterLoop.weighted_mean ops ncols b wn) (Float.zero ops)
  = Float.column_sum ops
      (zip_with (Float.multiply ops)
                (map (fun row => nth c row (Float.zero ops)) b) wn).
Proof.
  intros Hc Hlen. unfold ClusterLoop.weighted_mean, ClusterLoop.sum_axis0.
  rewrite (ClusterFacts.nth_map_default (Float.column_sum ops) _ c []
             (Float.zero ops))
    by (rewrite columns_length; exact Hc).
  rewrite columns_nth by exact Hc. f_equal.
  unfold ClusterLoop.transposeM at 1. rewrite map_map.
  set (Zc := zip_with (Float.multiply ops)
               (map (fun row => nth c row (Float.zero ops)) b) wn).
  assert (HZ : length Zc = length wn).
  { subst Zc. rewrite length_zip_with, length_map. lia. }
  transitivity (map (fun i => nth i Zc (Float.zero ops)) (seq 0 (length Zc)));
    [|apply map_nth_seq].
  rewrite HZ.
  apply map_ext. intros i.
  rewrite (ClusterFacts.nth_map_default
             (fun row => nth i row (Float.zero ops)) _ c [] (Float.zero ops))
    by (rewrite length_map, columns_length; exact Hc).
  f_equal.
  rewrite (ClusterFacts.nth_map_default
             (fun row => zip_with (Float.multiply ops) row wn) _ c [] [])
    by (rewrite columns_length; exact Hc).
  rewrite columns_nth by exact Hc. reflexivity.
Qed.

Lemma mean_length ncols (b : list (list F)) (wn : list F) :
  length (ClusterLoop.weighted_mean ops ncols b wn) = ncols.
Proof.
  unfold ClusterLoop.weighted_mean, ClusterLoop.sum_axis0.
  rewrite length_map, columns_length. reflexivity.
Qed.

Lemma zip_with_map_l {A B C D} (f : B -> C -> D) (g : A -> B)
  (l : list A) (k : list C) :
  zip_with f (map g l) k = zip_with (fun a c => f (g a) c) l k.
Proof.
  revert k; induction l as [|a l IH]; intros [|c k]; simpl; f_equal; auto.
Qed.

(** The mean box of the members of a cluster is the aggregated box. *)
Lemma mean_of_members (ms : list (AggregatorSpec.member (F := F))) :
  map (Float.float64 ops)
      (ClusterLoop.weighted_mean ops 4 (map snd ms)
         (map (fun x => Float.truediv ops x (Float.sum ops (map fst ms)))
              (map fst ms)))
  = AggregatorSpec.aggregated_box ops ms.
Proof.
  set (wn := map _ (map fst ms)).
  assert (Hwn : wn = AggregatorSpec.normalized_weights ops ms).
  { subst wn. unfold AggregatorSpec.normalized_weights,
      AggregatorSpec.aggregated_weight. rewrite map_map. reflexivity. }
  assert (Hlen : length wn = length (map snd ms)).
  { subst wn. rewrite !length_map. reflexivity. }
  assert (Hcoord : forall j, (j < 4)%nat ->
            nth j (ClusterLoop.weighted_mean ops 4 (map snd ms) wn)
                (Float.zero ops)
            = AggregatorSpec.aggregated_coordinate ops ms j).
  { intros j Hj. rewrite (mean_coordinate 4 _ _ j Hj Hlen).
    unfold AggregatorSpec.aggregated_coordinate. rewrite <- Hwn.
    rewrite map_map, zip_with_map_l. reflexivity. }
  pose proof (mean_length 4 (map snd ms) wn) as H4.
  pose proof (Hcoord 0%nat) as H0. pose proof (Hcoord 1%nat) as H1.
  pose proof (Hcoord 2%nat) as H2. pose proof (Hcoord 3%nat) as H3.
  destruct (ClusterLoop.weighted_mean ops 4 (map snd ms) wn)
    as [|x0 [|x1 [|x2 [|x3 [|]]]]]; try discriminate.
  cbn [nth] in H0, H1, H2, H3.
  unfold AggregatorSpec.aggregated_box. cbn [map].
  rewrite H0, H1, H2, H3 by lia. reflexivity.
Qed.

(** *** The body of the loop *)

(** On a cluster of the labelling the body appends the detection of the
    cluster when the cluster passes the two tests of the validity
    filter, and nothing otherwise. *)
Lemma body_on_cluster (name : string) (thr minh : F) (covs : list F)
  (bboxes : list (list F)) (labeling : list Z)
  (acc : list (ClusterLoop.KittiBbox F)) (label : Z) :
  length labeling = length covs -> length bboxes = length covs ->
  In label labeling ->
  ClusterLoop.cluster_label ops name thr minh 4 covs bboxes labeling acc label
  = Ok (if Float.greater ops
             (AggregatorSpec.aggregated_weight ops
                (AggregatorSpec.cluster labeling covs bboxes label)) thr
           && Float.greater ops
                (AggregatorSpec.height ops
                   (AggregatorSpec.cluster labeling covs bboxes label)) minh
        then (acc ++ [AggregatorSpec.detection ops name
                        (AggregatorSpec.cluster labeling covs bboxes label)])%list
        else acc).
Proof.
  intros Hl Hb Hin.
  set (ms := AggregatorSpec.cluster labeling covs bboxes label).
  destruct (members_select labeling label covs bboxes Hl Hb) as [Hsw Hsb].
  fold ms in Hsw, Hsb.
  assert (Hw : Np.compress (label_mask labeling label) covs
               = Ok (map fst ms)).
  { apply compress_Ok. split; [|symmetry; exact Hsw].
    unfold label_mask. rewrite length_map. exact Hl. }
  assert (Hbx : Np.compress (label_mask labeling label) bboxes
                = Ok (map snd ms)).
  { apply compress_Ok. split; [|symmetry; exact Hsb].
    unfold label_mask. rewrite length_map. congruence. }
  assert (Hne : map fst ms <> []).
  { rewrite <- Hsw. apply members_nonempty; assumption. }
  unfold ClusterLoop.cluster_label. rewrite Hw. cbn [mbind result_bind].
  destruct (map fst ms) as [|w0 w'] eqn:Hws; [congruence|].
  cbn [ClusterLoop.amax ClusterLoop.amin mbind result_bind].
  rewrite Hbx. cbn [mbind result_bind]. rewrite <- Hws.
  rewrite mean_of_members.
  unfold AggregatorSpec.height, AggregatorSpec.detection,
    AggregatorSpec.aggregated_weight.
  unfold AggregatorSpec.aggregated_box. cbn [map nth].
  unfold getitem. cbn [lookup list_lookup mbind result_bind].
  destruct (_ && _); reflexivity.
Qed.

(** The validity filter is the conjunction of the two tests. *)
Lemma valid_tests (thr minh : F) (ms : list (AggregatorSpec.member (F := F))) :
  AggregatorSpec.valid ops thr minh ms <->
  Float.greater ops (AggregatorSpec.aggregated_weight ops ms) thr
  && Float.greater ops (AggregatorSpec.height ops ms) minh = true.
Proof. unfold AggregatorSpec.valid. rewrite andb_true_iff. reflexivity. Qed.

(** *** The loop *)

Lemma loop_on_clusters (name : string) (thr minh : F) (covs : list F)
  (bboxes : list (list F)) (labeling : list Z) :
  length labeling = length covs -> length bboxes = length covs ->
  forall labels, Forall (fun l => In l labeling) labels ->
  forall acc, exists dets,
    for_each (ClusterLoop.cluster_label ops name thr minh 4 covs bboxes
                labeling) acc labels
    = Ok (acc ++ dets)%list /\
    AggregatorSpec.aggregates ops name thr minh labeling covs bboxes
      labels dets.
Proof.
  intros Hl Hb labels Hall.
  induction Hall as [|label labels Hin _ IH]; intros acc.
  - exists []. rewrite app_nil_r. split; [reflexivity | constructor].
  - cbn [for_each].
    rewrite (body_on_cluster name thr minh covs bboxes labeling acc label
               Hl Hb Hin).
    cbn [mbind result_bind].
    pose proof (valid_tests thr minh
                  (AggregatorSpec.cluster labeling covs bboxes label)) as Hv.
    destruct (_ && _).
    + destruct (IH (acc ++ [AggregatorSpec.detection ops name
                             (AggregatorSpec.cluster labeling covs bboxes
                                label)])%list)
        as (dets & Hloop & Hagg).
      eexists (_ :: dets). rewrite Hloop, <- app_assoc.
      split; [reflexivity|].
      apply AggregatorSpec.aggregates_valid; [apply Hv; reflexivity | exact Hagg].
    + destruct (IH acc) as (dets & Hloop & Hagg).
      exists dets. split; [exact Hloop|].
      apply AggregatorSpec.aggregates_invalid; [|exact Hagg].
      intros H. apply Hv in H. discriminate.
Qed.

(** What the detections of a list of clusters are. *)
Lemma aggregates_elem (name : string) (thr minh : F) (labeling : list Z)
  (covs : list F) (bboxes : list (list F)) labels dets :
  AggregatorSpec.aggregates ops name thr minh labeling covs bboxes labels dets ->
  forall d, In d dets <->
    exists l, In l labels /\
      AggregatorSpec.valid ops thr minh
        (AggregatorSpec.cluster labeling covs bboxes l) /\
      d = AggregatorSpec.detection ops name
            (AggregatorSpec.cluster labeling covs bboxes l).
Proof.
  induction 1 as [|label labels dets Hv _ IH|label labels dets Hv _ IH];
    intros d.
  - split; [intros [] | intros (l & [] & _)].
  - simpl. rewrite IH. split.
    + intros [<- | (l & Hl & H)]; [exists label; auto | exists l; auto].
    + intros (l & [<- | Hl] & Hvl & ->); [left; reflexivity|].
      right. exists l. auto.
  - rewrite IH. split.
    + intros (l & Hl & H). exists l. simpl. auto.
    + intros (l & [<- | Hl] & Hvl & ->); [contradiction|].
      exists l. auto.
Qed.

(** C2: whatever the floating-point operations compute, the loop
    [for label in labels] visits each cluster of the labelling (each
    non-negative label that occurs in it) exactly once, and returns, in
    the order of the labels, one detection for each cluster whose
    aggregated weight, [np.sum] of the member confidences, is greater
    than the class's [dbscan_confidence_threshold] and whose aggregated
    box, the per-coordinate sum of the member boxes times the
    confidences divided by the aggregated weight, is higher ([y2 - y1])
    than the [minimum_bounding_box_height]; the detection carries that
    weight and that box; a cluster that fails either test yields none. *)
Theorem cluster_loop_aggregates (name : string) (thr minh : F)
  (covs : list F) (bboxes : list (list F)) (labeling : list Z) :
  length labeling = length covs -> length bboxes = length covs ->
  exists dets,
    ClusterLoop.cluster_labels ops name thr minh 4 covs bboxes labeling
    = Ok dets /\
    List.NoDup (ClusterLoop.labels_of labeling) /\
    (forall l, In l (ClusterLoop.labels_of labeling)
               <-> AggregatorSpec.is_cluster labeling l) /\
    AggregatorSpec.aggregates ops name thr minh labeling covs bboxes
      (ClusterLoop.labels_of labeling) dets /\
    (forall d, In d dets <->
       exists l, AggregatorSpec.is_cluster labeling l /\
         AggregatorSpec.valid ops thr minh
           (AggregatorSpec.cluster labeling covs bboxes l) /\
         d = AggregatorSpec.detection ops name
               (AggregatorSpec.cluster labeling covs bboxes l)).
Proof.
  intros Hl Hb.
  destruct (labels_of_clusters labeling) as [Hnd Hcl].
  destruct (loop_on_clusters name thr minh covs bboxes labeling Hl Hb
              (ClusterLoop.labels_of labeling)
              ltac:(apply List.Forall_forall; intros l H;
                    apply Hcl in H as [H _]; exact H) [])
    as (dets & Hloop & Hagg).
  exists dets. split; [exact Hloop|]. split; [exact Hnd|].
  split; [exact Hcl|]. split; [exact Hagg|].
  intros d. rewrite (aggregates_elem _ _ _ _ _ _ _ _ Hagg d).
  split; intros (l & H1 & H2); exists l; (split; [apply Hcl; exact H1 | exact H2]).
Qed.

End Loop.

Lemma cluster_loop_aggregates_witness :
  exists dets,
    ClusterLoop.cluster_labels Float.binary32 "car"
      (Float.float32 2 10) (Float.float32 4 1) 4
      FloatExamples.covs FloatExamples.bboxes FloatExamples.labeling
    = Ok dets /\
    map ClusterLoop.confidence_score dets
    = [Float.double (Float.float32 1 1)].
Proof.
  destruct (cluster_loop_aggregates Float.binary32 "car"
              (Float.float32 2 10) (Float.float32 4 1)
              FloatExamples.covs FloatExamples.bboxes FloatExamples.labeling)
    as (dets & Hloop & _).
  - reflexivity.
  - reflexivity.
  - exists dets. split; [exact Hloop|].
    vm_compute in Hloop. injection Hloop as <-. vm_compute. reflexivity.
Defined.

(** Rounding decides the validity filter. In single precision
    [0.6 + 0.4] is [1.0], which is not greater than a threshold of [1.0]:
    no detection. The exact sum of the same two singles is
    [33554433 / 33554432]: a detection. *)
Example rounding_decides_validity :
  ClusterLoop.cluster_labels Float.binary32 "car"
    (Float.float32 1 1) (Float.float32 4 1) 4
    FloatExamples.covs FloatExamples.bboxes FloatExamples.labeling
  = Ok [] /\
  exists d,
    ClusterLoop.cluster_labels Float.exact "car" 1 4 4
      [10066330 # 16777216; 13421773 # 33554432; 1 # 10]
      [[10; 10; 50; 50]; [12; 11; 52; 51]; [80; 80; 90; 90]]
      FloatExamples.labeling
    = Ok [d] /\
    ClusterLoop.confidence_score d == 33554433 # 33554432.
Proof.
  split; [vm_compute; reflexivity|].
  eexists. split; [vm_compute; reflexivity|]. vm_compute. reflexivity.
Qed.

(** *** The exact instance is the loop of the model above *)

Lemma exact_cluster_label (name : string) (cfg : ClusteringConfig)
  (ncols : nat) (covs : list Q) (bboxes : list (list Q)) (labeling : list Z)
  (acc : list (ClusterLoop.KittiBbox Q)) (label : Z) :
  cluster_label name cfg ncols covs bboxes labeling
                (map ClusterLoop.exact_box acc) label
  = map ClusterLoop.exact_box
    <$> ClusterLoop.cluster_label Float.exact name
          (dbscan_confidence_threshold (dbscan_config cfg))
          (minimum_bounding_box_height cfg)
          ncols covs bboxes labeling acc label.
Proof.
  unfold cluster_label, ClusterLoop.cluster_label.
  destruct (Np.compress (label_mask labeling label) covs) as [w|e];
    [|reflexivity].
  cbn [mbind result_bind].
  destruct w as [|w0 w']; [reflexivity|].
  cbn [Np.amax Np.amin ClusterLoop.amax ClusterLoop.amin mbind result_bind].
  destruct (Np.compress (label_mask labeling label) bboxes) as [b|e];
    [|reflexivity].
  cbn [mbind result_bind Float.float64 Float.exact]. rewrite map_id.
  change (ClusterLoop.weighted_mean Float.exact ncols b)
    with (weighted_mean ncols b).
  cbn [Float.sum Float.truediv Float.subtract Float.greater Float.exact].
  set (mean := weighted_mean ncols b _).
  destruct (getitem mean 2) as [m2|]; [|reflexivity]. cbn [mbind result_bind].
  destruct (getitem mean 0) as [m0|]; [|reflexivity]. cbn [mbind result_bind].
  destruct (getitem mean 3) as [m3|]; [|reflexivity]. cbn [mbind result_bind].
  destruct (getitem mean 1) as [m1|]; [|reflexivity]. cbn [mbind result_bind].
  destruct (_ && _); cbn [fmap result_fmap]; [|reflexivity].
  rewrite map_app. reflexivity.
Qed.

Lemma exact_cluster_labels (name : string) (cfg : ClusteringConfig)
  (ncols : nat) (covs : list Q) (bboxes : list (list Q)) (labeling : list Z)
  (labels : list Z) :
  forall acc,
    for_each (cluster_label name cfg ncols covs bboxes labeling)
             (map ClusterLoop.exact_box acc) labels
    = map ClusterLoop.exact_box
      <$> for_each (ClusterLoop.cluster_label Float.exact name
                      (dbscan_confidence_threshold (dbscan_config cfg))
                      (minimum_bounding_box_height cfg)
                      ncols covs bboxes labeling) acc labels.
Proof.
  induction labels as [|label labels IH]; intros acc; [reflexivity|].
  cbn [for_each]. rewrite exact_cluster_label.
  destruct (ClusterLoop.cluster_label _ _ _ _ _ _ _ _ _ _) as [acc'|e];
    [|reflexivity].
  cbn [fmap result_fmap mbind result_bind]. apply IH.
Qed.

End ClusterLoopFacts.

(** ** [apply]: the assertion and the rendering loop *)

Module ApplyFacts.

Import TrafficCamNetPostprocessor PyFacts Raises.

Section Apply.

Variable denormalize_bounding_bboxes :
  Np.ndarray4 -> Z -> Q -> list Q -> nat -> Q -> Q -> string -> list Z ->
  list Frame -> Z -> Np.ndarray4.
Variable iou_vectorized : list (list Q) -> list (list Q).
Variable fit_predict : DBSCAN -> list (list Q) -> list Q -> list Z.
Variable BboxInfo : Type.
Variable return_bbox_info : Frame -> list KittiBbox -> BboxInfo.

Local Abbreviation apply' :=
  (apply denormalize_bounding_bboxes iou_vectorized fit_predict
         return_bbox_info).

(** C5: [apply] ends in the assertion error exactly when the number of
    configured classes differs from dimension 1 of the coverage tensor;
    no later stage raises that exception. *)
Theorem apply_assertion_iff (self : Postprocessor) (results : InferResult)
  (this_id : Z) (render : bool) :
  apply' self results this_id render = Raise AssertionError <->
  length (classes self) <> Np.shape1 (output_cov_Sigmoid results).
Proof.
  unfold apply, py_assert. cbn [Np.transpose_0132 Np.shape1].
  destruct (length (classes self) =? Np.shape1 (output_cov_Sigmoid results))%nat
    eqn:Hlen.
  - apply Nat.eqb_eq in Hlen. split; [|intros H; contradiction].
    cbn [mbind result_bind]. intros H. exfalso.
    match type of H with ?r = _ =>
      assert (Hr : raises_only (fun e => e <> AssertionError) r) end.
    { apply raises_only_bind;
        [apply raises_only_thresholded_indices; discriminate|intros vi].
      apply raises_only_bind;
        [apply raises_only_batchwise_boxes; discriminate|intros bw].
      destruct render; [|apply raises_only_Ok].
      apply raises_only_bind;
        [apply raises_only_render_loop; discriminate|intros out].
      apply raises_only_Ok. }
    exact (Hr _ H eq_refl).
  - apply Nat.eqb_neq in Hlen. split; [intros _; exact Hlen|reflexivity].
Qed.

(** The loop runs through the positions in order and stops at the first
    one past the frames. *)
Lemma render_loop_collects (self : Postprocessor) (this_id : Z)
  (bw : list (list KittiBbox)) :
  let start := ((this_id - 1) * batch_size self)%Z in
  let R := Z.to_nat (Z.of_nat (length (frames self)) - start) in
  (0 <= start)%Z -> (R <= length bw)%nat ->
  forall n k acc,
    render_loop return_bbox_info self this_id bw (map Z.of_nat (seq k n)) acc
    = Ok (acc ++ map (entry return_bbox_info self this_id bw)
                     (seq k (Nat.min (k + n) R - k)))%list.
Proof.
  intros start R Hstart HR n.
  induction n as [|n IH]; intros k acc.
  - simpl. replace (Nat.min (k + 0) R - k)%nat with 0%nat by lia.
    simpl. rewrite app_nil_r. reflexivity.
  - cbn [seq map render_loop]. fold start.
    destruct (start + Z.of_nat k >=? Z.of_nat (length (frames self)))%Z eqn:Hge.
    + apply Z.geb_le in Hge.
      replace (Nat.min (k + S n) R - k)%nat with 0%nat by (subst R; lia).
      simpl. rewrite app_nil_r. reflexivity.
    + rewrite Z.geb_leb in Hge. apply Z.leb_gt in Hge.
      assert (Hk : (k < R)%nat) by (subst R; lia).
      assert (Hf : getitem_int (frames self) (start + Z.of_nat k)
                   = Ok (nth (Z.to_nat start + k) (frames self)
                             {| _image_path := EmptyString |})).
      { unfold getitem_int.
        destruct (0 <=? start + Z.of_nat k)%Z eqn:H0;
          [|apply Z.leb_gt in H0; lia].
        apply getitem_Ok.
        replace (Z.to_nat (start + Z.of_nat k)) with (Z.to_nat start + k)%nat
          by lia.
        apply lookup_nth_lt; lia. }
      assert (Hb : getitem_int bw (Z.of_nat k) = Ok (nth k bw [])).
      { rewrite getitem_int_nat. apply getitem_Ok.
        apply lookup_nth_lt; lia. }
      rewrite Hf, Hb. cbn [mbind result_bind].
      rewrite IH.
      replace (Nat.min (k + S n) R - k)%nat
        with (S (Nat.min (S k + n) R - S k)) by lia.
      cbn [seq map]. rewrite <- app_assoc. reflexivity.
Qed.

Lemma thresholded_indices_length cov n classes thr vi :
  thresholded_indices cov n classes thr = Ok vi ->
  length vi = Np.shape0 cov.
Proof.
  intros H; apply mapM_Ok_length in H. rewrite H, length_seq; reflexivity.
Qed.

Lemma batchwise_boxes_length self cov abs vi bw :
  batchwise_boxes iou_vectorized fit_predict self cov abs vi = Ok bw ->
  length bw = length vi.
Proof.
  intros H; apply mapM_Ok_length in H. rewrite H.
  unfold enumerate; apply length_imap.
Qed.

(** C7: on a partial final batch, [apply] returns one entry per remaining
    frame, in batch order, and nothing for the positions beyond them:
    entry [i] is made from frame [start + i] of the run and from the
    boxes of image [i] of the batch. *)
Theorem apply_partial_batch (self : Postprocessor) (results : InferResult)
  (this_id : Z) (vi : list (list (list nat))) (bw : list (list KittiBbox))
  (remaining : nat) :
  length (classes self) = Np.shape1 (output_cov_Sigmoid results) ->
  thresholded_indices (Np.transpose_0132 (output_cov_Sigmoid results))
    (length (classes self)) (classes self) (coverage_thresholds self) = Ok vi ->
  batchwise_boxes iou_vectorized fit_predict self
    (Np.transpose_0132 (output_cov_Sigmoid results))
    (denormalize_bounding_bboxes
       (Np.transpose_0132 (output_bbox_BiasAdd results)) (stride self)
       (offset self) (bbox_norm self) (length (classes self)) (scale_w self)
       (scale_h self) (data_format self) (target_shape self) (frames self)
       (this_id - 1)) vi = Ok bw ->
  (1 <= this_id)%Z ->
  (Z.of_nat (length (frames self))
   = (this_id - 1) * batch_size self + Z.of_nat remaining)%Z ->
  (Z.of_nat remaining < batch_size self)%Z ->
  (remaining <= Np.shape0 (output_cov_Sigmoid results))%nat ->
  exists out,
    apply' self results this_id true = Ok (Some out) /\
    length out = remaining /\
    forall i, (i < remaining)%nat ->
      exists frame boxes,
        frames self !! (Z.to_nat ((this_id - 1) * batch_size self) + i)%nat
        = Some frame /\
        bw !! i = Some boxes /\
        out !! i
        = Some (return_bbox_info frame boxes, basename (_image_path frame)).
Proof.
  intros Hcls Hvi Hbw Hid Hframes Hpartial Hshape.
  set (start := ((this_id - 1) * batch_size self)%Z) in *.
  assert (Hstart : (0 <= start)%Z) by (subst start; nia).
  assert (HR : Z.to_nat (Z.of_nat (length (frames self)) - start) = remaining)
    by lia.
  assert (Hlen : length bw = Np.shape0 (output_cov_Sigmoid results)).
  { rewrite (batchwise_boxes_length _ _ _ _ _ Hbw).
    rewrite (thresholded_indices_length _ _ _ _ _ Hvi). reflexivity. }
  exists (map (entry return_bbox_info self this_id bw) (seq 0 remaining)).
  split; [|split].
  - unfold apply, py_assert.
    change (Np.shape1 (Np.transpose_0132 (output_cov_Sigmoid results)))
      with (Np.shape1 (output_cov_Sigmoid results)).
    rewrite (proj2 (Nat.eqb_eq _ _) Hcls). cbn [mbind result_bind].
    rewrite Hvi. cbn [mbind result_bind].
    rewrite Hbw. cbn [mbind result_bind].
    unfold range.
    rewrite (render_loop_collects self this_id bw Hstart
               ltac:(fold start; lia) (Z.to_nat (batch_size self)) 0 []).
    fold start. rewrite HR.
    replace (Nat.min (0 + Z.to_nat (batch_size self)) remaining - 0)%nat
      with remaining by lia.
    reflexivity.
  - rewrite length_map, length_seq. reflexivity.
  - intros i Hi.
    exists (nth (Z.to_nat start + i) (frames self) {| _image_path := EmptyString |}),
           (nth i bw []).
    split; [apply lookup_nth_lt; lia|].
    split; [apply lookup_nth_lt; lia|].
    rewrite list_lookup_fmap, lookup_seq_lt by lia. reflexivity.
Qed.

End Apply.

(** Batch size 8 with five frames left: five entries. *)
Lemma apply_partial_batch_witness :
  exists out,
    apply Reference.denormalize_bounding_bboxes Reference.iou_vectorized
          Reference.fit_predict Reference.return_bbox_info
          (Examples.postprocessor 8 Examples.five_frames ["car"; "person"])
          Examples.batch_results 1 true
    = Ok (Some out) /\
    length out = 5%nat.
Proof.
  set (self := Examples.postprocessor 8 Examples.five_frames ["car"; "person"]).
  set (cov := Np.transpose_0132 (output_cov_Sigmoid Examples.batch_results)).
  eassert (Hvi : thresholded_indices cov (length (classes self))
                   (classes self) (coverage_thresholds self) = Ok _)
    by (vm_compute; reflexivity).
  match type of Hvi with _ = Ok ?v => set (vi := v) in * end.
  eassert (Hbw : batchwise_boxes Reference.iou_vectorized Reference.fit_predict
                   self cov
                   (Reference.denormalize_bounding_bboxes
                      (Np.transpose_0132
                         (output_bbox_BiasAdd Examples.batch_results))
                      (stride self) (offset self) (bbox_norm self)
                      (length (classes self)) (scale_w self) (scale_h self)
                      (data_format self) (target_shape self) (frames self)
                      (1 - 1)) vi = Ok _)
    by (vm_compute; reflexivity).
  destruct (apply_partial_batch
              Reference.denormalize_bounding_bboxes Reference.iou_vectorized
              Reference.fit_predict _ Reference.return_bbox_info
              self Examples.batch_results 1 _ _ 5 eq_refl Hvi Hbw)
    as (out & Hout & Hlen & _).
  - lia.
  - reflexivity.
  - reflexivity.
  - vm_compute. lia.
  - exists out. split; [exact Hout | exact Hlen].
Defined.

(** One image, one class, one cell of coverage 9/10 above the threshold
    1/2, regressing to the box (10, 10, 50, 50): one detection, with that
    box and that confidence. *)
Example apply_single_cell :
  exists d,
    apply Reference.denormalize_bounding_bboxes Reference.iou_vectorized
          Reference.fit_predict Reference.return_bbox_info
          (Examples.postprocessor 1 [ {| _image_path := "/images/f0.jpg" |} ]
                                  ["car"])
          {| output_cov_Sigmoid :=
               Reference.of_lists 1 1 1 1 [[[[9 # 10]]]];
             output_bbox_BiasAdd :=
               Reference.of_lists 1 4 1 1 [[[[10]]; [[10]]; [[50]]; [[50]]]] |}
          1 true
    = Ok (Some [([d], "f0.jpg")]) /\
    category d = "car" /\
    Forall2 Qeq (box d) [10; 10; 50; 50] /\
    confidence_score d == 9 # 10.
Proof.
  eexists. split; [vm_compute; reflexivity|].
  split; [reflexivity|]. split; [|reflexivity].
  repeat constructor.
Qed.

End ApplyFacts.

(** ** [predict] of the model classes *)

Module ModelClientFacts.

Import ModelClient.

Section Predict.

Variable run_client : client_function -> predict_args -> result value.

(** [_predict] issues at most one request, after those already issued. *)
Lemma _predict_calls cls fs file_path st :
  let st' := snd (_predict run_client cls fs file_path st) in
  inference_calls st' = inference_calls st \/
  exists args,
    inference_calls st' = (inference_calls st ++ [(client_of cls, args)])%list.
Proof.
  unfold _predict. destruct (Os.listdir fs file_path); simpl; eauto.
Qed.

(** C10: for each of the three classes, [predict] on a path that does not
    exist returns the list with the one dict
    [{'HTTPStatus': 400, 'error': 'File Path does not exist!'}], raises
    nothing, and leaves the instance and the issued requests as they
    were; on a path that exists it is [_predict]. A request is therefore
    only ever issued for an existing path. *)
Theorem predict_checks_path (cls : model_class) (fs : Os.filesystem)
  (file_path : string) (st : state) :
  (Os.path_exists fs file_path = false ->
   predict run_client cls fs file_path st
   = (Ok (VList [VDict (<["HTTPStatus" := VInt 400]>
                        (<["error" := VStr "File Path does not exist!"]> ∅))]),
      st)) /\
  (Os.path_exists fs file_path = true ->
   predict run_client cls fs file_path st
   = _predict run_client cls fs file_path st) /\
  (inference_calls (snd (predict run_client cls fs file_path st))
   <> inference_calls st ->
   Os.path_exists fs file_path = true).
Proof.
  unfold predict. destruct (Os.path_exists fs file_path).
  - split; [discriminate|]. split; reflexivity.
  - split; [reflexivity|]. split; [discriminate|].
    simpl. intros H; contradiction.
Qed.

End Predict.

Lemma predict_checks_path_witness :
  predict idle_client LpdModelClass Examples.disk "/nowhere/"
          {| self := __init__ LpdModelClass (Some "localhost:8000");
             inference_calls := [] |}
  = (Ok (VList [VDict (<["HTTPStatus" := VInt 400]>
                       (<["error" := VStr "File Path does not exist!"]> ∅))]),
     {| self := __init__ LpdModelClass (Some "localhost:8000");
        inference_calls := [] |}).
Proof.
  apply (predict_checks_path idle_client LpdModelClass Examples.disk
           "/nowhere/").
  vm_compute. reflexivity.
Defined.

(** On an existing directory the request goes out, with batch size 8. *)
Example predict_existing_directory :
  let st := {| self := __init__ TrafficCamNetModelClass_model_client None;
               inference_calls := [] |} in
  let r := predict idle_client TrafficCamNetModelClass_model_client
                   Examples.disk "/images/" st in
  fst r = Ok (VList []) /\
  _batch_size (self (snd r)) = Some 8%Z /\
  length (inference_calls (snd r)) = 1%nat.
Proof. vm_compute. repeat split; reflexivity. Qed.

End ModelClientFacts.

(** * Further properties of the code *)

(** ** Construction and configuration *)

Module ConfigMore.

Import TrafficCamNetPostprocessor PyFacts.

(** The estimator [configure] builds from an entry of the configuration. *)
Local Abbreviation estimator_of c :=
  {| eps := dbscan_eps (dbscan_config c);
     min_samples := dbscan_min_samples (dbscan_config c) |}.

Lemma for_each_configure_class cfg (l : list string) :
  forall d d',
    for_each (configure_class cfg) d l = Ok d' ->
    forall name,
      (In name l ->
       exists c, classwise_clustering_config cfg !! name = Some c /\
                 d'.1.1 !! name = Some (estimator_of c) /\
                 d'.1.2 !! name = Some (coverage_threshold c) /\
                 d'.2 !! name = Some (bbox_color c)) /\
      (~ In name l ->
       d'.1.1 !! name = d.1.1 !! name /\
       d'.1.2 !! name = d.1.2 !! name /\
       d'.2 !! name = d.2 !! name).
Proof.
  induction l as [|a l IH]; intros d d'; simpl.
  - intros [= <-] name. split; [tauto | auto].
  - intros H. apply bind_Ok in H as (d1 & Hstep & Hrest).
    unfold configure_class in Hstep.
    destruct (classwise_clustering_config cfg !! a) as [c|] eqn:Ha;
      [|discriminate].
    injection Hstep as <-. intros name.
    destruct (IH _ _ Hrest name) as [IHin IHout].
    destruct (in_dec String.string_dec name l) as [Hin | Hnin].
    + split; [intros _; exact (IHin Hin) | intros Hn; exfalso; apply Hn; auto].
    + destruct (IHout Hnin) as (H1 & H2 & H3). cbn [fst snd] in H1, H2, H3.
      destruct (String.string_dec a name) as [-> | Hne].
      * split; [intros _|intros Hn; exfalso; apply Hn; left; reflexivity].
        exists c. rewrite H1, H2, H3, !lookup_insert_eq. auto.
      * split; [intros [Heq | Hin]; [congruence | contradiction]|].
        intros _. rewrite H1, H2, H3, !lookup_insert_ne by exact Hne. auto.
Qed.

(** After [configure], every name of the class list has its estimator
    and its coverage threshold. *)
Lemma configure_keys (self0 self : Postprocessor) :
  configure self0 = Ok self ->
  classes self = classes self0 /\
  forall name, In name (classes self) ->
    is_Some (dbscan_elements self !! name) /\
    is_Some (coverage_thresholds self !! name).
Proof.
  unfold configure. intros H. apply bind_Ok in H as (d & Hloop & [= <-]).
  split; [reflexivity|]. intros name Hin.
  destruct (for_each_configure_class _ _ _ _ Hloop name) as [Hin' _].
  destruct (Hin' Hin) as (c & _ & H1 & H2 & _).
  cbn [with_dicts dbscan_elements coverage_thresholds]. rewrite H1, H2.
  split; eauto.
Qed.

(** X1: when [configure] returns, its three dicts hold, for every name
    of the class list, the estimator, the coverage threshold and the
    colour of that name's configuration entry, and nothing for any other
    name, whatever the dicts held before; the other attributes are
    untouched. *)
Theorem configure_postcondition (self self' : Postprocessor) :
  configure self = Ok self' ->
  (pproc_config self' = pproc_config self /\
   classes self' = classes self /\
   batch_size self' = batch_size self /\
   frames self' = frames self /\
   stride self' = stride self) /\
  forall name,
    (In name (classes self) ->
     exists c,
       classwise_clustering_config (pproc_config self) !! name = Some c /\
       dbscan_elements self' !! name = Some (estimator_of c) /\
       coverage_thresholds self' !! name = Some (coverage_threshold c) /\
       box_color self' !! name = Some (bbox_color c)) /\
    (~ In name (classes self) ->
     dbscan_elements self' !! name = None /\
     coverage_thresholds self' !! name = None /\
     box_color self' !! name = None).
Proof.
  unfold configure. intros H. apply bind_Ok in H as (d & Hloop & [= <-]).
  split; [repeat split|].
  intros name.
  destruct (for_each_configure_class _ _ _ _ Hloop name) as [Hin Hout].
  split; [exact Hin|].
  intros Hn. destruct (Hout Hn) as (H1 & H2 & H3).
  cbn [with_dicts dbscan_elements coverage_thresholds box_color].
  rewrite H1, H2, H3. cbn [fst snd]. rewrite !lookup_empty. auto.
Qed.

Lemma configure_postcondition_witness :
  exists self',
    configure (Examples.postprocessor 8 Examples.five_frames ["person"])
    = Ok self' /\
    coverage_thresholds self' !! "car" = None.
Proof.
  eexists. split; [vm_compute; reflexivity|].
  eapply (configure_postcondition
            (Examples.postprocessor 8 Examples.five_frames ["person"])).
  - vm_compute. reflexivity.
  - intros [H | []]. discriminate H.
Defined.

Section Init.

Variable merge_text_proto : string -> result PostprocessingConfig.

Local Abbreviation init :=
  (__init__ merge_text_proto).

(** Loading returns what the parser makes of the text of a regular
    file. *)
Lemma load_clustering_config_Ok (fs : Os.filesystem) (config : string) cfg :
  load_clustering_config merge_text_proto fs config = Ok cfg <->
  exists text, fs !! config = Some (Os.File text) /\
               merge_text_proto text = Ok cfg.
Proof.
  unfold load_clustering_config, _load_from_file, Os.path_exists, Os.read.
  destruct (fs !! config) as [[text|names]|]; cbn [negb mbind result_bind].
  - split; [intros H; exists text; auto|].
    intros (text' & [= <-] & H); exact H.
  - split; [discriminate | intros (text' & [=] & _)].
  - split; [discriminate | intros (text' & [=] & _)].
Qed.

(** X2: the constructor succeeds exactly when the configuration path is
    a regular file, the parser accepts its text, and the parsed
    configuration has an entry for every name of the class list. *)
Theorem init_succeeds_iff (fs : Os.filesystem) (batch_size : Z)
  (frames : list Frame) (output_path data_format : string)
  (classes : list string) (postprocessing_config : string)
  (target_shape : list Z) :
  (exists self,
      init fs batch_size frames output_path data_format classes
           postprocessing_config target_shape = Ok self) <->
  (exists text cfg,
      fs !! postprocessing_config = Some (Os.File text) /\
      merge_text_proto text = Ok cfg /\
      Forall (fun c => is_Some (classwise_clustering_config cfg !! c)) classes).
Proof.
  unfold __init__. split.
  - intros [self H]. apply bind_Ok in H as (cfg & Hload & H).
    apply load_clustering_config_Ok in Hload as (text & Hfs & Hparse).
    exists text, cfg. repeat (split; [assumption|]).
    apply List.Forall_forall. intros c Hc.
    destruct (classwise_clustering_config cfg !! c) as [cc|] eqn:Hcc; [eauto|].
    exfalso. rewrite ConfigFacts.configure_unknown_class in H; [discriminate|].
    apply List.Exists_exists. exists c. split; [exact Hc | exact Hcc].
  - intros (text & cfg & Hfs & Hparse & Hall).
    rewrite (proj2 (load_clustering_config_Ok fs _ cfg)) by eauto.
    cbn [mbind result_bind].
    match goal with |- exists self, configure ?s = _ =>
      destruct (ConfigFacts.configure_succeeds s Hall) as (self' & H & _) end.
    eauto.
Qed.

(** What a constructed postprocessor holds. *)
Lemma init_attributes fs batch_size' frames' output_path' data_format'
  classes' postprocessing_config target_shape' self :
  init fs batch_size' frames' output_path' data_format' classes'
       postprocessing_config target_shape' = Ok self ->
  classes self = classes' /\ batch_size self = batch_size' /\
  frames self = frames' /\ target_shape self = target_shape' /\
  data_format self = data_format' /\
  stride self = Config.stride (pproc_config self) /\
  bbox_norm self = [35; 35] /\ offset self == 1 # 2 /\
  scale_h self = 1 /\ scale_w self = 1 /\
  exists self0, configure self0 = Ok self /\ classes self0 = classes'.
Proof.
  unfold __init__. intros H. apply bind_Ok in H as (cfg & _ & H).
  pose proof H as Hc. unfold configure in H.
  apply bind_Ok in H as (d & _ & [= <-]). cbn.
  repeat (split; [reflexivity|]). eexists. split; [exact Hc | reflexivity].
Qed.

End Init.

Lemma init_succeeds_iff_witness :
  exists self,
    __init__ Examples.parse Examples.disk 8 Examples.five_frames
             "./" "channels_first" ["car"; "person"]
             "/specs/clustering.prototxt" [3; 544; 960]%Z = Ok self.
Proof.
  apply (init_succeeds_iff Examples.parse Examples.disk).
  exists "two classes", Examples.two_class_config.
  split; [reflexivity|]. split; [reflexivity|].
  repeat constructor; vm_compute; eauto.
Defined.

End ConfigMore.

(** ** The reference instances keep the contracts of the collaborators *)

Module ReferenceFacts.

Import TrafficCamNetPostprocessor.

Lemma length_expand fuel core nbrs label_num :
  forall labels i stack,
    length (Reference.expand fuel core nbrs label_num labels i stack)
    = length labels.
Proof.
  induction fuel as [|fuel IH]; intros labels i stack; simpl; [reflexivity|].
  destruct (nth i labels 0%Z =? -1)%Z.
  - destruct (nth i core false).
    + destruct (rev _ ++ stack)%list;
        [apply length_insert | rewrite IH; apply length_insert].
    + destruct stack; [apply length_insert | rewrite IH; apply length_insert].
  - destruct stack; [reflexivity | apply IH].
Qed.

Lemma length_outer core nbrs todo :
  forall label_num labels,
    length (Reference.outer core nbrs todo label_num labels) = length labels.
Proof.
  induction todo as [|i todo IH]; intros label_num labels; simpl;
    [reflexivity|].
  destruct (negb _ || negb _); rewrite IH; [reflexivity|].
  apply length_expand.
Qed.

(** One label per row of [X]. *)
Lemma length_fit_predict est X w :
  length (Reference.fit_predict est X w) = length X.
Proof.
  unfold Reference.fit_predict. rewrite length_outer. apply repeat_length.
Qed.

(** One row of overlaps per box. *)
Lemma length_iou_vectorized boxes :
  length (Reference.iou_vectorized boxes) = length boxes.
Proof. unfold Reference.iou_vectorized. apply length_map. Qed.

End ReferenceFacts.

(** ** The pipeline on configured, well-shaped input *)

Module PipelineMore.

Import TrafficCamNetPostprocessor PyFacts NpFacts Raises.

Lemma raises_only_bind_Ok {A B} (P : exn -> Prop) (m : result A)
  (f : A -> result B) :
  raises_only P m -> (forall a, m = Ok a -> raises_only P (f a)) ->
  raises_only P (m ≫= f).
Proof.
  intros Hm Hf e He. apply bind_Raise in He as [He | (a & Ha & He)].
  - exact (Hm e He).
  - exact (Hf a Ha e He).
Qed.

Lemma take_total {A} (xs : list A) (idx : list nat) :
  Forall (fun p => (p < length xs)%nat) idx ->
  exists ys, Np.take xs idx = Ok ys /\ length ys = length idx.
Proof.
  intros Hall. unfold Np.take.
  destruct (mapM_all_Ok (getitem xs) idx) as [ys Hys].
  - intros p Hp. rewrite List.Forall_forall in Hall.
    destruct (lookup_lt_is_Some_2 xs p (Hall p Hp)) as [a Ha].
    exists a. apply getitem_Ok. exact Ha.
  - exists ys. split; [exact Hys | exact (mapM_Ok_length _ _ _ Hys)].
Qed.

(** Thresholding selects positions of the grid. *)
Lemma threshold_plane_bound (covs : list Q) (thr : Q) :
  Forall (fun p => (p < length covs)%nat) (threshold_plane covs thr).
Proof.
  apply List.Forall_forall. intros p Hp. unfold threshold_plane in Hp.
  apply in_map_iff in Hp as ([i a] & <- & Hin).
  apply filter_In in Hin as [Hin _].
  apply list_elem_of_In, elem_of_lookup_imap_1 in Hin
    as (j & y & [= -> ->] & Hy).
  eapply lookup_lt_Some. exact Hy.
Qed.

(** Every selected position holds a score above the threshold. *)
Lemma threshold_plane_above (covs : list Q) (thr : Q) (p : nat) :
  In p (threshold_plane covs thr) -> thr < nth p covs 0.
Proof.
  unfold threshold_plane. intros Hp.
  apply in_map_iff in Hp as ([i a] & <- & Hin).
  apply filter_In in Hin as [Hin Hgt].
  apply list_elem_of_In, elem_of_lookup_imap_1 in Hin
    as (j & y & [= -> ->] & Hy).
  cbn [fst snd] in *. apply gt_true in Hgt.
  rewrite (nth_lookup_Some _ _ 0 _ Hy). exact Hgt.
Qed.

Lemma thresholded_indices_total cov classes (thr : gmap string Q) :
  length classes = Np.shape1 cov ->
  (forall c, In c classes -> is_Some (thr !! c)) ->
  exists vi, thresholded_indices cov (length classes) classes thr = Ok vi.
Proof.
  intros Hshape Hkeys. unfold thresholded_indices.
  apply mapM_all_Ok. intros i Hi. apply in_seq in Hi.
  unfold Np.subarray. rewrite (proj2 (Nat.ltb_lt _ _)) by lia.
  cbn [mbind result_bind].
  apply mapM_all_Ok. intros c Hc. apply in_seq in Hc.
  destruct (lookup_lt_is_Some_2 classes c ltac:(lia)) as [name Hname].
  rewrite (proj2 (getitem_Ok _ _ _) Hname). cbn [mbind result_bind].
  destruct (Hkeys name) as [t Ht];
    [apply list_elem_of_In; eapply list_elem_of_lookup_2; exact Hname|].
  unfold dict_get. rewrite Ht. cbn [mbind result_bind].
  unfold Np.flatten_plane. cbn [Np.sh0].
  rewrite (proj2 (Nat.ltb_lt _ _)) by lia.
  cbn [mbind result_bind]. eauto.
Qed.

Lemma thresholded_indices_entry cov n classes thr vi i ind :
  thresholded_indices cov n classes thr = Ok vi ->
  vi !! i = Some ind ->
  (i < Np.shape0 cov)%nat /\ length ind = n.
Proof.
  intros Hvi Hi. unfold thresholded_indices in Hvi.
  destruct (mapM_Ok_lookup_r _ _ _ Hvi i ind Hi) as (i' & Hi' & Himg).
  apply lookup_seq in Hi' as [-> Hlt]. simpl in Himg.
  apply bind_Ok in Himg as (covs & _ & Hcls).
  apply mapM_Ok_length in Hcls. rewrite length_seq in Hcls. auto.
Qed.


Lemma length_insert_unique (x : Z) (l : list Z) :
  (length (Np.insert_unique x l) <= S (length l))%nat.
Proof.
  induction l as [|y l IH]; simpl; [lia|].
  destruct (x <? y)%Z; [simpl; lia|].
  destruct (x =? y)%Z; simpl; lia.
Qed.

Lemma length_unique (xs : list Z) :
  (length (Np.unique xs) <= length xs)%nat.
Proof.
  unfold Np.unique. induction xs as [|x xs IH]; simpl; [lia|].
  pose proof (length_insert_unique x (fold_right Np.insert_unique [] xs)).
  lia.
Qed.

(** The loop over the labels appends at most one detection per label. *)
Lemma for_each_cluster_label_length name cfg ncols covs bboxes labeling labels :
  forall acc out,
    for_each (cluster_label name cfg ncols covs bboxes labeling) acc labels
    = Ok out ->
    (length out <= length acc + length labels)%nat.
Proof.
  induction labels as [|l labels IH]; intros acc out; simpl.
  - intros [= <-]. lia.
  - intros H. apply bind_Ok in H as (acc1 & Hbody & Hrest).
    apply ClusterFacts.cluster_label_Ok in Hbody
      as (w & b & _ & _ & _ & _ & ->).
    apply IH in Hrest.
    destruct (valid_box_of cfg _); rewrite ?length_app in Hrest; simpl in *;
      lia.
Qed.

Section Pipeline.

Variable denormalize_bounding_bboxes :
  Np.ndarray4 -> Z -> Q -> list Q -> nat -> Q -> Q -> string -> list Z ->
  list Frame -> Z -> Np.ndarray4.
Variable iou_vectorized : list (list Q) -> list (list Q).
Variable fit_predict : DBSCAN -> list (list Q) -> list Q -> list Z.
Variable BboxInfo : Type.
Variable return_bbox_info : Frame -> list KittiBbox -> BboxInfo.

Local Abbreviation cluster_class' := (cluster_class iou_vectorized fit_predict).
Local Abbreviation imagewise_boxes' :=
  (imagewise_boxes iou_vectorized fit_predict).
Local Abbreviation batchwise_boxes' :=
  (batchwise_boxes iou_vectorized fit_predict).
Local Abbreviation apply' :=
  (apply denormalize_bounding_bboxes iou_vectorized fit_predict
         return_bbox_info).

(** The regression tensor after transposition and denormalisation, as
    [apply] computes it. *)
Local Abbreviation abs_bbox_of self results this_id :=
  (denormalize_bounding_bboxes
     (Np.transpose_0132 (output_bbox_BiasAdd results)) (stride self)
     (offset self) (bbox_norm self) (length (classes self)) (scale_w self)
     (scale_h self) (data_format self) (target_shape self) (frames self)
     (this_id - 1)).

(** The class body returns when the class is configured, the selected
    positions lie in the grid of the boxes, the boxes have the four
    planes of the class, the overlap matrix has a row per box and the
    estimator a label per row. *)
Lemma cluster_class_total self covs bboxes indices c name idx est :
  classes self !! c = Some name ->
  (c < Np.sh0 covs)%nat ->
  indices !! c = Some idx ->
  Forall (fun p => (p < Np.sh1 covs * Np.sh2 covs)%nat) idx ->
  (Np.sh1 covs * Np.sh2 covs <= Np.sh1 bboxes * Np.sh2 bboxes)%nat ->
  (4 * c + 4 <= Np.sh0 bboxes)%nat ->
  dbscan_elements self !! name = Some est ->
  (forall boxes, length (iou_vectorized boxes) = length boxes) ->
  (forall e X w, length (fit_predict e X w) = length X) ->
  exists out, cluster_class' self covs bboxes indices c = Ok out.
Proof.
  intros Hname Hc Hidx Hbound Hgrid Hplanes Hest Hiou Hfit.
  unfold cluster_class.
  rewrite (proj2 (getitem_Ok _ _ _) Hname). cbn [mbind result_bind].
  unfold Np.flatten_plane. rewrite (proj2 (Nat.ltb_lt _ _) Hc).
  cbn [mbind result_bind].
  rewrite (proj2 (getitem_Ok _ _ _) Hidx). cbn [mbind result_bind].
  destruct (take_total (Np.plane covs c) idx) as (cc & Hcc & Hlcc).
  { rewrite length_plane. exact Hbound. }
  rewrite Hcc. cbn [mbind result_bind].
  destruct (length cc =? 0)%nat; [eauto|].
  unfold Np.slice_reshape.
  replace (Nat.min (4 * c + 4) (Np.sh0 bboxes) - 4 * c)%nat with 4%nat by lia.
  cbn [seq map mbind result_bind].
  match goal with |- context [Np.take (Np.transposeM ?N ?pl) idx] =>
    destruct (take_total (Np.transposeM N pl) idx) as (bb & Hbb & Hlbb) end.
  { rewrite length_transposeM. eapply Forall_impl; [exact Hbound|].
    simpl. intros. lia. }
  rewrite Hbb. cbn [mbind result_bind].
  unfold dict_get. rewrite Hest. cbn [mbind result_bind length].
  match goal with |- context [for_each _ [] (Np.unique (List.filter _ ?lab))] =>
    set (labeling := lab) end.
  destruct (ClusterFacts.for_each_cluster_label_spec name
              (proto_map_get (classwise_clustering_config (pproc_config self))
                             name)
              cc bb labeling) with (acc := @nil KittiBbox)
              (labels := Np.unique (List.filter (fun l => (0 <=? l)%Z) labeling))
    as (dets & Hloop & _).
  - subst labeling. rewrite Hfit, length_map, Hiou. congruence.
  - congruence.
  - apply List.Forall_forall. intros l Hl.
    apply unique_In, filter_In in Hl as [Hl _]. exact Hl.
  - rewrite Hloop. eauto.
Qed.


(** Where an emitted detection comes from: a non-empty selection [w] of
    the confidences of the thresholded candidates and the selection [b]
    of their boxes by the same mask; it is their aggregate, and it passed
    the validity test of its class. *)
Lemma cluster_class_emitted self covs bboxes indices c name idx out d :
  cluster_class' self covs bboxes indices c = Ok out -> In d out ->
  classes self !! c = Some name -> indices !! c = Some idx ->
  exists cc mask w b,
    Np.take (Np.plane covs c) idx = Ok cc /\
    w = Np.select mask cc /\
    d = detection_of name 4 w b /\
    valid_box_of
      (proto_map_get (classwise_clustering_config (pproc_config self)) name) d
    = true /\
    w <> [] /\ length b = length w /\
    Forall (fun x => exists p, In p idx /\ x = nth p (Np.plane covs c) 0) w /\
    Forall (fun row =>
              exists p, In p idx /\
                forall j, (j < 4)%nat ->
                  nth j row 0
                  = Np.at3 bboxes (4 * c + j) (p / Np.sh2 bboxes)%nat
                           (p mod Np.sh2 bboxes)%nat) b.
Proof.
  intros Hout Hd Hname Hidx.
  apply ClusterFacts.cluster_class_Ok in Hout
    as (name' & idx' & cc & Hname' & _ & Hidx' & Hcc & Hout).
  assert (name' = name) as -> by congruence.
  assert (idx' = idx) as -> by congruence.
  destruct Hout as [[_ ->] | (planes & bb & labeling & Hplanes & Hbb & Hloop)];
    [destruct Hd|].
  destruct (ClusterFacts.for_each_cluster_label _ _ _ _ _ _ _ _ _ Hloop d Hd)
    as [[] | (l & w & b & _ & Hw & Hb & Hne & Hcols & -> & Hvalid)].
  apply compress_Ok in Hw as [Hlw ->]. apply compress_Ok in Hb as [Hlb ->].
  apply slice_reshape_Ok in Hplanes.
  assert (Hk : (Nat.min (4 * c + 4) (Np.sh0 bboxes) - 4 * c)%nat = 4%nat).
  { rewrite Hplanes, length_map, length_seq in Hcols. lia. }
  assert (Hk' : length planes = 4%nat).
  { rewrite Hplanes, length_map, length_seq. exact Hk. }
  rewrite Hk' in *.
  exists cc, (label_mask labeling l), (Np.select (label_mask labeling l) cc),
         (Np.select (label_mask labeling l) bb).
  split; [exact Hcc|]. split; [reflexivity|]. split; [reflexivity|].
  split; [exact Hvalid|]. split; [exact Hne|].
  pose proof Hcc as Hcc'. pose proof Hbb as Hbb'.
  apply (take_Ok _ _ _ 0) in Hcc' as [Hcc' _].
  apply (take_Ok _ _ _ []) in Hbb' as [Hbb' Hidx_bb].
  split; [|split].
  - apply select_length. rewrite Hcc', Hbb', !length_map. reflexivity.
  - apply select_Forall. rewrite Hcc'. apply List.Forall_forall.
    intros x Hx. apply in_map_iff in Hx as (p & <- & Hp). eauto.
  - apply select_Forall. rewrite Hbb'. apply List.Forall_forall.
    intros row Hrow. apply in_map_iff in Hrow as (p & <- & Hp).
    rewrite List.Forall_forall in Hidx_bb. specialize (Hidx_bb p Hp).
    rewrite length_transposeM in Hidx_bb.
    exists p. split; [exact Hp|]. intros j Hj.
    rewrite nth_transposeM by exact Hidx_bb.
    rewrite (ClusterFacts.nth_map_default (fun row => nth p row 0) planes
               j [] 0) by lia.
    rewrite Hplanes, Hk.
    rewrite (ClusterFacts.nth_map_default (Np.plane bboxes) _ j 0%nat [])
      by (rewrite length_seq; exact Hj).
    rewrite seq_nth by exact Hj.
    apply nth_plane. exact Hidx_bb.
Qed.

(** X9: the class body emits at most as many detections as there are
    thresholded candidates of the class. *)
Theorem detections_at_most_candidates (self : Postprocessor)
  (covs bboxes : Np.ndarray3) (indices : list (list nat)) (c : nat)
  (idx : list nat) (out : list KittiBbox) :
  cluster_class' self covs bboxes indices c = Ok out ->
  indices !! c = Some idx ->
  (length out <= length idx)%nat.
Proof.
  intros Hout Hidx.
  apply ClusterFacts.cluster_class_Ok in Hout
    as (name & idx' & cc & _ & _ & Hidx' & Hcc & Hout).
  assert (idx' = idx) as -> by congruence.
  destruct Hout as [[_ ->] | (planes & bb & labeling & _ & _ & Hloop)];
    [simpl; lia|].
  pose proof (for_each_cluster_label_length _ _ _ _ _ _ _ _ _ Hloop) as Hlen.
  pose proof (mapM_Ok_length _ _ _ Hcc) as Hlcc.
  destruct (Np.unique (List.filter (fun l => (0 <=? l)%Z) labeling))
    as [|l labels] eqn:Hlabels.
  - simpl in Hlen. lia.
  - cbn [for_each] in Hloop. apply bind_Ok in Hloop as (acc1 & Hbody & _).
    apply ClusterFacts.cluster_label_Ok in Hbody as (w & b & Hw & _).
    apply compress_Ok in Hw as [Hmask _].
    unfold label_mask in Hmask. rewrite length_map in Hmask.
    pose proof (length_unique (List.filter (fun l => (0 <=? l)%Z) labeling))
      as Hu.
    pose proof (filter_length_le (fun l => (0 <=? l)%Z) labeling) as Hf.
    rewrite Hlabels in Hu. simpl in Hlen, Hu. lia.
Qed.


(** X10: a detection that the class body emits carries the name of the
    class and a box of four coordinates, and its confidence is strictly
    above the class's [dbscan_confidence_threshold]. *)
Theorem emitted_detection_confidence (self : Postprocessor)
  (covs bboxes : Np.ndarray3) (indices : list (list nat)) (c : nat)
  (name : string) (idx : list nat) (out : list KittiBbox) (d : KittiBbox) :
  cluster_class' self covs bboxes indices c = Ok out -> In d out ->
  classes self !! c = Some name -> indices !! c = Some idx ->
  category d = name /\
  length (box d) = 4%nat /\
  dbscan_confidence_threshold
    (dbscan_config
       (proto_map_get (classwise_clustering_config (pproc_config self)) name))
  < confidence_score d.
Proof.
  intros Hout Hd Hname Hidx.
  destruct (cluster_class_emitted _ _ _ _ _ _ _ _ _ Hout Hd Hname Hidx)
    as (cc & mask & w & b & Hcc & -> & -> & Hvalid & _).
  split; [reflexivity|].
  split; [apply ClusterFacts.length_weighted_mean|].
  unfold valid_box_of in Hvalid. apply andb_true_iff in Hvalid as [Hconf _].
  apply gt_true in Hconf. exact Hconf.
Qed.

(** The clustering stage returns on a batch whose denormalised boxes
    cover the images, the four planes of the first class and the grid of
    the coverage tensor. *)
Lemma batchwise_boxes_total self cov abs_bbox vi :
  classes self <> [] ->
  (forall name, In name (classes self) ->
     is_Some (dbscan_elements self !! name)) ->
  thresholded_indices cov (length (classes self)) (classes self)
    (coverage_thresholds self) = Ok vi ->
  (Np.shape0 cov <= Np.shape0 abs_bbox)%nat ->
  (4 <= Np.shape1 abs_bbox)%nat ->
  (Np.shape2 cov * Np.shape3 cov
   <= Np.shape2 abs_bbox * Np.shape3 abs_bbox)%nat ->
  (forall boxes, length (iou_vectorized boxes) = length boxes) ->
  (forall e X w, length (fit_predict e X w) = length X) ->
  exists bw, batchwise_boxes' self cov abs_bbox vi = Ok bw.
Proof.
  intros Hne Hkeys Hvi H0 H1 H23 Hiou Hfit.
  unfold batchwise_boxes. apply mapM_all_Ok. intros [i ind] Hin.
  apply list_elem_of_In, elem_of_lookup_imap_1 in Hin
    as (i' & y & [= <- <-] & Hi).
  destruct (thresholded_indices_entry _ _ _ _ _ _ _ Hvi Hi) as [Hlt Hlen].
  assert (Hpos : (0 < length (classes self))%nat)
    by (destruct (classes self); [congruence | simpl; lia]).
  destruct (lookup_lt_is_Some_2 ind 0%nat ltac:(lia)) as [idx Hidx].
  destruct (ClusterFacts.thresholded_indices_lookup _ _ _ _ _ _ _ _ _
              Hvi Hi Hidx)
    as (covs & name & t & Hcovs & Hname & _ & Hc & ->).
  rewrite ClusterFacts.imagewise_boxes_eq, Hcovs. cbn [mbind result_bind].
  unfold Np.subarray in Hcovs |- *.
  rewrite (proj2 (Nat.ltb_lt _ _) Hlt) in Hcovs. injection Hcovs as <-.
  rewrite (proj2 (Nat.ltb_lt _ _)) by lia. cbn [mbind result_bind].
  destruct (Hkeys name) as [est Hest];
    [apply list_elem_of_In; eapply list_elem_of_lookup_2; exact Hname|].
  eapply cluster_class_total; try eassumption; cbn [Np.sh0 Np.sh1 Np.sh2];
    try lia.
  pose proof (threshold_plane_bound
                (Np.plane {| Np.sh0 := Np.shape1 cov; Np.sh1 := Np.shape2 cov;
                             Np.sh2 := Np.shape3 cov; Np.at3 := Np.at4 cov i |}
                          0) t) as Hb.
  rewrite length_plane in Hb. exact Hb.
Qed.

(** The rendering loop collects the positions that have a frame, as
    long as the batch has boxes for them. *)
Lemma render_loop_upto (self : Postprocessor) (this_id : Z)
  (bw : list (list KittiBbox)) :
  let start := ((this_id - 1) * batch_size self)%Z in
  let R := Z.to_nat (Z.of_nat (length (frames self)) - start) in
  (0 <= start)%Z ->
  forall n k acc,
    (Nat.min (k + n) R <= length bw)%nat ->
    render_loop return_bbox_info self this_id bw (map Z.of_nat (seq k n)) acc
    = Ok (acc ++ map (entry return_bbox_info self this_id bw)
                     (seq k (Nat.min (k + n) R - k)))%list.
Proof.
  intros start R Hstart n.
  induction n as [|n IH]; intros k acc HR.
  - simpl. replace (Nat.min (k + 0) R - k)%nat with 0%nat by lia.
    simpl. rewrite app_nil_r. reflexivity.
  - cbn [seq map render_loop]. fold start.
    destruct (start + Z.of_nat k >=? Z.of_nat (length (frames self)))%Z eqn:Hge.
    + apply Z.geb_le in Hge.
      replace (Nat.min (k + S n) R - k)%nat with 0%nat by (subst R; lia).
      simpl. rewrite app_nil_r. reflexivity.
    + rewrite Z.geb_leb in Hge. apply Z.leb_gt in Hge.
      assert (Hk : (k < R)%nat) by (subst R; lia).
      assert (Hf : getitem_int (frames self) (start + Z.of_nat k)
                   = Ok (nth (Z.to_nat start + k) (frames self)
                             {| _image_path := EmptyString |})).
      { unfold getitem_int.
        destruct (0 <=? start + Z.of_nat k)%Z eqn:H0;
          [|apply Z.leb_gt in H0; lia].
        apply getitem_Ok.
        replace (Z.to_nat (start + Z.of_nat k)) with (Z.to_nat start + k)%nat
          by lia.
        apply lookup_nth_lt; lia. }
      assert (Hb : getitem_int bw (Z.of_nat k) = Ok (nth k bw [])).
      { rewrite getitem_int_nat. apply getitem_Ok.
        apply lookup_nth_lt; lia. }
      rewrite Hf, Hb. cbn [mbind result_bind].
      rewrite IH by lia.
      replace (Nat.min (k + S n) R - k)%nat
        with (S (Nat.min (S k + n) R - S k)) by lia.
      cbn [seq map]. rewrite <- app_assoc. reflexivity.
Qed.

(** The loop raises [IndexError] at the first position that has a
    frame but no boxes. *)
Lemma render_loop_short (self : Postprocessor) (this_id : Z)
  (bw : list (list KittiBbox)) :
  let start := ((this_id - 1) * batch_size self)%Z in
  let R := Z.to_nat (Z.of_nat (length (frames self)) - start) in
  (0 <= start)%Z ->
  forall n k acc,
    (k <= length bw)%nat -> (length bw < Nat.min (k + n) R)%nat ->
    render_loop return_bbox_info self this_id bw (map Z.of_nat (seq k n)) acc
    = Raise IndexError.
Proof.
  intros start R Hstart n.
  induction n as [|n IH]; intros k acc Hk Hshort; [lia|].
  cbn [seq map render_loop]. fold start.
  destruct (start + Z.of_nat k >=? Z.of_nat (length (frames self)))%Z eqn:Hge;
    [apply Z.geb_le in Hge; subst R; lia|].
  rewrite Z.geb_leb in Hge. apply Z.leb_gt in Hge.
  assert (Hf : getitem_int (frames self) (start + Z.of_nat k)
               = Ok (nth (Z.to_nat start + k) (frames self)
                         {| _image_path := EmptyString |})).
  { unfold getitem_int.
    destruct (0 <=? start + Z.of_nat k)%Z eqn:H0;
      [|apply Z.leb_gt in H0; lia].
    apply getitem_Ok.
    replace (Z.to_nat (start + Z.of_nat k)) with (Z.to_nat start + k)%nat
      by lia.
    apply lookup_nth_lt; lia. }
  rewrite Hf. cbn [mbind result_bind]. rewrite getitem_int_nat.
  destruct (Nat.eq_dec k (length bw)) as [-> | Hne].
  - unfold getitem. rewrite lookup_ge_None_2 by lia. reflexivity.
  - rewrite (proj2 (getitem_Ok bw k (nth k bw [])))
      by (apply lookup_nth_lt; lia).
    cbn [mbind result_bind]. apply IH; lia.
Qed.

(** [apply] once the assertion, the thresholding and the clustering
    have gone through. *)
Lemma apply_after_stages self results this_id render vi bw :
  length (classes self) = Np.shape1 (output_cov_Sigmoid results) ->
  thresholded_indices (Np.transpose_0132 (output_cov_Sigmoid results))
    (length (classes self)) (classes self) (coverage_thresholds self) = Ok vi ->
  batchwise_boxes' self (Np.transpose_0132 (output_cov_Sigmoid results))
    (abs_bbox_of self results this_id) vi = Ok bw ->
  apply' self results this_id render
  = if render
    then out ← render_loop return_bbox_info self this_id bw
                           (range (batch_size self)) [];
         Ok (Some out)
    else Ok None.
Proof.
  intros Hcls Hvi Hbw. unfold apply, py_assert.
  change (Np.shape1 (Np.transpose_0132 (output_cov_Sigmoid results)))
    with (Np.shape1 (output_cov_Sigmoid results)).
  rewrite (proj2 (Nat.eqb_eq _ _) Hcls). cbn [mbind result_bind].
  rewrite Hvi. cbn [mbind result_bind].
  rewrite Hbw. cbn [mbind result_bind]. reflexivity.
Qed.


(** X3: once [configure] has returned the postprocessor, [apply] never
    raises [KeyError]: every dict it indexes with a class name has that
    name. *)
Theorem configured_apply_no_KeyError (self0 self : Postprocessor)
  (results : InferResult) (this_id : Z) (render : bool) :
  configure self0 = Ok self ->
  apply' self results this_id render <> Raise KeyError.
Proof.
  intros Hconf Hraise.
  destruct (ConfigMore.configure_keys _ _ Hconf) as [_ Hkeys].
  set (P := fun e : exn => e <> KeyError).
  assert (PI : P IndexError) by discriminate.
  assert (PV : P ValueError) by discriminate.
  assert (PA : P AssertionError) by discriminate.
  assert (Hname : forall c name, getitem (classes self) c = Ok name ->
                                 In name (classes self)).
  { intros c name H. apply getitem_Ok in H.
    apply list_elem_of_In. eapply list_elem_of_lookup_2. exact H. }
  assert (Hr : raises_only P (apply' self results this_id render)).
  { unfold apply. apply raises_only_bind.
    { unfold py_assert. destruct (_ =? _)%nat;
        [apply raises_only_Ok | apply raises_only_Raise; exact PA]. }
    intros _. apply raises_only_bind.
    { unfold thresholded_indices. apply raises_only_mapM. intros i.
      apply raises_only_bind; [auto with raises|]. intros covs.
      apply raises_only_mapM. intros c.
      apply raises_only_bind_Ok; [auto with raises|]. intros name Hn.
      destruct (Hkeys name (Hname _ _ Hn)) as [_ [t Ht]].
      unfold dict_get. rewrite Ht. cbn [mbind result_bind].
      apply raises_only_bind; [auto with raises|]. intros flat.
      apply raises_only_Ok. }
    intros vi. apply raises_only_bind.
    { unfold batchwise_boxes. apply raises_only_mapM. intros [i ind].
      unfold imagewise_boxes.
      apply raises_only_bind; [auto with raises|]. intros covs.
      apply raises_only_bind; [auto with raises|]. intros bboxes.
      apply raises_only_for_each. intros acc c.
      apply raises_only_bind; [|intros; apply raises_only_Ok].
      unfold cluster_class.
      apply raises_only_bind_Ok; [auto with raises|]. intros name Hn.
      apply raises_only_bind; [auto with raises|]. intros flat.
      apply raises_only_bind; [auto with raises|]. intros idx.
      apply raises_only_bind; [auto with raises|]. intros cc.
      destruct (_ =? _)%nat; [apply raises_only_Ok|].
      apply raises_only_bind; [auto with raises|]. intros planes.
      apply raises_only_bind; [auto with raises|]. intros bb.
      destruct (Hkeys name (Hname _ _ Hn)) as [[est Hest] _].
      unfold dict_get. rewrite Hest. cbn [mbind result_bind].
      apply raises_only_for_each. intros acc' l.
      apply raises_only_bind; [auto with raises|]. intros w.
      apply raises_only_bind; [auto with raises|]. intros wmax.
      apply raises_only_bind; [auto with raises|]. intros wmin.
      apply raises_only_bind; [auto with raises|]. intros b.
      repeat (apply raises_only_bind; [auto with raises|]; intros ?).
      cbv zeta. destruct (_ && _); apply raises_only_Ok. }
    intros bw. destruct render; [|apply raises_only_Ok].
    apply raises_only_bind; [|intros; apply raises_only_Ok].
    apply raises_only_render_loop. exact PI. }
  exact (Hr _ Hraise eq_refl).
Qed.

(** X4: on a configured postprocessor with a class list that is not
    empty, [apply] returns when the coverage tensor has one plane per
    class, the denormalised boxes cover the images of the batch, the four
    planes of the first class and the grid of the coverage tensor, the
    overlap matrix has a row per box and the estimator a label per row,
    the batch does not start before the
    first frame and the batch has an image for every position that has a
    frame; it returns as many entries as the smaller of the batch size
    and the number of frames left. *)
Theorem apply_returns (self0 self : Postprocessor) (results : InferResult)
  (this_id : Z) :
  configure self0 = Ok self ->
  classes self <> [] ->
  length (classes self) = Np.shape1 (output_cov_Sigmoid results) ->
  (Np.shape0 (output_cov_Sigmoid results)
   <= Np.shape0 (abs_bbox_of self results this_id))%nat ->
  (4 <= Np.shape1 (abs_bbox_of self results this_id))%nat ->
  (Np.shape3 (output_cov_Sigmoid results)
   * Np.shape2 (output_cov_Sigmoid results)
   <= Np.shape2 (abs_bbox_of self results this_id)
      * Np.shape3 (abs_bbox_of self results this_id))%nat ->
  (forall boxes, length (iou_vectorized boxes) = length boxes) ->
  (forall e X w, length (fit_predict e X w) = length X) ->
  (0 <= (this_id - 1) * batch_size self)%Z ->
  (Z.min (batch_size self)
         (Z.of_nat (length (frames self)) - (this_id - 1) * batch_size self)
   <= Z.of_nat (Np.shape0 (output_cov_Sigmoid results)))%Z ->
  exists out,
    apply' self results this_id true = Ok (Some out) /\
    Z.of_nat (length out)
    = Z.max 0 (Z.min (batch_size self)
                     (Z.of_nat (length (frames self))
                      - (this_id - 1) * batch_size self)).
Proof.
  intros Hconf Hne Hcls H0 H1 H23 Hiou Hfit Hstart Hbatch.
  destruct (ConfigMore.configure_keys _ _ Hconf) as [_ Hkeys].
  destruct (thresholded_indices_total
              (Np.transpose_0132 (output_cov_Sigmoid results))
              (classes self) (coverage_thresholds self))
    as [vi Hvi]; [exact Hcls | intros c Hc; apply (Hkeys c Hc) |].
  destruct (batchwise_boxes_total self
              (Np.transpose_0132 (output_cov_Sigmoid results))
              (abs_bbox_of self results this_id) vi)
    as [bw Hbw]; try assumption.
  { intros name Hn. apply (Hkeys name Hn). }
  assert (Hlen : length bw = Np.shape0 (output_cov_Sigmoid results)).
  { rewrite (ApplyFacts.batchwise_boxes_length _ _ _ _ _ _ _ Hbw).
    rewrite (ApplyFacts.thresholded_indices_length _ _ _ _ _ Hvi).
    reflexivity. }
  rewrite (apply_after_stages _ _ _ true _ _ Hcls Hvi Hbw).
  unfold range.
  rewrite (render_loop_upto self this_id bw Hstart
             (Z.to_nat (batch_size self)) 0 []) by lia.
  cbn [mbind result_bind app]. eexists. split; [reflexivity|].
  rewrite length_map, length_seq. lia.
Qed.

(** X5: when thresholding and clustering have gone through and the
    batch does not start before the first frame, [apply] returns one
    entry for each position of the batch that has a frame (the smaller
    of the batch size and the number of frames left; none when the batch
    starts past the last frame), provided the batch has an image for each
    of them; entry [i] is made from frame [(this_id - 1) * batch_size + i]
    and from the boxes of image [i]. *)
Theorem apply_entries (self : Postprocessor) (results : InferResult)
  (this_id : Z) (vi : list (list (list nat))) (bw : list (list KittiBbox))
  (m : nat) :
  length (classes self) = Np.shape1 (output_cov_Sigmoid results) ->
  thresholded_indices (Np.transpose_0132 (output_cov_Sigmoid results))
    (length (classes self)) (classes self) (coverage_thresholds self) = Ok vi ->
  batchwise_boxes' self (Np.transpose_0132 (output_cov_Sigmoid results))
    (abs_bbox_of self results this_id) vi = Ok bw ->
  (0 <= (this_id - 1) * batch_size self)%Z ->
  Z.of_nat m
  = Z.max 0 (Z.min (batch_size self)
                   (Z.of_nat (length (frames self))
                    - (this_id - 1) * batch_size self)) ->
  (m <= Np.shape0 (output_cov_Sigmoid results))%nat ->
  exists out,
    apply' self results this_id true = Ok (Some out) /\
    length out = m /\
    forall i, (i < m)%nat ->
      exists frame boxes,
        frames self !! (Z.to_nat ((this_id - 1) * batch_size self) + i)%nat
        = Some frame /\
        bw !! i = Some boxes /\
        out !! i
        = Some (return_bbox_info frame boxes, basename (_image_path frame)).
Proof.
  intros Hcls Hvi Hbw Hstart Hm Hshape.
  assert (Hlen : length bw = Np.shape0 (output_cov_Sigmoid results)).
  { rewrite (ApplyFacts.batchwise_boxes_length _ _ _ _ _ _ _ Hbw).
    rewrite (ApplyFacts.thresholded_indices_length _ _ _ _ _ Hvi).
    reflexivity. }
  rewrite (apply_after_stages _ _ _ true _ _ Hcls Hvi Hbw).
  unfold range.
  rewrite (render_loop_upto self this_id bw Hstart
             (Z.to_nat (batch_size self)) 0 []) by lia.
  cbn [mbind result_bind app].
  replace (Nat.min (0 + Z.to_nat (batch_size self))
             (Z.to_nat (Z.of_nat (length (frames self))
                        - (this_id - 1) * batch_size self)) - 0)%nat
    with m by lia.
  eexists. split; [reflexivity|].
  split; [rewrite length_map, length_seq; reflexivity|].
  intros i Hi.
  exists (nth (Z.to_nat ((this_id - 1) * batch_size self) + i) (frames self)
              {| _image_path := EmptyString |}),
         (nth i bw []).
  split; [apply lookup_nth_lt; lia|].
  split; [apply lookup_nth_lt; lia|].
  rewrite list_lookup_fmap, lookup_seq_lt by lia. reflexivity.
Qed.

(** X6: when the batch of tensors has fewer images than positions with
    a frame, [apply] raises [IndexError] (at [batchwise_boxes[image_idx]])
    and returns no entry at all. *)
Theorem apply_short_batch (self : Postprocessor) (results : InferResult)
  (this_id : Z) (vi : list (list (list nat))) (bw : list (list KittiBbox)) :
  length (classes self) = Np.shape1 (output_cov_Sigmoid results) ->
  thresholded_indices (Np.transpose_0132 (output_cov_Sigmoid results))
    (length (classes self)) (classes self) (coverage_thresholds self) = Ok vi ->
  batchwise_boxes' self (Np.transpose_0132 (output_cov_Sigmoid results))
    (abs_bbox_of self results this_id) vi = Ok bw ->
  (0 <= (this_id - 1) * batch_size self)%Z ->
  (Z.of_nat (Np.shape0 (output_cov_Sigmoid results))
   < Z.min (batch_size self)
           (Z.of_nat (length (frames self))
            - (this_id - 1) * batch_size self))%Z ->
  apply' self results this_id true = Raise IndexError.
Proof.
  intros Hcls Hvi Hbw Hstart Hshort.
  assert (Hlen : length bw = Np.shape0 (output_cov_Sigmoid results)).
  { rewrite (ApplyFacts.batchwise_boxes_length _ _ _ _ _ _ _ Hbw).
    rewrite (ApplyFacts.thresholded_indices_length _ _ _ _ _ Hvi).
    reflexivity. }
  rewrite (apply_after_stages _ _ _ true _ _ Hcls Hvi Hbw).
  unfold range.
  rewrite (render_loop_short self this_id bw Hstart
             (Z.to_nat (batch_size self)) 0 []) by lia.
  reflexivity.
Qed.

(** X7: without [render], [apply] runs the same stages and discards
    their result: it never returns entries, it returns [None] whenever
    the call with [render] returns, and every exception it raises is
    raised by the call with [render] too. *)
Theorem apply_without_render (self : Postprocessor) (results : InferResult)
  (this_id : Z) :
  (forall out, apply' self results this_id false <> Ok (Some out)) /\
  (forall r, apply' self results this_id true = Ok r ->
             apply' self results this_id false = Ok None) /\
  (forall e, apply' self results this_id false = Raise e ->
             apply' self results this_id true = Raise e).
Proof.
  unfold apply.
  destruct (py_assert _) as [[]|e0]; cbn [mbind result_bind];
    [|repeat split; intros; congruence].
  destruct (thresholded_indices _ _ _ _) as [vi|e1]; cbn [mbind result_bind];
    [|repeat split; intros; congruence].
  destruct (batchwise_boxes' _ _ _ _) as [bw|e2]; cbn [mbind result_bind];
    [|repeat split; intros; congruence].
  repeat split; intros; congruence.
Qed.

(** X8: with an empty class list and a coverage tensor without class
    planes the assertion passes, and [apply] raises [IndexError] on the
    first image of the batch, at [self.classes[0]]. *)
Theorem apply_empty_class_list (self : Postprocessor) (results : InferResult)
  (this_id : Z) (render : bool) :
  classes self = [] ->
  Np.shape1 (output_cov_Sigmoid results) = 0%nat ->
  (0 < Np.shape0 (output_cov_Sigmoid results))%nat ->
  apply' self results this_id render = Raise IndexError.
Proof.
  intros Hcls Hshape Hbatch.
  destruct (thresholded_indices_total
              (Np.transpose_0132 (output_cov_Sigmoid results))
              (classes self) (coverage_thresholds self))
    as [vi Hvi].
  { rewrite Hcls. symmetry. exact Hshape. }
  { rewrite Hcls. intros c []. }
  pose proof (ApplyFacts.thresholded_indices_length _ _ _ _ _ Hvi) as Hlen.
  cbn [Np.transpose_0132 Np.shape0] in Hlen.
  destruct vi as [|ind vi]; [simpl in Hlen; lia|].
  unfold apply, py_assert.
  change (Np.shape1 (Np.transpose_0132 (output_cov_Sigmoid results)))
    with (Np.shape1 (output_cov_Sigmoid results)).
  rewrite Hcls at 1. rewrite Hshape. cbn [length Nat.eqb mbind result_bind].
  rewrite Hvi. cbn [mbind result_bind].
  assert (Hbw : batchwise_boxes' self
                  (Np.transpose_0132 (output_cov_Sigmoid results))
                  (abs_bbox_of self results this_id) (ind :: vi)
                = Raise IndexError).
  { unfold batchwise_boxes, enumerate. cbn [imap mapM].
    rewrite ClusterFacts.imagewise_boxes_eq.
    destruct (Np.subarray (Np.transpose_0132 (output_cov_Sigmoid results)) 0)
      as [covs|e] eqn:Hcov; cbn [mbind result_bind].
    2:{ unfold Np.subarray in Hcov. destruct (_ <? _)%nat; congruence. }
    clear Hcov.
    destruct (Np.subarray _ 0) as [bboxes|e] eqn:Hbb; cbn [mbind result_bind].
    2:{ unfold Np.subarray in Hbb. destruct (_ <? _)%nat; congruence. }
    unfold cluster_class. rewrite Hcls. reflexivity. }
  rewrite Hbw. reflexivity.
Qed.

End Pipeline.

(** Image 3 of the example batch, first class: one candidate, one
    detection. *)
Lemma detections_at_most_candidates_witness :
  exists out,
    cluster_class Reference.iou_vectorized Reference.fit_predict
      (Examples.postprocessor 8 Examples.five_frames ["car"; "person"])
      {| Np.sh0 := 2; Np.sh1 := 1; Np.sh2 := 1;
         Np.at3 := Np.at4 (Np.transpose_0132 Examples.batch_cov) 3 |}
      {| Np.sh0 := 8; Np.sh1 := 1; Np.sh2 := 1;
         Np.at3 := Np.at4 (Np.transpose_0132 Examples.batch_bbox) 3 |}
      [[0%nat]; [0%nat]] 0 = Ok out /\
    (length out <= 1)%nat.
Proof.
  set (self := Examples.postprocessor 8 Examples.five_frames ["car"; "person"]).
  set (covs := {| Np.sh0 := 2; Np.sh1 := 1; Np.sh2 := 1;
                  Np.at3 := Np.at4 (Np.transpose_0132 Examples.batch_cov) 3 |}).
  set (bboxes := {| Np.sh0 := 8; Np.sh1 := 1; Np.sh2 := 1;
                    Np.at3 := Np.at4 (Np.transpose_0132 Examples.batch_bbox) 3 |}).
  eassert (Hout : cluster_class Reference.iou_vectorized Reference.fit_predict
                    self covs bboxes [[0%nat]; [0%nat]] 0 = Ok _)
    by (vm_compute; reflexivity).
  match type of Hout with _ = Ok ?x => set (out := x) in * end.
  exists out. split; [exact Hout|].
  exact (detections_at_most_candidates
           Reference.iou_vectorized Reference.fit_predict
           self covs bboxes [[0%nat]; [0%nat]] 0 [0%nat] out Hout eq_refl).
Defined.

Lemma emitted_detection_confidence_witness :
  exists out d,
    cluster_class Reference.iou_vectorized Reference.fit_predict
      (Examples.postprocessor 8 Examples.five_frames ["car"; "person"])
      {| Np.sh0 := 2; Np.sh1 := 1; Np.sh2 := 1;
         Np.at3 := Np.at4 (Np.transpose_0132 Examples.batch_cov) 3 |}
      {| Np.sh0 := 8; Np.sh1 := 1; Np.sh2 := 1;
         Np.at3 := Np.at4 (Np.transpose_0132 Examples.batch_bbox) 3 |}
      [[0%nat]; [0%nat]] 0 = Ok out /\
    In d out /\ category d = "car" /\ 1 # 5 < confidence_score d.
Proof.
  set (self := Examples.postprocessor 8 Examples.five_frames ["car"; "person"]).
  set (covs := {| Np.sh0 := 2; Np.sh1 := 1; Np.sh2 := 1;
                  Np.at3 := Np.at4 (Np.transpose_0132 Examples.batch_cov) 3 |}).
  set (bboxes := {| Np.sh0 := 8; Np.sh1 := 1; Np.sh2 := 1;
                    Np.at3 := Np.at4 (Np.transpose_0132 Examples.batch_bbox) 3 |}).
  eassert (Hout : cluster_class Reference.iou_vectorized Reference.fit_predict
                    self covs bboxes [[0%nat]; [0%nat]] 0 = Ok [_])
    by (vm_compute; reflexivity).
  match type of Hout with _ = Ok [?x] => set (d := x) in * end.
  destruct (emitted_detection_confidence
              Reference.iou_vectorized Reference.fit_predict
              self covs bboxes [[0%nat]; [0%nat]] 0 "car" [0%nat] [d] d
              Hout (or_introl eq_refl) eq_refl eq_refl)
    as (Hcat & _ & Hconf).
  exists [d], d. split; [exact Hout|]. split; [left; reflexivity|].
  split; [exact Hcat | exact Hconf].
Defined.

Lemma configured_apply_no_KeyError_witness :
  apply Reference.denormalize_bounding_bboxes Reference.iou_vectorized
        Reference.fit_predict Reference.return_bbox_info
        (Examples.postprocessor 8 Examples.five_frames ["car"; "person"])
        Examples.batch_results 1 true
  <> Raise KeyError.
Proof.
  apply (configured_apply_no_KeyError
           Reference.denormalize_bounding_bboxes Reference.iou_vectorized
           Reference.fit_predict _ Reference.return_bbox_info
           (Examples.postprocessor 8 Examples.five_frames ["car"; "person"])
           (Examples.postprocessor 8 Examples.five_frames ["car"; "person"])).
  vm_compute. reflexivity.
Defined.

(** Batches of two over five frames: the second batch holds frames 2
    and 3. *)
Lemma apply_returns_witness :
  exists out,
    apply Reference.denormalize_bounding_bboxes Reference.iou_vectorized
          Reference.fit_predict Reference.return_bbox_info
          (Examples.postprocessor 2 Examples.five_frames ["car"; "person"])
          Examples.batch_results 2 true
    = Ok (Some out) /\
    length out = 2%nat.
Proof.
  destruct (apply_returns
              Reference.denormalize_bounding_bboxes Reference.iou_vectorized
              Reference.fit_predict _ Reference.return_bbox_info
              (Examples.postprocessor 2 Examples.five_frames ["car"; "person"])
              (Examples.postprocessor 2 Examples.five_frames ["car"; "person"])
              Examples.batch_results 2)
    as (out & Hout & Hlen).
  - vm_compute. reflexivity.
  - discriminate.
  - reflexivity.
  - vm_compute. lia.
  - vm_compute. lia.
  - vm_compute. lia.
  - apply ReferenceFacts.length_iou_vectorized.
  - apply ReferenceFacts.length_fit_predict.
  - vm_compute. discriminate.
  - vm_compute. discriminate.
  - exists out. split; [exact Hout|].
    change (Z.of_nat (length out) = 2%Z) in Hlen. lia.
Defined.

Lemma apply_entries_witness :
  exists out,
    apply Reference.denormalize_bounding_bboxes Reference.iou_vectorized
          Reference.fit_predict Reference.return_bbox_info
          (Examples.postprocessor 2 Examples.five_frames ["car"; "person"])
          Examples.batch_results 2 true
    = Ok (Some out) /\
    map snd out = ["f2.jpg"; "f3.jpg"].
Proof.
  set (self := Examples.postprocessor 2 Examples.five_frames ["car"; "person"]).
  set (cov := Np.transpose_0132 (output_cov_Sigmoid Examples.batch_results)).
  eassert (Hvi : thresholded_indices cov (length (classes self))
                   (classes self) (coverage_thresholds self) = Ok _)
    by (vm_compute; reflexivity).
  match type of Hvi with _ = Ok ?v => set (vi := v) in * end.
  eassert (Hbw : batchwise_boxes Reference.iou_vectorized Reference.fit_predict
                   self cov
                   (Reference.denormalize_bounding_bboxes
                      (Np.transpose_0132
                         (output_bbox_BiasAdd Examples.batch_results))
                      (stride self) (offset self) (bbox_norm self)
                      (length (classes self)) (scale_w self) (scale_h self)
                      (data_format self) (target_shape self) (frames self)
                      (2 - 1)) vi = Ok _)
    by (vm_compute; reflexivity).
  destruct (apply_entries
              Reference.denormalize_bounding_bboxes Reference.iou_vectorized
              Reference.fit_predict _ Reference.return_bbox_info
              self Examples.batch_results 2 _ _ 2 eq_refl Hvi Hbw)
    as (out & Hout & Hlen & Hentries).
  - vm_compute. discriminate.
  - reflexivity.
  - vm_compute. lia.
  - exists out. split; [exact Hout|].
    destruct (Hentries 0%nat ltac:(lia)) as (f0 & b0 & Hf0 & _ & H0).
    destruct (Hentries 1%nat ltac:(lia)) as (f1 & b1 & Hf1 & _ & H1).
    injection Hf0 as <-. injection Hf1 as <-.
    clear Hout Hentries.
    destruct out as [|e0 [|e1 [|]]]; try discriminate Hlen.
    injection H0 as ->. injection H1 as ->. reflexivity.
Defined.

(** One image in the batch, batch size two, five frames. *)
Lemma apply_short_batch_witness :
  apply Reference.denormalize_bounding_bboxes Reference.iou_vectorized
        Reference.fit_predict Reference.return_bbox_info
        (Examples.postprocessor 2 Examples.five_frames ["car"])
        Examples.thin_results 1 true
  = Raise IndexError.
Proof.
  set (self := Examples.postprocessor 2 Examples.five_frames ["car"]).
  set (cov := Np.transpose_0132 (output_cov_Sigmoid Examples.thin_results)).
  eassert (Hvi : thresholded_indices cov (length (classes self))
                   (classes self) (coverage_thresholds self) = Ok _)
    by (vm_compute; reflexivity).
  match type of Hvi with _ = Ok ?v => set (vi := v) in * end.
  eassert (Hbw : batchwise_boxes Reference.iou_vectorized Reference.fit_predict
                   self cov
                   (Reference.denormalize_bounding_bboxes
                      (Np.transpose_0132
                         (output_bbox_BiasAdd Examples.thin_results))
                      (stride self) (offset self) (bbox_norm self)
                      (length (classes self)) (scale_w self) (scale_h self)
                      (data_format self) (target_shape self) (frames self)
                      (1 - 1)) vi = Ok _)
    by (vm_compute; reflexivity).
  apply (apply_short_batch
           Reference.denormalize_bounding_bboxes Reference.iou_vectorized
           Reference.fit_predict _ Reference.return_bbox_info
           self Examples.thin_results 1 _ _ eq_refl Hvi Hbw).
  - vm_compute. discriminate.
  - vm_compute. reflexivity.
Defined.

Lemma apply_empty_class_list_witness :
  apply Reference.denormalize_bounding_bboxes Reference.iou_vectorized
        Reference.fit_predict Reference.return_bbox_info
        (Examples.postprocessor 2 Examples.five_frames [])
        {| output_cov_Sigmoid := Reference.of_lists 1 0 1 1 [[]];
           output_bbox_BiasAdd := Reference.of_lists 1 0 1 1 [[]] |}
        1 true
  = Raise IndexError.
Proof.
  apply (apply_empty_class_list
           Reference.denormalize_bounding_bboxes Reference.iou_vectorized
           Reference.fit_predict _ Reference.return_bbox_info
           (Examples.postprocessor 2 Examples.five_frames [])).
  - reflexivity.
  - reflexivity.
  - vm_compute. lia.
Defined.

End PipelineMore.

(** ** The file names of the output *)

Module FilenameFacts.

Import TrafficCamNetPostprocessor PyFacts.

Lemma append_String (x : ascii) (a b : string) :
  (String x a ++ b)%string = String x (a ++ b)%string.
Proof. reflexivity. Qed.

Lemma append_nil_r (a : string) : (a ++ EmptyString)%string = a.
Proof.
  induction a as [|x a IH]; [reflexivity|].
  rewrite append_String, IH. reflexivity.
Qed.

Lemma string_app_assoc (a b c : string) : ((a ++ b) ++ c = a ++ (b ++ c))%string.
Proof.
  induction a as [|x a IH]; [reflexivity|].
  rewrite !append_String, IH. reflexivity.
Qed.

Lemma chars_app (a b : string) :
  list_ascii_of_string (a ++ b)
  = (list_ascii_of_string a ++ list_ascii_of_string b)%list.
Proof.
  induction a as [|x a IH]; [reflexivity|].
  rewrite append_String. simpl. rewrite IH. reflexivity.
Qed.

(** [basename] returns a string without a slash ... *)
Lemma basename_aux_no_slash (p : string) :
  forall acc,
    ~ In "/"%char (list_ascii_of_string acc) ->
    ~ In "/"%char (list_ascii_of_string (basename_aux p acc)).
Proof.
  induction p as [|c p IH]; intros acc Hacc; simpl; [exact Hacc|].
  destruct (Ascii.eqb c "/") eqn:E.
  - apply IH. simpl. tauto.
  - apply IH. rewrite chars_app. simpl. intros H.
    apply in_app_iff in H as [H | [H | []]]; [exact (Hacc H)|].
    apply Ascii.eqb_neq in E. congruence.
Qed.

(** ... that ends the path. *)
Lemma basename_aux_suffix (p : string) :
  forall acc, exists pre, (acc ++ p = pre ++ basename_aux p acc)%string.
Proof.
  induction p as [|c p IH]; intros acc; simpl.
  - exists EmptyString. rewrite append_nil_r. reflexivity.
  - destruct (Ascii.eqb c "/") eqn:E.
    + destruct (IH EmptyString) as [pre Hpre].
      exists (acc ++ String c pre)%string.
      rewrite string_app_assoc, append_String, <- Hpre. reflexivity.
    + destruct (IH (acc ++ String c EmptyString)%string) as [pre Hpre].
      exists pre. rewrite <- Hpre, string_app_assoc. reflexivity.
Qed.

Section Names.

Variable denormalize_bounding_bboxes :
  Np.ndarray4 -> Z -> Q -> list Q -> nat -> Q -> Q -> string -> list Z ->
  list Frame -> Z -> Np.ndarray4.
Variable iou_vectorized : list (list Q) -> list (list Q).
Variable fit_predict : DBSCAN -> list (list Q) -> list Q -> list Z.
Variable BboxInfo : Type.
Variable return_bbox_info : Frame -> list KittiBbox -> BboxInfo.

(** What holds of the file name of an entry. *)
Local Abbreviation named_after_frame self :=
  (fun e : BboxInfo * string =>
     exists frame,
       In frame (frames self) /\
       snd e = basename (_image_path frame) /\
       (exists pre, _image_path frame = (pre ++ snd e)%string) /\
       ~ In "/"%char (list_ascii_of_string (snd e))).

Lemma getitem_int_In {A} (l : list A) (i : Z) (a : A) :
  getitem_int l i = Ok a -> In a l.
Proof.
  unfold getitem_int. intros H.
  assert (Hg : exists k, getitem l k = Ok a).
  { destruct (0 <=? i)%Z; [eauto|]. destruct (_ <=? i)%Z; [eauto|discriminate]. }
  destruct Hg as [k Hk]. apply getitem_Ok in Hk.
  apply list_elem_of_In. eapply list_elem_of_lookup_2. exact Hk.
Qed.

Lemma render_loop_names self this_id bw idxs :
  forall acc out,
    render_loop return_bbox_info self this_id bw idxs acc = Ok out ->
    Forall (named_after_frame self) acc ->
    Forall (named_after_frame self) out.
Proof.
  induction idxs as [|i idxs IH]; intros acc out; simpl.
  - intros [= <-] H; exact H.
  - destruct (_ >=? _)%Z; [intros [= <-] H; exact H|].
    intros H Hacc.
    apply bind_Ok in H as (frame & Hframe & H).
    apply bind_Ok in H as (boxes & _ & H).
    apply (IH _ _ H). apply Forall_app. split; [exact Hacc|].
    constructor; [|constructor].
    exists frame. cbn [snd].
    split; [eapply getitem_int_In; exact Hframe|].
    split; [reflexivity|]. split.
    + destruct (basename_aux_suffix (_image_path frame) EmptyString)
        as [pre Hpre].
      exists pre. exact Hpre.
    + apply basename_aux_no_slash. simpl. tauto.
Qed.

(** X12: every entry that [apply] returns is named after a frame of the
    run: its file name is the last component of the path of that frame,
    and holds no slash. *)
Theorem apply_filenames (self : Postprocessor) (results : InferResult)
  (this_id : Z) (out : list (BboxInfo * string)) :
  apply denormalize_bounding_bboxes iou_vectorized fit_predict
        return_bbox_info self results this_id true = Ok (Some out) ->
  Forall (named_after_frame self) out.
Proof.
  unfold apply. intros H.
  apply bind_Ok in H as (_ & _ & H).
  apply bind_Ok in H as (vi & _ & H).
  apply bind_Ok in H as (bw & _ & H).
  apply bind_Ok in H as (out' & Hloop & [= <-]).
  exact (render_loop_names _ _ _ _ _ _ Hloop (List.Forall_nil _)).
Qed.

End Names.

Lemma apply_filenames_witness :
  exists out,
    apply Reference.denormalize_bounding_bboxes Reference.iou_vectorized
          Reference.fit_predict Reference.return_bbox_info
          (Examples.postprocessor 2 Examples.five_frames ["car"; "person"])
          Examples.batch_results 1 true
    = Ok (Some out) /\
    Forall (fun e => ~ In "/"%char (list_ascii_of_string (snd e))) out.
Proof.
  eassert (Hout : apply Reference.denormalize_bounding_bboxes
                    Reference.iou_vectorized Reference.fit_predict
                    Reference.return_bbox_info
                    (Examples.postprocessor 2 Examples.five_frames
                       ["car"; "person"])
                    Examples.batch_results 1 true = Ok (Some _))
    by (vm_compute; reflexivity).
  match type of Hout with _ = Ok (Some ?v) => set (out := v) in * end.
  exists out. split; [exact Hout|].
  pose proof (apply_filenames
                Reference.denormalize_bounding_bboxes Reference.iou_vectorized
                Reference.fit_predict _ Reference.return_bbox_info
                (Examples.postprocessor 2 Examples.five_frames ["car"; "person"])
                Examples.batch_results 1 out Hout) as Hnames.
  clear Hout.
  eapply List.Forall_impl; [|exact Hnames].
  intros e (frame & _ & _ & _ & H). exact H.
Defined.

End FilenameFacts.

(** ** The model classes: [predict], [_predict] and [status] *)

Module ClientMore.

Import ModelClient.

Section Predict.

Variable run_client : client_function -> predict_args -> result value.

(** What [_predict] counts: the names of the listing that are regular
    files once appended to [file_path] as it was given. *)
Local Abbreviation counted fs file_path names :=
  (length (List.filter
             (fun name => Os.path_isfile fs (file_path ++ name)) names)).

(** [predict] on a directory, written out. *)
Lemma predict_on_directory cls fs file_path st names :
  Os.listdir fs file_path = Ok names ->
  exists args,
    predict run_client cls fs file_path st
    = (run_client (client_of cls) args,
       {| self := set_batch_size (self st) (arg_batch_size args);
          inference_calls :=
            (inference_calls st ++ [(client_of cls, args)])%list |}) /\
    arg_batch_size args
    = (if (counted fs file_path names <? 256)%nat then 8%Z else 16%Z) /\
    arg_image_filename args = file_path /\
    arg_url args = _url (self st) /\
    arg_model_name args = _model_name (self st) /\
    arg_mode args = _mode (self st) /\
    arg_class_list args = _class_list (self st) /\
    arg_postprocessing_config args = _post_processing_config (self st) /\
    arg_async_set args = async_set_of cls.
Proof.
  intros H. unfold predict, _predict, Os.path_exists.
  unfold Os.listdir in *.
  destruct (fs !! file_path) as [[c|names']|]; try discriminate.
  injection H as ->. cbv beta iota zeta.
  match goal with |- context [run_client _ ?a] => exists a end.
  split; [reflexivity|]. simpl. repeat split; reflexivity.
Qed.

(** X13: [predict] on a path that is a regular file raises
    [NotADirectoryError]: the path exists, so [_predict] runs, and its
    [os.listdir] fails. No request is issued and the instance is as it
    was. *)
Theorem predict_regular_file (cls : model_class) (fs : Os.filesystem)
  (file_path : string) (st : state) :
  Os.path_isfile fs file_path = true ->
  predict run_client cls fs file_path st = (Raise NotADirectoryError, st).
Proof.
  unfold predict, _predict, Os.path_exists, Os.listdir, Os.path_isfile.
  destruct (fs !! file_path) as [[c|names]|]; try discriminate.
  reflexivity.
Qed.

(** X14: [predict] on a directory issues exactly one request, after
    those issued before, to the client function of the class; the request
    carries the attributes of the instance and the path as given, and
    what the client returns or raises is what [predict] returns or
    raises. Also when the client raises, [_batch_size] has been set, to
    the batch size of the request. *)
Theorem predict_one_request (cls : model_class) (fs : Os.filesystem)
  (file_path : string) (st : state) (names : list string) :
  Os.listdir fs file_path = Ok names ->
  exists args,
    inference_calls (snd (predict run_client cls fs file_path st))
    = (inference_calls st ++ [(client_of cls, args)])%list /\
    fst (predict run_client cls fs file_path st)
    = run_client (client_of cls) args /\
    _batch_size (self (snd (predict run_client cls fs file_path st)))
    = Some (arg_batch_size args) /\
    arg_image_filename args = file_path /\
    arg_url args = _url (self st) /\
    arg_model_name args = _model_name (self st) /\
    arg_mode args = _mode (self st) /\
    arg_class_list args = _class_list (self st) /\
    arg_postprocessing_config args = _post_processing_config (self st).
Proof.
  intros H.
  destruct (predict_on_directory cls fs file_path st names H)
    as (args & -> & _ & Himg & Hurl & Hname & Hmode & Hcl & Hcfg & _).
  exists args. simpl. repeat split; assumption.
Qed.

(** X15: the batch size. On a directory [predict] sets [_batch_size] to
    16 when at least 256 names of the listing are regular files at
    [file_path + name] (no separator is put between them), and to 8
    otherwise; a directory with fewer than 256 entries therefore always
    gets 8. *)
Theorem predict_batch_size (cls : model_class) (fs : Os.filesystem)
  (file_path : string) (st : state) (names : list string) :
  Os.listdir fs file_path = Ok names ->
  exists b : Z,
    _batch_size (self (snd (predict run_client cls fs file_path st)))
    = Some b /\
    (b = 16%Z <-> (256 <= counted fs file_path names)%nat) /\
    (b = 8%Z <-> (counted fs file_path names < 256)%nat) /\
    ((length names < 256)%nat -> b = 8%Z).
Proof.
  intros H.
  destruct (predict_on_directory cls fs file_path st names H)
    as (args & -> & Hb & _).
  exists (arg_batch_size args). split; [reflexivity|].
  rewrite Hb.
  pose proof (List.filter_length_le
                (fun name => Os.path_isfile fs (file_path ++ name)) names)
    as Hle.
  destruct (Nat.ltb_spec (counted fs file_path names) 256) as [Hlt|Hge].
  - repeat split; intros; try lia; discriminate.
  - repeat split; intros; try lia; discriminate.
Qed.

(** X16: whatever the path, [predict] leaves the attributes that
    [__init__] set as they were, and keeps the requests issued before, in
    their order, at the head of the issued requests. *)
Theorem predict_preserves_attributes (cls : model_class) (fs : Os.filesystem)
  (file_path : string) (st : state) :
  _url (self (snd (predict run_client cls fs file_path st)))
  = _url (self st) /\
  _model_name (self (snd (predict run_client cls fs file_path st)))
  = _model_name (self st) /\
  _mode (self (snd (predict run_client cls fs file_path st)))
  = _mode (self st) /\
  _class_list (self (snd (predict run_client cls fs file_path st)))
  = _class_list (self st) /\
  _post_processing_config (self (snd (predict run_client cls fs file_path st)))
  = _post_processing_config (self st) /\
  exists new,
    inference_calls (snd (predict run_client cls fs file_path st))
    = (inference_calls st ++ new)%list /\ (length new <= 1)%nat.
Proof.
  unfold predict, _predict.
  destruct (Os.path_exists fs file_path);
    [destruct (Os.listdir fs file_path)|]; simpl;
    repeat split; try reflexivity.
  - eexists; split; [reflexivity|]. simpl. lia.
  - exists []. rewrite app_nil_r. split; [reflexivity|]. simpl. lia.
  - exists []. rewrite app_nil_r. split; [reflexivity|]. simpl. lia.
Qed.

End Predict.

Lemma predict_regular_file_witness :
  predict idle_client LpdModelClass Examples.disk "/images/a.jpg"
          {| self := __init__ LpdModelClass (Some "localhost:8000");
             inference_calls := [] |}
  = (Raise NotADirectoryError,
     {| self := __init__ LpdModelClass (Some "localhost:8000");
        inference_calls := [] |}).
Proof.
  apply (predict_regular_file idle_client LpdModelClass Examples.disk
           "/images/a.jpg").
  vm_compute. reflexivity.
Defined.

Lemma predict_one_request_witness :
  exists args,
    inference_calls
      (snd (predict idle_client TrafficCamNetModelClass_triton_client
                    Examples.disk "/images/"
                    {| self := __init__ TrafficCamNetModelClass_triton_client
                                        (Some "localhost:8000");
                       inference_calls := [] |}))
    = [(trafficcamnet_predict, args)] /\
    arg_image_filename args = "/images/" /\
    arg_model_name args = "trafficcamnet".
Proof.
  destruct (predict_one_request idle_client
              TrafficCamNetModelClass_triton_client Examples.disk "/images/"
              {| self := __init__ TrafficCamNetModelClass_triton_client
                                  (Some "localhost:8000");
                 inference_calls := [] |}
              ["a.jpg"; "b.jpg"])
    as (args & Hcalls & _ & _ & Himg & _ & Hname & _).
  - vm_compute. reflexivity.
  - exists args. split; [exact Hcalls|]. split; [exact Himg | exact Hname].
Defined.

Lemma predict_batch_size_witness :
  _batch_size
    (self (snd (predict idle_client TrafficCamNetModelClass_model_client
                        Examples.disk "/images/"
                        {| self := __init__ TrafficCamNetModelClass_model_client
                                            None;
                           inference_calls := [] |})))
  = Some 8%Z.
Proof.
  destruct (predict_batch_size idle_client
              TrafficCamNetModelClass_model_client Examples.disk "/images/"
              {| self := __init__ TrafficCamNetModelClass_model_client None;
                 inference_calls := [] |}
              ["a.jpg"; "b.jpg"])
    as (b & Hb & _ & _ & Hshort).
  - vm_compute. reflexivity.
  - rewrite Hb. f_equal. apply Hshort. simpl. lia.
Defined.

Import ModelStatus.

Section Status.

Variable requests_get : string -> get_outcome.

(** X17: [status] with a URL set sends one GET, to
    [http://<url>/v2/health/ready]. It reports Active whenever a response
    comes back, whatever its status code; it reports Inactive exactly when
    the request fails with [ConnectionError]; any other failure of the
    request leaves [status] as an exception. *)
Theorem status_reports (i : instance) (url : string) :
  _url i = Some url ->
  snd (status requests_get i) = ["http://" ++ url ++ "/v2/health/ready"] /\
  (fst (status requests_get i) = Returns active <->
   exists code,
     requests_get ("http://" ++ url ++ "/v2/health/ready") = Response code) /\
  (fst (status requests_get i) = Returns inactive <->
   requests_get ("http://" ++ url ++ "/v2/health/ready")
   = Failed ConnectionError) /\
  (forall e,
     fst (status requests_get i) = Raises e <->
     exists e', e = Uncaught e' /\ e' <> ConnectionError /\
       requests_get ("http://" ++ url ++ "/v2/health/ready") = Failed e').
Proof.
  intros Hurl. unfold status. rewrite Hurl.
  destruct (requests_get _) as [code|[|]] eqn:Hget; simpl.
  - split; [reflexivity|]. split; [|split].
    + split; eauto.
    + split; discriminate.
    + intros e. split; [discriminate|]. intros (e' & _ & _ & H). discriminate.
  - split; [reflexivity|]. split; [|split].
    + split; [intros H; exfalso; revert H; vm_compute; discriminate|].
      intros [code H]. discriminate.
    + split; reflexivity.
    + intros e. split; [discriminate|].
      intros (e' & _ & Hne & [= <-]). contradiction.
  - split; [reflexivity|]. split; [|split].
    + split; [discriminate|]. intros [code H]. discriminate.
    + split; discriminate.
    + intros e. split.
      * intros [= <-]. exists OtherRequestError.
        split; [reflexivity|]. split; [discriminate | reflexivity].
      * intros (e' & -> & _ & [= <-]). reflexivity.
Qed.

(** X18: an instance made with [API_URL] unset has no URL, and [status]
    on it raises [TypeError] from the concatenation, which the handler
    does not catch; no request is sent. *)
Theorem status_without_api_url (cls : model_class) :
  status requests_get (__init__ cls None) = (Raises TypeError, []).
Proof. destruct cls; reflexivity. Qed.

End Status.

Lemma status_reports_witness :
  fst (status (answering 400) (__init__ LpdModelClass (Some "localhost:8000")))
  = Returns active /\
  fst (status refusing
              (__init__ TrafficCamNetModelClass_model_client
                        (Some "localhost:8000")))
  = Returns inactive.
Proof.
  split.
  - apply (status_reports (answering 400)
             (__init__ LpdModelClass (Some "localhost:8000"))
             "localhost:8000" eq_refl).
    exists 400%Z. reflexivity.
  - apply (status_reports refusing
             (__init__ TrafficCamNetModelClass_model_client
                       (Some "localhost:8000"))
             "localhost:8000" eq_refl).
    reflexivity.
Defined.

End ClientMore.
